(** * wxauto lite bot: message-handling pipeline

    A shallow embedding of the Python package [wxauto_mgt.lite_bot]
    (token_utils.py, rate_limit.py, storage.py, config.py, models.py,
    llm_client.py, bot.py) and the proofs of the properties its
    specification states about it.  One module per source file holds the
    definitions, under the names of the source; the properties follow, one
    section per component.

    Conventions of the embedding.
    - A Python [str] is a [string]; one character of the model stands for
      one code point of the Python string.  Only [len], slicing,
      concatenation, equality and truthiness are used on texts, and none
      of them looks inside a character.
    - Python [int] is [Z]; wall-clock readings ([time.time()]) are exact
      numbers in [Z] (a fixed unit of time), passed to every method that
      reads the clock as its argument [now].
    - A [dict] keyed by strings is a [gmap string _].
    - [bytes] is [list Byte.byte].
    - The file system below [base_dir] is part of the state of the store
      (the index file, one history log per session, the image files);
      reads and writes of it succeed.
    - Functions of the Python standard library ([hashlib], [re], [base64],
      [str] methods) are taken as the record [pylib]; a call that can
      raise returns an [outcome].
    - The orchestrator keeps a log of the calls it makes ([bot_trace]), so
      that what a run did, and in which order, can be stated. *)

From Stdlib Require Import ZArith String Ascii List Lia Bool.
From stdpp Require Import base option list gmap strings.

Local Open Scope Z_scope.

(** ** Python values shared by the modules *)

Module py.

(** Truthiness of a string and of an optional string ([None] and [""] are
    falsy). *)
Definition truthy (s : string) : bool :=
  negb (String.length s =? 0)%nat.

Definition truthy_opt (o : option string) : bool :=
  match o with
  | Some s => truthy s
  | None => false
  end.

(** [a or b] where [a] is an optional string and [b] a string. *)
Definition or_else (a : option string) (b : string) : string :=
  match a with
  | Some s => if truthy s then s else b
  | None => b
  end.

(** The one-character string of a line feed. *)
Definition newline : string := String (Ascii.ascii_of_nat 10) EmptyString.

(** [len(text)]. *)
Definition len (text : string) : Z := Z.of_nat (String.length text).

(** [text[:stop]], with Python's reading of a negative [stop] (counted from
    the end) and clipping at both ends. *)
Definition slice_to (text : string) (stop : Z) : string :=
  let n := len text in
  let stop' := if stop <? 0 then Z.max 0 (n + stop) else Z.min stop n in
  String.substring 0 (Z.to_nat stop') text.

(** What a call gives back: a value, or an exception that propagates. *)
Inductive outcome (A : Type) : Type :=
| Returned (a : A)
| Raised (exc : string).
Arguments Returned {A} a.
Arguments Raised {A} exc.

(** One part of a structured message content: [{"type": "text", "text": t}]
    or [{"type": "image_url", "image_url": {"url": u}}]. *)
Inductive part : Type :=
| PText (text : string)
| PImageUrl (url : string).

(** The ["content"] of a chat message: a plain string or a list of parts. *)
Inductive content : Type :=
| CText (s : string)
| CParts (items : list part).

(** A role-tagged chat message [{"role": r, "content": c}]. *)
Record message : Type := Message { role : string; msg_content : content }.

End py.

(** ** token_utils.py *)

Module token_utils.
Import py.

(** math.ceil(n / 4) for a length [n >= 0]. *)
Definition ceil_div4 (n : Z) : Z := (n + 3) / 4.

Definition estimate_tokens (text : string) : Z :=
  if truthy text then Z.max 1 (ceil_div4 (len text)) else 0.

(** [estimate_tokens] applied to the list of parts itself, as the history
    walk of [_trim_context] does with [record.get("content", "")] when the
    content is not a string: [len] is then the number of parts. *)
Definition estimate_tokens_seq {A : Type} (items : list A) : Z :=
  match items with
  | [] => 0
  | _ => Z.max 1 (ceil_div4 (Z.of_nat (length items)))
  end.

Definition estimate_part_tokens (item : part) : Z :=
  match item with
  | PText t => estimate_tokens t
  | PImageUrl _ => 0
  end.

Definition estimate_message_tokens (m : message) : Z :=
  match msg_content m with
  | CParts items => fold_left (fun tokens item => tokens + estimate_part_tokens item) items 0
  | CText s => estimate_tokens s
  end.

Definition estimate_messages_tokens (messages : list message) : Z :=
  fold_left (fun acc m => acc + estimate_message_tokens m) messages 0.

Definition truncate_text_to_tokens (text : string) (max_tokens : Z) : string :=
  if estimate_tokens text <=? max_tokens then text
  else
    let max_chars := max_tokens * 4 in
    slice_to text max_chars.

End token_utils.

(** ** rate_limit.py *)

Module rate_limit.

(** *** DedupeCache *)

Record DedupeCache : Type := mkDedupeCache {
  dc_window_seconds : Z;
  dc_cache : gmap string Z
}.

Definition DedupeCache_init (window_seconds : Z) : DedupeCache :=
  mkDedupeCache window_seconds ∅.

(** [[k for k, ts in self.cache.items() if now - ts > self.window_seconds]] *)
Definition expired_keys (window_seconds now : Z) (cache : gmap string Z) : list string :=
  fst <$> filter (fun kts : string * Z => bool_decide (now - snd kts > window_seconds))
                 (map_to_list cache).

(** [for item in expired: self.cache.pop(item, None)] *)
Definition pop_all (items : list string) (cache : gmap string Z) : gmap string Z :=
  fold_left (fun c item => delete item c) items cache.

Definition seen_recently (now : Z) (key : string) (self : DedupeCache)
  : bool * DedupeCache :=
  let expired := expired_keys (dc_window_seconds self) now (dc_cache self) in
  let cache := pop_all expired (dc_cache self) in
  match cache !! key with
  | Some _ => (true, mkDedupeCache (dc_window_seconds self) cache)
  | None => (false, mkDedupeCache (dc_window_seconds self) (<[key := now]> cache))
  end.

(** *** CooldownManager *)

Record CooldownManager : Type := mkCooldownManager {
  cm_cooldown_seconds : Z;
  cm_last_hit : gmap string Z
}.

Definition CooldownManager_init (cooldown_seconds : Z) : CooldownManager :=
  mkCooldownManager cooldown_seconds ∅.

(** [self.last_hit.get(key, 0.0)] *)
Definition last_hit_of (self : CooldownManager) (key : string) : Z :=
  default 0 (cm_last_hit self !! key).

Definition in_cooldown (now : Z) (key : string) (self : CooldownManager)
  : bool * CooldownManager :=
  if now - last_hit_of self key <? cm_cooldown_seconds self
  then (true, self)
  else (false, mkCooldownManager (cm_cooldown_seconds self)
                                 (<[key := now]> (cm_last_hit self))).

(** *** FailureTracker *)

Record FailureTracker : Type := mkFailureTracker {
  ft_max_failures : Z;
  ft_cooldown_seconds : Z;
  ft_failures : gmap string Z;
  ft_cooldowns : gmap string Z
}.

Definition FailureTracker_init (max_failures cooldown_seconds : Z) : FailureTracker :=
  mkFailureTracker max_failures cooldown_seconds ∅ ∅.

(** The consecutive-failure counter of [key] ([defaultdict(int)]). *)
Definition failure_count (self : FailureTracker) (key : string) : Z :=
  default 0 (ft_failures self !! key).

(** [now] is the value [time.time()] returns; it is read only when the
    threshold is reached. *)
Definition register_failure (now : Z) (key : string) (self : FailureTracker)
  : FailureTracker :=
  let failures := <[key := failure_count self key + 1]> (ft_failures self) in
  if ft_max_failures self <=? default 0 (failures !! key)
  then mkFailureTracker (ft_max_failures self) (ft_cooldown_seconds self) failures
         (<[key := now + ft_cooldown_seconds self]> (ft_cooldowns self))
  else mkFailureTracker (ft_max_failures self) (ft_cooldown_seconds self) failures
         (ft_cooldowns self).

Definition register_success (key : string) (self : FailureTracker) : FailureTracker :=
  mkFailureTracker (ft_max_failures self) (ft_cooldown_seconds self)
    (<[key := 0]> (ft_failures self))
    (delete key (ft_cooldowns self)).

(** [until and time.time() < until]: a zero [until] is falsy. *)
Definition is_blocked (now : Z) (key : string) (self : FailureTracker) : bool :=
  let until := default 0 (ft_cooldowns self !! key) in
  negb (until =? 0) && (now <? until).

End rate_limit.

(** ** Library functions the package calls

    Functions of the Python standard library that the embedding does not
    look inside; every definition below that needs one takes this record. *)

Record pylib : Type := PyLib {
  (** [hashlib.sha1(s.encode("utf-8")).hexdigest()] *)
  sha1_hexdigest : string -> string;
  (** [hashlib.sha256(b).hexdigest()] *)
  sha256_hexdigest : list Byte.byte -> string;
  (** [base64.b64encode(b).decode("utf-8")] *)
  b64encode : list Byte.byte -> string;
  (** [s.lower()] *)
  str_lower : string -> string;
  (** [s.strip()] *)
  str_strip : string -> string;
  (** [bool(re.search(pattern, text))]; [re.error] for a pattern that does
      not compile *)
  re_search : string -> string -> py.outcome bool;
  (** [str(x)] of a float, as an f-string formats a clock reading *)
  str_float : Z -> string;
  (** [os.sep] *)
  os_sep : string;
  (** the literal that starts the placeholder of an image record in
      [_history_to_messages], up to and including [hash=] *)
  lit_image_placeholder : string;
  (** the literal default text prompt of [_build_latest_message] *)
  lit_describe_image : string
}.

(** ** A reference implementation of the library functions

    Used to run the embedding on concrete inputs: SHA-1 and SHA-256 as
    FIPS 180-4 defines them and base64 as RFC 4648 does; [lower], [strip],
    [re.search] and [str] of a float in the form they take on the inputs
    of the examples (ASCII text, a pattern of literal characters, a clock
    reading that is a whole number). *)

Module pyref.

Definition w32 (x : Z) : Z := x mod 2 ^ 32.

(** Rotate a 32-bit word left and right. *)
Definition rotl (n x : Z) : Z := w32 (Z.lor (Z.shiftl x n) (Z.shiftr x (32 - n))).
Definition rotr (n x : Z) : Z := w32 (Z.lor (Z.shiftr x n) (Z.shiftl x (32 - n))).

(** The [n] low bytes of [x], most significant first. *)
Fixpoint be_bytes (n : nat) (x : Z) : list Z :=
  match n with
  | O => []
  | S n' => be_bytes n' (Z.shiftr x 8) ++ [x mod 256]
  end.

Definition be_word (bytes : list Z) : Z :=
  fold_left (fun acc b => acc * 256 + b) bytes 0.

(** Padding of FIPS 180-4, section 5.1.1. *)
Definition sha_pad (message : list Z) : list Z :=
  let l := Z.of_nat (length message) in
  message ++ [128] ++ repeat 0 (Z.to_nat ((55 - l) mod 64)) ++ be_bytes 8 (8 * l).

(** The first [n] groups of [size] elements of [l]. *)
Fixpoint groups {A : Type} (size n : nat) (l : list A) : list (list A) :=
  match n with
  | O => []
  | S n' => firstn size l :: groups size n' (skipn size l)
  end.

Definition block_words (block : list Z) : list Z :=
  map be_word (groups 4 16 block).

Definition blocks_of (message : list Z) : list (list Z) :=
  let padded := sha_pad message in
  map block_words (groups 64 (length padded / 64) padded).

(** Extend a message schedule by [n] words, each computed by [next] from
    the words so far. *)
Fixpoint extend (next : list Z -> Z) (n : nat) (w : list Z) : list Z :=
  match n with
  | O => w
  | S n' => extend next n' (w ++ [next w])
  end.

Definition word_at (w : list Z) (i : nat) : Z := nth i w 0.

Definition hex_digit (d : Z) : ascii :=
  if d <? 10 then ascii_of_nat (Z.to_nat (48 + d)) else ascii_of_nat (Z.to_nat (87 + d)).

Definition hex_of_byte (b : Z) : string :=
  String (hex_digit (b / 16)) (String (hex_digit (b mod 16)) EmptyString).

Definition hex_of_words (words : list Z) : string :=
  String.concat "" (map hex_of_byte (concat (map (be_bytes 4) words))).

(** *** SHA-1 *)

Definition sha1_schedule (block : list Z) : list Z :=
  extend (fun w =>
            let t := length w in
            rotl 1 (Z.lxor (Z.lxor (word_at w (t - 3)) (word_at w (t - 8)))
                           (Z.lxor (word_at w (t - 14)) (word_at w (t - 16)))))
         64 block.

Definition sha1_f (t : nat) (b c d : Z) : Z :=
  if (t <? 20)%nat then Z.lor (Z.land b c) (Z.land (Z.lxor b 4294967295) d)
  else if (t <? 40)%nat then Z.lxor (Z.lxor b c) d
  else if (t <? 60)%nat then Z.lor (Z.lor (Z.land b c) (Z.land b d)) (Z.land c d)
  else Z.lxor (Z.lxor b c) d.

Definition sha1_k (t : nat) : Z :=
  if (t <? 20)%nat then 1518500249
  else if (t <? 40)%nat then 1859775393
  else if (t <? 60)%nat then 2400959708
  else 3395469782.

Definition sha1_round (st : Z * Z * Z * Z * Z) (tw : nat * Z) : Z * Z * Z * Z * Z :=
  let '(a, b, c, d, e) := st in
  let '(t, wt) := tw in
  (w32 (rotl 5 a + sha1_f t b c d + e + sha1_k t + wt), a, rotl 30 b, c, d).

Definition sha1_block (h : Z * Z * Z * Z * Z) (block : list Z) : Z * Z * Z * Z * Z :=
  let w := sha1_schedule block in
  let '(a, b, c, d, e) := fold_left sha1_round (combine (seq 0 80) w) h in
  let '(h0, h1, h2, h3, h4) := h in
  (w32 (h0 + a), w32 (h1 + b), w32 (h2 + c), w32 (h3 + d), w32 (h4 + e)).

Definition sha1_hex (message : list Z) : string :=
  let '(h0, h1, h2, h3, h4) :=
    fold_left sha1_block (blocks_of message)
      (1732584193, 4023233417, 2562383102, 271733878, 3285377520) in
  hex_of_words [h0; h1; h2; h3; h4].

(** *** SHA-256 *)

Definition sha256_k : list Z :=
  [1116352408; 1899447441; 3049323471; 3921009573; 961987163; 1508970993; 2453635748;
   2870763221; 3624381080; 310598401; 607225278; 1426881987; 1925078388; 2162078206;
   2614888103; 3248222580; 3835390401; 4022224774; 264347078; 604807628; 770255983;
   1249150122; 1555081692; 1996064986; 2554220882; 2821834349; 2952996808; 3210313671;
   3336571891; 3584528711; 113926993; 338241895; 666307205; 773529912; 1294757372;
   1396182291; 1695183700; 1986661051; 2177026350; 2456956037; 2730485921; 2820302411;
   3259730800; 3345764771; 3516065817; 3600352804; 4094571909; 275423344; 430227734;
   506948616; 659060556; 883997877; 958139571; 1322822218; 1537002063; 1747873779;
   1955562222; 2024104815; 2227730452; 2361852424; 2428436474; 2756734187; 3204031479;
   3329325298].

Definition sha256_schedule (block : list Z) : list Z :=
  extend (fun w =>
            let t := length w in
            let w15 := word_at w (t - 15) in
            let w2 := word_at w (t - 2) in
            let s0 := Z.lxor (Z.lxor (rotr 7 w15) (rotr 18 w15)) (Z.shiftr w15 3) in
            let s1 := Z.lxor (Z.lxor (rotr 17 w2) (rotr 19 w2)) (Z.shiftr w2 10) in
            w32 (word_at w (t - 16) + s0 + word_at w (t - 7) + s1))
         48 block.

Definition sha256_round (st : list Z) (kw : Z * Z) : list Z :=
  match st with
  | [a; b; c; d; e; f; g; h] =>
      let s1 := Z.lxor (Z.lxor (rotr 6 e) (rotr 11 e)) (rotr 25 e) in
      let ch := Z.lxor (Z.land e f) (Z.land (Z.lxor e 4294967295) g) in
      let temp1 := w32 (h + s1 + ch + fst kw + snd kw) in
      let s0 := Z.lxor (Z.lxor (rotr 2 a) (rotr 13 a)) (rotr 22 a) in
      let maj := Z.lxor (Z.lxor (Z.land a b) (Z.land a c)) (Z.land b c) in
      let temp2 := w32 (s0 + maj) in
      [w32 (temp1 + temp2); a; b; c; w32 (d + temp1); e; f; g]
  | _ => st
  end.

Definition sha256_block (h : list Z) (block : list Z) : list Z :=
  let w := sha256_schedule block in
  map (fun p => w32 (fst p + snd p))
      (combine h (fold_left sha256_round (combine sha256_k w) h)).

Definition sha256_hex (message : list Z) : string :=
  hex_of_words
    (fold_left sha256_block (blocks_of message)
       [1779033703; 3144134277; 1013904242; 2773480762; 1359893119; 2600822924;
        528734635; 1541459225]).

(** *** Text and bytes *)

(** UTF-8 of a text whose code points are below 256. *)
Definition utf8_encode (s : string) : list Z :=
  concat (map (fun c : ascii =>
                 let n := Z.of_nat (nat_of_ascii c) in
                 if n <? 128 then [n] else [192 + n / 64; 128 + n mod 64])
              (list_ascii_of_string s)).

Definition bytes_to_Z (b : list Byte.byte) : list Z :=
  map (fun x => Z.of_N (Byte.to_N x)) b.

Definition b64_char (d : Z) : ascii :=
  if d <? 26 then ascii_of_nat (Z.to_nat (65 + d))
  else if d <? 52 then ascii_of_nat (Z.to_nat (71 + d))
  else if d <? 62 then ascii_of_nat (Z.to_nat (d - 4))
  else if d =? 62 then "+"%char else "/"%char.

Definition b64_group (g : list Z) : string :=
  match g with
  | [a] =>
      String (b64_char (a / 4)) (String (b64_char (a mod 4 * 16)) "==")
  | [a; b] =>
      String (b64_char (a / 4))
        (String (b64_char (a mod 4 * 16 + b / 16)) (String (b64_char (b mod 16 * 4)) "="))
  | [a; b; c] =>
      String (b64_char (a / 4))
        (String (b64_char (a mod 4 * 16 + b / 16))
           (String (b64_char (b mod 16 * 4 + c / 64)) (String (b64_char (c mod 64)) "")))
  | _ => EmptyString
  end.

Definition b64encode_Z (bytes : list Z) : string :=
  String.concat "" (map b64_group (groups 3 ((length bytes + 2) / 3) bytes)).

Definition lower_ascii (c : ascii) : ascii :=
  let n := nat_of_ascii c in
  if (65 <=? n)%nat && (n <=? 90)%nat then ascii_of_nat (n + 32) else c.

Definition lower (s : string) : string :=
  string_of_list_ascii (map lower_ascii (list_ascii_of_string s)).

Definition is_space (c : ascii) : bool :=
  let n := nat_of_ascii c in
  ((9 <=? n)%nat && (n <=? 13)%nat) || (n =? 32)%nat.

Fixpoint lstrip (s : string) : string :=
  match s with
  | String c rest => if is_space c then lstrip rest else s
  | EmptyString => s
  end.

Definition strip (s : string) : string :=
  string_of_list_ascii
    (rev (list_ascii_of_string
            (lstrip (string_of_list_ascii (rev (list_ascii_of_string (lstrip s))))))).

(** Decimal digits of a natural number; [fuel] bounds their count. *)
Fixpoint digits (fuel : nat) (n : Z) (acc : string) : string :=
  match fuel with
  | O => acc
  | S fuel' =>
      let acc' := String (ascii_of_nat (Z.to_nat (48 + n mod 10))) acc in
      if n <? 10 then acc' else digits fuel' (n / 10) acc'
  end.

(** [str(float(n))] for a whole number [0 <= n < 10^16]. *)
Definition str_whole_float (n : Z) : string :=
  (digits 20 n "" ++ ".0")%string.

(** [needle in haystack]. *)
Fixpoint occurs (needle haystack : string) : bool :=
  String.prefix needle haystack ||
  match haystack with
  | EmptyString => false
  | String _ rest => occurs needle rest
  end.

Definition lib : pylib :=
  {| sha1_hexdigest := fun s => sha1_hex (utf8_encode s);
     sha256_hexdigest := fun b => sha256_hex (bytes_to_Z b);
     b64encode := fun b => b64encode_Z (bytes_to_Z b);
     str_lower := lower;
     str_strip := strip;
     re_search := fun pattern text => py.Returned (occurs pattern text);
     str_float := str_whole_float;
     os_sep := "/";
     lit_image_placeholder := "[image] hash=";
     lit_describe_image := "Please describe this image." |}.

End pyref.

(** ** storage.py *)

Module storage.
Import py.

Record StoredImage : Type := mkStoredImage {
  relative_path : string;
  sha256 : string;
  size : Z;
  mime_type : string
}.

(** One value of the ["sessions"] dict of the index. *)
Record session_entry : Type := mkSessionEntry {
  se_id : string;
  se_display_name : option string;
  se_scope : string;
  se_key : string
}.

(** [si_sessions] is [self.data["sessions"]]; [si_file] is the content of
    [session_index.json] ([None] while the file does not exist). *)
Record SessionIndex : Type := mkSessionIndex {
  si_sessions : gmap string session_entry;
  si_file : option (gmap string session_entry)
}.

(** [__init__] followed by [_load]. *)
Definition SessionIndex_init (file : option (gmap string session_entry)) : SessionIndex :=
  match file with
  | None => mkSessionIndex ∅ None
  | Some sessions => mkSessionIndex sessions (Some sessions)
  end.

Definition save (self : SessionIndex) : SessionIndex :=
  mkSessionIndex (si_sessions self) (Some (si_sessions self)).

Definition make_session_key (scope key : string) : string :=
  (scope ++ ":" ++ key)%string.

Definition get_or_create (lib : pylib) (scope key : string) (display_name : option string)
    (self : SessionIndex) : string * SessionIndex :=
  let sessions := si_sessions self in
  let session_key := make_session_key scope key in
  match sessions !! session_key with
  | Some entry => (se_id entry, self)
  | None =>
      let session_id := slice_to (sha1_hexdigest lib session_key) 16 in
      let sessions' :=
        <[session_key := mkSessionEntry session_id display_name scope key]> sessions in
      (session_id, save (mkSessionIndex sessions' (si_file self)))
  end.

(** The ["image"] sub-dict of a history record. *)
Record image_record : Type := mkImageRecord {
  ir_path : string;
  ir_sha256 : string;
  ir_size : Z;
  ir_mime : string
}.

(** One line of [history.jsonl], as [_append_history] and [_append_reply]
    build it. *)
Record history_record : Type := mkHistoryRecord {
  hr_timestamp : Z;
  hr_direction : string;
  hr_sender : string;
  hr_type : string;
  hr_content : option string;
  hr_message_id : string;
  hr_session_key : string;
  hr_image : option image_record
}.

(** Files are addressed below [base_dir]: a history log by [(scope,
    session_id)], an image by [(scope, session_id, filename)].
    [ss_image_writes] lists the [write_bytes] calls made so far, oldest
    first. *)
Record SessionStore : Type := mkSessionStore {
  ss_index : SessionIndex;
  ss_histories : gmap (string * string) (list history_record);
  ss_images : gmap (string * string * string) (list Byte.byte);
  ss_image_writes : list (string * string * string)
}.

Definition resolve_session (lib : pylib) (scope key : string) (display_name : option string)
    (self : SessionStore) : string * SessionStore :=
  let '(session_id, index) := get_or_create lib scope key display_name (ss_index self) in
  (session_id, mkSessionStore index (ss_histories self) (ss_images self) (ss_image_writes self)).

Definition load_history (scope session_id : string) (self : SessionStore)
  : list history_record :=
  default [] (ss_histories self !! (scope, session_id)).

Definition append_history (scope session_id : string) (record : history_record)
    (self : SessionStore) : SessionStore :=
  mkSessionStore (ss_index self)
    (<[(scope, session_id) := load_history scope session_id self ++ [record]]> (ss_histories self))
    (ss_images self) (ss_image_writes self).

(** [s.split(sep)[-1]] when [sep] occurs in [s], else [None]. *)
Fixpoint after_last (sep : ascii) (s : string) : option string :=
  match s with
  | EmptyString => None
  | String c rest =>
      match after_last sep rest with
      | Some tail => Some tail
      | None => if Ascii.eqb c sep then Some rest else None
      end
  end.

Definition image_filename (lib : pylib) (image_bytes : list Byte.byte)
    (mime_type : string) (message_id : option string) : string :=
  let sha256 := sha256_hexdigest lib image_bytes in
  let extension := default "bin"%string (after_last "/"%char mime_type) in
  let stable_name := or_else message_id (slice_to sha256 16) in
  (stable_name ++ "." ++ extension)%string.

(** [os.path.relpath(target_path, self.base_dir)] for
    [target_path = base_dir / scope / session_id / "images" / filename]. *)
Definition image_relpath (lib : pylib) (scope session_id filename : string) : string :=
  (scope ++ os_sep lib ++ session_id ++ os_sep lib ++ "images" ++ os_sep lib ++ filename)%string.

Definition save_image (lib : pylib) (scope session_id : string)
    (image_bytes : list Byte.byte) (mime_type : string) (message_id : option string)
    (self : SessionStore) : StoredImage * SessionStore :=
  let sha256 := sha256_hexdigest lib image_bytes in
  let filename := image_filename lib image_bytes mime_type message_id in
  let target_path := (scope, session_id, filename) in
  let self' :=
    match ss_images self !! target_path with
    | Some _ => self
    | None =>
        mkSessionStore (ss_index self) (ss_histories self)
          (<[target_path := image_bytes]> (ss_images self))
          (ss_image_writes self ++ [target_path])
    end in
  (mkStoredImage (image_relpath lib scope session_id filename) sha256
     (Z.of_nat (length image_bytes)) mime_type,
   self').

End storage.

(** ** config.py *)

Module config.
Import py.

Record PersonaConfig : Type := mkPersonaConfig {
  global_prompt : string;
  private_prompt : option string;
  group_prompt : option string
}.

Definition prompt_for_scope (self : PersonaConfig) (scope : string) : string :=
  if (scope =? "group")%string && truthy_opt (group_prompt self)
  then (global_prompt self ++ newline ++ default "" (group_prompt self))%string
  else if (scope =? "private")%string && truthy_opt (private_prompt self)
  then (global_prompt self ++ newline ++ default "" (private_prompt self))%string
  else global_prompt self.

Record TriggerConfig : Type := mkTriggerConfig {
  private_mode : string;
  private_keywords : list string;
  private_regex : option string;
  group_mode : string;
  group_keywords : list string
}.

(** Of [ApiConfig] the orchestrator reads [max_output_tokens]; the other
    fields configure the HTTP request of [LlmClient]. *)
Record ApiConfig : Type := mkApiConfig {
  max_output_tokens : Z
}.

Record LimitsConfig : Type := mkLimitsConfig {
  token_budget : Z;
  min_reserved_output_tokens : Z;
  max_group_output_tokens : Z;
  max_private_output_tokens : Z;
  max_single_message_tokens : Z
}.

Record DedupeConfig : Type := mkDedupeConfig { window_seconds : Z }.

Record RateLimitConfig : Type := mkRateLimitConfig {
  session_cooldown_seconds : Z;
  user_cooldown_seconds : Z
}.

Record FailureConfig : Type := mkFailureConfig {
  max_consecutive_failures : Z;
  cooldown_seconds : Z;
  fallback_reply : string
}.

Record VisionConfig : Type := mkVisionConfig {
  enable_private : bool;
  enable_group : bool
}.

Record ReplyConfig : Type := mkReplyConfig {
  private_fixed_reply : option string;
  group_fixed_reply : option string
}.

Record BotConfig : Type := mkBotConfig {
  persona : PersonaConfig;
  trigger : TriggerConfig;
  api : ApiConfig;
  limits : LimitsConfig;
  dedupe : DedupeConfig;
  rate_limit : RateLimitConfig;
  failure : FailureConfig;
  vision : VisionConfig;
  reply : ReplyConfig;
  self_user_id : option string
}.

End config.

(** ** models.py *)

Module models.

Record IncomingMessage : Type := mkIncomingMessage {
  message_id : string;
  timestamp : Z;
  sender_id : string;
  sender_name : string;
  content : option string;
  msg_type : string;
  is_group : bool;
  group_id : option string;
  group_name : option string;
  is_at : bool;
  conversation_id : option string;
  image_bytes : option (list Byte.byte);
  image_name : option string;
  image_mime : option string
}.

Record SessionInfo : Type := mkSessionInfo {
  scope : string;
  session_id : string;
  session_key : string;
  display_name : option string
}.

End models.

(** ** llm_client.py *)

Module llm_client.
Import py.

(** What [requests.post] does for one request: it raises (timeout,
    connection failure), or it returns a response with a status code;
    [resp_text] is what reading the body of that response yields (the
    extracted content of the JSON answer or the joined chunks of the
    stream), itself possibly an exception of the decoder. *)
Inductive post_result : Type :=
| PostRaised (exc : string)
| PostResponse (status_code : Z) (resp_text : outcome string).

(** [response.raise_for_status()]: [HTTPError] for a 4xx or 5xx status. *)
Definition raise_for_status (status_code : Z) : outcome unit :=
  if (400 <=? status_code) && (status_code <? 600)
  then Raised "HTTPError"
  else Returned tt.

Definition send (post : list message -> post_result) (messages : list message)
  : outcome string :=
  match post messages with
  | PostRaised exc => Raised exc
  | PostResponse status_code resp_text =>
      match raise_for_status status_code with
      | Raised exc => Raised exc
      | Returned _ => resp_text
      end
  end.

Definition image_to_message (lib : pylib) (image_bytes : list Byte.byte)
    (mime_type : string) : part :=
  PImageUrl ("data:" ++ mime_type ++ ";base64," ++ b64encode lib image_bytes)%string.

End llm_client.

(** ** bot.py *)

Module bot.
Import py token_utils config models.

(** Calls the orchestrator makes to its collaborators, in the order they
    happen (a ghost log kept next to the state of the bot). *)
Inductive event : Type :=
| EvSaveImage (scope session_id : string)
| EvAppendHistory (scope session_id : string) (record : storage.history_record)
| EvCooldownCheck (manager key : string)
| EvLoadHistory (scope session_id : string)
| EvLlmSend (messages : list message)
| EvSendText (session : SessionInfo) (text : string).

(** What the world answers during one run of [handle_message]: the clock
    reading at each call site of [time.time()], the HTTP exchange of the
    model client, and the chat adapter. *)
Record run_env : Type := mkRunEnv {
  t_seen_recently : Z;
  t_is_blocked : Z;
  t_session_cooldown : Z;
  t_user_cooldown : Z;
  t_register_failure : Z;
  t_reply_timestamp : Z;
  t_reply_id : Z;
  http_post : list message -> llm_client.post_result;
  adapter_send_text : SessionInfo -> string -> outcome unit
}.

Record WxAutoBot : Type := mkWxAutoBot {
  bot_config : BotConfig;
  bot_store : storage.SessionStore;
  bot_dedupe : rate_limit.DedupeCache;
  bot_session_cooldown : rate_limit.CooldownManager;
  bot_user_cooldown : rate_limit.CooldownManager;
  bot_failure_tracker : rate_limit.FailureTracker;
  bot_vision_cache : gmap string string;
  bot_trace : list event
}.

(** [__init__]; [index_file] is the session index found on disk. *)
Definition WxAutoBot_init (cfg : BotConfig)
    (index_file : option (gmap string storage.session_entry)) : WxAutoBot :=
  mkWxAutoBot cfg
    (storage.mkSessionStore (storage.SessionIndex_init index_file) ∅ ∅ [])
    (rate_limit.DedupeCache_init (window_seconds (dedupe cfg)))
    (rate_limit.CooldownManager_init (session_cooldown_seconds (rate_limit cfg)))
    (rate_limit.CooldownManager_init (user_cooldown_seconds (rate_limit cfg)))
    (rate_limit.FailureTracker_init (max_consecutive_failures (failure cfg))
       (cooldown_seconds (failure cfg)))
    ∅ [].

Definition set_store (st : storage.SessionStore) (self : WxAutoBot) : WxAutoBot :=
  mkWxAutoBot (bot_config self) st (bot_dedupe self) (bot_session_cooldown self)
    (bot_user_cooldown self) (bot_failure_tracker self) (bot_vision_cache self)
    (bot_trace self).

Definition set_dedupe (d : rate_limit.DedupeCache) (self : WxAutoBot) : WxAutoBot :=
  mkWxAutoBot (bot_config self) (bot_store self) d (bot_session_cooldown self)
    (bot_user_cooldown self) (bot_failure_tracker self) (bot_vision_cache self)
    (bot_trace self).

Definition set_session_cooldown (c : rate_limit.CooldownManager) (self : WxAutoBot)
  : WxAutoBot :=
  mkWxAutoBot (bot_config self) (bot_store self) (bot_dedupe self) c
    (bot_user_cooldown self) (bot_failure_tracker self) (bot_vision_cache self)
    (bot_trace self).

Definition set_user_cooldown (c : rate_limit.CooldownManager) (self : WxAutoBot)
  : WxAutoBot :=
  mkWxAutoBot (bot_config self) (bot_store self) (bot_dedupe self)
    (bot_session_cooldown self) c (bot_failure_tracker self) (bot_vision_cache self)
    (bot_trace self).

Definition set_failure_tracker (f : rate_limit.FailureTracker) (self : WxAutoBot)
  : WxAutoBot :=
  mkWxAutoBot (bot_config self) (bot_store self) (bot_dedupe self)
    (bot_session_cooldown self) (bot_user_cooldown self) f (bot_vision_cache self)
    (bot_trace self).

Definition set_vision_cache (v : gmap string string) (self : WxAutoBot) : WxAutoBot :=
  mkWxAutoBot (bot_config self) (bot_store self) (bot_dedupe self)
    (bot_session_cooldown self) (bot_user_cooldown self) (bot_failure_tracker self) v
    (bot_trace self).

Definition emit (ev : event) (self : WxAutoBot) : WxAutoBot :=
  mkWxAutoBot (bot_config self) (bot_store self) (bot_dedupe self)
    (bot_session_cooldown self) (bot_user_cooldown self) (bot_failure_tracker self)
    (bot_vision_cache self) (bot_trace self ++ [ev]).

(** The events logged between the states [before] and [after]. *)
Definition new_events (before after : WxAutoBot) : list event :=
  drop (length (bot_trace before)) (bot_trace after).




Definition _is_self_message (cfg : BotConfig) (msg : IncomingMessage) : bool :=
  match self_user_id cfg with
  | Some uid => if truthy uid then (sender_id msg =? uid)%string else false
  | None => false
  end.

Definition scope_of (msg : IncomingMessage) : string :=
  if is_group msg then "group"%string else "private"%string.

Definition session_key_of (msg : IncomingMessage) : string :=
  if truthy_opt (conversation_id msg) then default "" (conversation_id msg)
  else if is_group msg
  then or_else (group_id msg) (or_else (group_name msg) (sender_id msg))
  else sender_id msg.

Definition display_name_of (msg : IncomingMessage) : option string :=
  if is_group msg then group_name msg else Some (sender_name msg).

Definition _resolve_session (lib : pylib) (msg : IncomingMessage) (self : WxAutoBot)
  : SessionInfo * WxAutoBot :=
  let scope := scope_of msg in
  let session_key := session_key_of msg in
  let display_name := display_name_of msg in
  let '(session_id, st) :=
    storage.resolve_session lib scope session_key display_name (bot_store self) in
  (mkSessionInfo scope session_id session_key display_name, set_store st self).

(** How an f-string renders an optional string. *)
Definition str_of_opt (o : option string) : string :=
  match o with
  | Some s => s
  | None => "None"%string
  end.

Definition _hash_content (lib : pylib) (msg : IncomingMessage) : string :=
  let base := (sender_id msg ++ ":" ++ str_of_opt (content msg) ++ ":"
               ++ str_float lib (timestamp msg))%string in
  sha1_hexdigest lib base.

(** [msg.message_id or self._hash_content(msg)] *)
Definition unique_key_of (lib : pylib) (msg : IncomingMessage) : string :=
  if truthy (message_id msg) then message_id msg else _hash_content lib msg.

(** [needle in haystack] on strings. *)
Fixpoint contains (needle haystack : string) : bool :=
  String.prefix needle haystack ||
  match haystack with
  | EmptyString => false
  | String _ rest => contains needle rest
  end.

Definition _match_keywords (lib : pylib) (content : option string)
    (keywords : list string) : bool :=
  if negb (truthy_opt content) || match keywords with [] => true | _ => false end
  then false
  else
    let lowered := str_lower lib (default "" content) in
    existsb (fun keyword => contains (str_lower lib keyword) lowered) keywords.

Definition _should_trigger (lib : pylib) (cfg : BotConfig) (msg : IncomingMessage)
  : outcome bool :=
  if is_group msg then
    if (group_mode (trigger cfg) =? "mention_keyword")%string
    then Returned (is_at msg &&
                   _match_keywords lib (content msg) (group_keywords (trigger cfg)))
    else Returned (is_at msg)
  else if (private_mode (trigger cfg) =? "always")%string then Returned true
  else if (private_mode (trigger cfg) =? "keyword")%string
  then Returned (_match_keywords lib (content msg) (private_keywords (trigger cfg)))
  else if (private_mode (trigger cfg) =? "regex")%string
          && truthy_opt (private_regex (trigger cfg))
  then re_search lib (default "" (private_regex (trigger cfg)))
         (or_else (content msg) "")
  else Returned false.

Definition image_record_of (image_meta : storage.StoredImage) : storage.image_record :=
  storage.mkImageRecord (storage.relative_path image_meta) (storage.sha256 image_meta)
    (storage.size image_meta) (storage.mime_type image_meta).

(** The record [_append_history] writes for an inbound event. *)
Definition received_record (msg : IncomingMessage) (session : SessionInfo)
    (image_meta : option storage.StoredImage) : storage.history_record :=
  storage.mkHistoryRecord (timestamp msg) "received" (sender_name msg) (msg_type msg)
    (content msg) (message_id msg) (session_key session)
    (image_record_of <$> image_meta).

Definition _append_history (msg : IncomingMessage) (session : SessionInfo)
    (image_meta : option storage.StoredImage) (self : WxAutoBot) : WxAutoBot :=
  let record := received_record msg session image_meta in
  emit (EvAppendHistory (scope session) (session_id session) record)
    (set_store
       (storage.append_history (scope session) (session_id session) record (bot_store self))
       self).

(** The record [_append_reply] writes for an outbound reply. *)
Definition sent_record (lib : pylib) (env : run_env) (session : SessionInfo)
    (content : string) : storage.history_record :=
  storage.mkHistoryRecord (t_reply_timestamp env) "sent" "bot" "text" (Some content)
    (sha1_hexdigest lib
       ("reply:" ++ content ++ ":" ++ str_float lib (t_reply_id env))%string)
    (session_key session) None.

Definition _append_reply (lib : pylib) (env : run_env) (session : SessionInfo)
    (content : string) (self : WxAutoBot) : WxAutoBot :=
  let record := sent_record lib env session content in
  emit (EvAppendHistory (scope session) (session_id session) record)
    (set_store
       (storage.append_history (scope session) (session_id session) record (bot_store self))
       self).

Definition _fixed_reply_for_scope (cfg : BotConfig) (scope : string) : option string :=
  if (scope =? "group")%string then group_fixed_reply (reply cfg)
  else private_fixed_reply (reply cfg).

Definition _should_process_image (cfg : BotConfig) (msg : IncomingMessage) : bool :=
  if is_group msg then enable_group (vision cfg) && is_at msg
  else enable_private (vision cfg).

Definition history_record_to_message (lib : pylib) (record : storage.history_record)
  : message :=
  let role := if (storage.hr_direction record =? "sent")%string
              then "assistant"%string else "user"%string in
  let content :=
    if (storage.hr_type record =? "image")%string
    then (lit_image_placeholder lib
          ++ match storage.hr_image record with
             | Some im => storage.ir_sha256 im
             | None => ""
             end)%string
    else or_else (storage.hr_content record) "" in
  let content :=
    if truthy (storage.hr_sender record) && (role =? "user")%string
    then (storage.hr_sender record ++ ": " ++ content)%string
    else content in
  Message role (CText content).

Definition _history_to_messages (lib : pylib) (history : list storage.history_record)
  : list message :=
  map (history_record_to_message lib) history.

Definition has_image (msg : IncomingMessage) : bool :=
  (msg_type msg =? "image")%string
  && match image_bytes msg with Some (_ :: _) => true | _ => false end
  && truthy_opt (image_mime msg).

Definition _build_latest_message (lib : pylib) (msg : IncomingMessage)
    (image_meta : option storage.StoredImage) : list message :=
  if has_image msg then
    let text_prompt := or_else (content msg) (lit_describe_image lib) in
    [Message "user"
       (CParts [PText text_prompt;
                llm_client.image_to_message lib (default [] (image_bytes msg))
                  (default "" (image_mime msg))])]
  else
    [Message "user" (CText (or_else (content msg) ""))].

Definition _max_output_tokens (cfg : BotConfig) (scope : string) : Z :=
  if (scope =? "group")%string
  then Z.min (max_group_output_tokens (limits cfg)) (max_output_tokens (api cfg))
  else Z.min (max_private_output_tokens (limits cfg)) (max_output_tokens (api cfg)).

Definition truncate_part (budget : Z) (item : part) : part :=
  match item with
  | PText text => PText (truncate_text_to_tokens text budget)
  | PImageUrl url => PImageUrl url
  end.

(** [budget or self.config.limits.max_single_message_tokens]: [None] and
    [0] both give the configured cap. *)
Definition _truncate_latest (cfg : BotConfig) (latest_messages : list message)
    (budget : option Z) : list message :=
  match latest_messages with
  | [] => latest_messages
  | message :: others =>
      let budget :=
        match budget with
        | Some b => if b =? 0 then max_single_message_tokens (limits cfg) else b
        | None => max_single_message_tokens (limits cfg)
        end in
      match msg_content message with
      | CParts items =>
          Message (role message) (CParts (map (truncate_part budget) items)) :: others
      | CText s =>
          Message (role message) (CText (truncate_text_to_tokens s budget)) :: others
      end
  end.

(** [estimate_tokens(record.get("content", ""))] in the history walk. *)
Definition record_content_tokens (record : message) : Z :=
  match msg_content record with
  | CText s => estimate_tokens s
  | CParts items => estimate_tokens_seq items
  end.

(** A message whose content is a plain string, as every history message
    is. *)
Definition is_text (m : message) : Prop :=
  match msg_content m with
  | CText _ => True
  | CParts _ => False
  end.

(** The loop over [reversed(history_messages)]: [records] is what is left
    to visit, newest first; [trimmed_history] what was appended so far. *)
Fixpoint walk_history (records : list message) (remaining : Z)
    (trimmed_history : list message) : list message :=
  match records with
  | [] => trimmed_history
  | record :: rest =>
      let record_tokens := record_content_tokens record in
      if record_tokens <=? remaining
      then walk_history rest (remaining - record_tokens) (trimmed_history ++ [record])
      else trimmed_history
  end.

Definition _trim_context (cfg : BotConfig)
    (system_messages history_messages latest_messages : list message) (budget : Z)
  : list message :=
  let system_tokens := estimate_messages_tokens system_messages in
  let latest_tokens := estimate_messages_tokens latest_messages in
  let latest_messages :=
    if max_single_message_tokens (limits cfg) <? latest_tokens
    then _truncate_latest cfg latest_messages None
    else latest_messages in
  let latest_tokens := estimate_messages_tokens latest_messages in
  let total := system_tokens + latest_tokens in
  let latest_messages :=
    if budget <? total
    then _truncate_latest cfg latest_messages (Some (budget - system_tokens))
    else latest_messages in
  let latest_tokens := estimate_messages_tokens latest_messages in
  let total := system_tokens + latest_tokens in
  let remaining := budget - total in
  let trimmed_history := walk_history (rev history_messages) remaining [] in
  system_messages ++ rev trimmed_history ++ latest_messages.

(** [[record for record in history if record.get("message_id") != msg.message_id]]
    when [msg.message_id] is truthy. *)
Definition without_message (msg : IncomingMessage) (history : list storage.history_record)
  : list storage.history_record :=
  if truthy (message_id msg)
  then List.filter (fun record => negb (storage.hr_message_id record =? message_id msg)%string)
         history
  else history.

Definition _generate_reply (lib : pylib) (env : run_env) (msg : IncomingMessage)
    (session : SessionInfo) (image_meta : option storage.StoredImage) (self : WxAutoBot)
  : outcome string * WxAutoBot :=
  let cfg := bot_config self in
  let fixed_reply := _fixed_reply_for_scope cfg (scope session) in
  if truthy_opt fixed_reply then (Returned (default "" fixed_reply), self)
  else if (msg_type msg =? "image")%string && negb (_should_process_image cfg msg)
  then (Returned ""%string, self)
  else
    let history := storage.load_history (scope session) (session_id session) (bot_store self) in
    let self := emit (EvLoadHistory (scope session) (session_id session)) self in
    let history := without_message msg history in
    let history_messages := _history_to_messages lib history in
    let system_prompt := prompt_for_scope (persona cfg) (scope session) in
    let system_message := Message "system" (CText system_prompt) in
    let latest_user := _build_latest_message lib msg image_meta in
    let response_tokens := _max_output_tokens cfg (scope session) in
    let budget := token_budget (limits cfg) - response_tokens in
    if budget <=? 0 then (Returned (fallback_reply (failure cfg)), self)
    else
      match image_meta ≫= (fun im => bot_vision_cache self !! storage.sha256 im) with
      | Some cached => (Returned (truncate_text_to_tokens cached response_tokens), self)
      | None =>
          let messages := _trim_context cfg [system_message] history_messages latest_user budget in
          let self := emit (EvLlmSend messages) self in
          match llm_client.send (http_post env) messages with
          | Returned reply =>
              let self :=
                set_failure_tracker
                  (rate_limit.register_success (session_id session) (bot_failure_tracker self))
                  self in
              let reply := str_strip lib reply in
              if negb (truthy reply) then (Returned ""%string, self)
              else
                let self :=
                  match image_meta with
                  | Some im =>
                      set_vision_cache (<[storage.sha256 im := reply]> (bot_vision_cache self)) self
                  | None => self
                  end in
                (Returned (truncate_text_to_tokens reply response_tokens), self)
          | Raised exc =>
              let self :=
                set_failure_tracker
                  (rate_limit.register_failure (t_register_failure env) (session_id session)
                     (bot_failure_tracker self))
                  self in
              (Returned (fallback_reply (failure cfg)), self)
          end
      end.

(** [handle_message], lines 62-72: media persistence when the event
    carries an image, then the history append of the inbound event. *)
Definition record_inbound (lib : pylib) (msg : IncomingMessage) (session : SessionInfo)
    (self : WxAutoBot) : option storage.StoredImage * WxAutoBot :=
  let '(image_meta, self) :=
    if has_image msg then
      let '(meta, st) :=
        storage.save_image lib (scope session) (session_id session)
          (default [] (image_bytes msg)) (default "" (image_mime msg))
          (Some (message_id msg)) (bot_store self) in
      (Some meta, emit (EvSaveImage (scope session) (session_id session))
                    (set_store st self))
    else (None, self) in
  (image_meta, _append_history msg session image_meta self).

(** [handle_message], lines 77-87: the two cooldown gates, reply
    generation, the send through the adapter and the history append of
    the reply. *)
Definition reply_to (lib : pylib) (env : run_env) (msg : IncomingMessage)
    (session : SessionInfo) (image_meta : option storage.StoredImage) (self : WxAutoBot)
  : outcome unit * WxAutoBot :=
  let self := emit (EvCooldownCheck "session" (session_id session)) self in
  let '(cooling, cm) :=
    rate_limit.in_cooldown (t_session_cooldown env) (session_id session)
      (bot_session_cooldown self) in
  let self := set_session_cooldown cm self in
  if cooling then (Returned tt, self)
  else
    let self := emit (EvCooldownCheck "user" (sender_id msg)) self in
    let '(cooling, cm) :=
      rate_limit.in_cooldown (t_user_cooldown env) (sender_id msg)
        (bot_user_cooldown self) in
    let self := set_user_cooldown cm self in
    if cooling then (Returned tt, self)
    else
      match _generate_reply lib env msg session image_meta self with
      | (Raised exc, self) => (Raised exc, self)
      | (Returned response_text, self) =>
          if truthy response_text then
            let self := emit (EvSendText session response_text) self in
            match adapter_send_text env session response_text with
            | Raised exc => (Raised exc, self)
            | Returned _ =>
                (Returned tt, _append_reply lib env session response_text self)
            end
          else (Returned tt, self)
      end.

(** [handle_message], lines 39-75; the rest of its body is [reply_to]. *)
Definition handle_message (lib : pylib) (env : run_env) (msg : IncomingMessage)
    (self : WxAutoBot) : outcome unit * WxAutoBot :=
  if _is_self_message (bot_config self) msg then (Returned tt, self)
  else
    let '(session, self) := _resolve_session lib msg self in
    let unique_key := unique_key_of lib msg in
    let '(seen, cache) :=
      rate_limit.seen_recently (t_seen_recently env) unique_key (bot_dedupe self) in
    let self := set_dedupe cache self in
    if seen then (Returned tt, self)
    else if rate_limit.is_blocked (t_is_blocked env) (session_id session)
              (bot_failure_tracker self)
    then (Returned tt, self)
    else
      match _should_trigger lib (bot_config self) msg with
      | Raised exc => (Raised exc, self)
      | Returned should_reply =>
          let '(image_meta, self) := record_inbound lib msg session self in
          if negb should_reply then (Returned tt, self)
          else reply_to lib env msg session image_meta self
      end.

End bot.


(** ** Sequences of calls

    Scripts a client of the rate-limit objects can run: the same method
    called again and again on one object, each call with the clock reading
    it sees. *)

Module runs.
Import rate_limit.

(** [seen_recently] for each [(now, key)] in turn; the answers, in order,
    and the cache left behind. *)
Fixpoint seen_run (calls : list (Z * string)) (self : DedupeCache)
  : list bool * DedupeCache :=
  match calls with
  | [] => ([], self)
  | (now, key) :: rest =>
      let '(answer, self) := seen_recently now key self in
      let '(answers, self) := seen_run rest self in
      (answer :: answers, self)
  end.

(** [in_cooldown(key)] at each clock reading of [times] in turn. *)
Fixpoint cooldown_run (times : list Z) (key : string) (self : CooldownManager)
  : list bool * CooldownManager :=
  match times with
  | [] => ([], self)
  | now :: rest =>
      let '(answer, self) := in_cooldown now key self in
      let '(answers, self) := cooldown_run rest key self in
      (answer :: answers, self)
  end.

(** The clock never runs backwards: [start <= t1 <= t2 <= ...]. *)
Fixpoint nondecreasing (start : Z) (times : list Z) : Prop :=
  match times with
  | [] => True
  | t :: rest => start <= t /\ nondecreasing t rest
  end.

(** One call on a failure tracker. *)
Inductive tracker_call : Type :=
| Failure (now : Z) (key : string)
| Success (key : string).

Definition tracker_step (self : FailureTracker) (c : tracker_call) : FailureTracker :=
  match c with
  | Failure now key => register_failure now key self
  | Success key => register_success key self
  end.

(** The tracker after the calls [calls], made in order on a new tracker. *)
Definition tracker_after (max_failures cooldown_seconds : Z) (calls : list tracker_call)
  : FailureTracker :=
  fold_left tracker_step calls (FailureTracker_init max_failures cooldown_seconds).

(** One use of the session index: a lookup, or a restart of the process,
    which builds the index again from the file on disk. *)
Inductive index_call : Type :=
| Resolve (scope key : string) (display_name : option string)
| RestartProcess.

Definition index_step (lib : pylib) (self : storage.SessionIndex) (c : index_call)
  : storage.SessionIndex :=
  match c with
  | Resolve scope key display_name =>
      (storage.get_or_create lib scope key display_name self).2
  | RestartProcess => storage.SessionIndex_init (storage.si_file self)
  end.

(** The index after the uses [calls], starting with no file on disk. *)
Definition index_after (lib : pylib) (calls : list index_call) : storage.SessionIndex :=
  fold_left (index_step lib) calls (storage.SessionIndex_init None).

(** *** Invariants of these runs *)

(** After a call at [t1] recorded [key], its entry is never older than
    [t1], and the key is missing only once the clock is more than a window
    past [t1]; [last] is the latest clock reading so far. *)
Definition accepted_since (w t1 : Z) (key : string) (last : Z) (self : DedupeCache) : Prop :=
  dc_window_seconds self = w /\
  match dc_cache self !! key with
  | Some ts => ts <= last /\ (ts = t1 \/ ts - t1 > w)
  | None => last - t1 > w
  end.


(** Every id in the index is the short hash of the key it is stored
    under, and the file on disk holds what the index holds. *)
Definition index_consistent (lib : pylib) (self : storage.SessionIndex) : Prop :=
  (forall session_key entry,
     storage.si_sessions self !! session_key = Some entry ->
     storage.se_id entry = py.slice_to (sha1_hexdigest lib session_key) 16)
  /\ (storage.si_file self = Some (storage.si_sessions self)
      \/ (storage.si_file self = None /\ storage.si_sessions self = ∅)).

End runs.

(** ** Worked inputs

    A configuration with the default numbers of config.py (ASCII texts
    stand for the default persona prompt and fallback reply), a private
    text event, and worlds in which the model backend fails. *)

Module examples.
Import py config models bot.

Definition sample_config : BotConfig :=
  {| persona := mkPersonaConfig "You are a helpful WeChat assistant." None None;
     trigger := mkTriggerConfig "always" [] None "mention" [];
     api := mkApiConfig 800;
     limits := mkLimitsConfig 4096 256 512 800 2048;
     dedupe := mkDedupeConfig 60;
     rate_limit := mkRateLimitConfig 3 2;
     failure := mkFailureConfig 3 60 "Sorry, I cannot reply right now.";
     vision := mkVisionConfig true true;
     reply := mkReplyConfig None None;
     self_user_id := None |}.

(** The same with a token budget that leaves 5 tokens for the prompt once
    the 800 output tokens are reserved. *)
Definition tight_config : BotConfig :=
  {| persona := persona sample_config;
     trigger := trigger sample_config;
     api := api sample_config;
     limits := mkLimitsConfig 805 256 512 800 2048;
     dedupe := dedupe sample_config;
     rate_limit := rate_limit sample_config;
     failure := failure sample_config;
     vision := vision sample_config;
     reply := reply sample_config;
     self_user_id := None |}.


(** The same, replying in private chats only to a keyword that the sample
    event does not contain. *)
Definition keyword_config : BotConfig :=
  {| persona := persona sample_config;
     trigger := mkTriggerConfig "keyword" ["weather"] None "mention" [];
     api := api sample_config;
     limits := limits sample_config;
     dedupe := dedupe sample_config;
     rate_limit := rate_limit sample_config;
     failure := failure sample_config;
     vision := vision sample_config;
     reply := reply sample_config;
     self_user_id := None |}.

(** A private text event [hello] from user [u1]. *)
Definition hello : IncomingMessage :=
  {| message_id := "m1"; timestamp := 1700000000; sender_id := "u1";
     sender_name := "Alice"; content := Some "hello"; msg_type := "text";
     is_group := false; group_id := None; group_name := None; is_at := false;
     conversation_id := None; image_bytes := None; image_name := None;
     image_mime := None |}.

(** An earlier exchange in the session of [hello]. *)
Definition earlier_exchange : list storage.history_record :=
  [storage.mkHistoryRecord 1699999000 "received" "Alice" "text" (Some "hi") "m0" "u1" None;
   storage.mkHistoryRecord 1699999001 "sent" "bot" "text" (Some "Hello, Alice!") "r0" "u1"
     None].

(** The session [hello] belongs to. *)
Definition hello_session : SessionInfo :=
  mkSessionInfo "private" "0543017a9759e385" "u1" (Some "Alice").


(** A world whose model backend answers 503. *)
Definition backend_unavailable : run_env :=
  {| t_seen_recently := 1700000001; t_is_blocked := 1700000001;
     t_session_cooldown := 1700000001; t_user_cooldown := 1700000001;
     t_register_failure := 1700000002; t_reply_timestamp := 1700000002;
     t_reply_id := 1700000002;
     http_post := fun _ => llm_client.PostResponse 503 (Returned "Service Unavailable");
     adapter_send_text := fun _ _ => Returned tt |}.

(** A sample PNG header as image bytes. *)
Definition png_bytes : list Byte.byte := [Byte.x89; Byte.x50; Byte.x4e; Byte.x47].

End examples.

(** ** rate_limit.py: RollingWindow *)

Module rolling_window.
Import py.

(** [rw_items] is the deque, oldest first; [rw_max_items] its [maxlen]. *)
Record RollingWindow : Type := mkRollingWindow {
  rw_max_items : Z;
  rw_items : list string
}.

(** [__init__]: [deque(maxlen=n)] refuses a negative [n]. *)
Definition RollingWindow_init (max_items : Z) : outcome RollingWindow :=
  if max_items <? 0 then Raised "ValueError"
  else Returned (mkRollingWindow max_items []).

(** [self.items.append(value)] on a bounded deque: a full deque drops its
    oldest item first, and a deque of length 0 stays empty. *)
Definition add (value : string) (self : RollingWindow) : RollingWindow :=
  if rw_max_items self =? 0 then self
  else if Z.of_nat (length (rw_items self)) =? rw_max_items self
  then mkRollingWindow (rw_max_items self) (tail (rw_items self) ++ [value])
  else mkRollingWindow (rw_max_items self) (rw_items self ++ [value]).

(** [self.items[-1] if self.items else None] *)
Definition last (self : RollingWindow) : option string :=
  List.last (map Some (rw_items self)) None.

(** [add] for each value in turn. *)
Definition add_all (values : list string) (self : RollingWindow) : RollingWindow :=
  fold_left (fun w value => add value w) values self.

End rolling_window.

(** ** JSON values

    What [json.loads] and [response.json()] return, and the Python
    operations the client applies to it.  An object is the list of the
    items of its dict (keys distinct); a number is a whole number. *)

Module json.
Import py.

#[warnings="-register-all"]
Inductive value : Type :=
| Null
| Bool (b : bool)
| Num (n : Z)
| Str (s : string)
| Arr (items : list value)
| Obj (fields : list (string * value)).

(** [bool(v)] *)
Definition truthy (v : value) : bool :=
  match v with
  | Null => false
  | Bool b => b
  | Num n => negb (n =? 0)
  | Str s => py.truthy s
  | Arr items => match items with [] => false | _ => true end
  | Obj fields => match fields with [] => false | _ => true end
  end.

Fixpoint lookup (key : string) (fields : list (string * value)) : option value :=
  match fields with
  | [] => None
  | (k, v) :: rest => if (k =? key)%string then Some v else lookup key rest
  end.

(** [v.get(key, fallback)]: only a dict has [get]. *)
Definition get (v : value) (key : string) (fallback : value) : outcome value :=
  match v with
  | Obj fields => Returned (default fallback (lookup key fields))
  | _ => Raised "AttributeError"
  end.

(** [v[0]] *)
Definition first (v : value) : outcome value :=
  match v with
  | Arr (x :: _) => Returned x
  | Arr [] => Raised "IndexError"
  | Str (String c _) => Returned (Str (String c EmptyString))
  | Str EmptyString => Raised "IndexError"
  | Obj _ => Raised "KeyError"
  | _ => Raised "TypeError"
  end.

(** [needle in haystack] on strings. *)
Fixpoint occurs (needle haystack : string) : bool :=
  String.prefix needle haystack ||
  match haystack with
  | EmptyString => false
  | String _ rest => occurs needle rest
  end.

Definition is_str (key : string) (v : value) : bool :=
  match v with
  | Str s => (s =? key)%string
  | _ => false
  end.

(** [key in v] for a string [key]: a key of a dict, an item of a list, a
    substring of a string. *)
Definition contains (key : string) (v : value) : outcome bool :=
  match v with
  | Obj fields => Returned (match lookup key fields with Some _ => true | None => false end)
  | Arr items => Returned (existsb (is_str key) items)
  | Str s => Returned (occurs key s)
  | _ => Raised "TypeError"
  end.

(** [v[key]] for a string [key]. *)
Definition item (v : value) (key : string) : outcome value :=
  match v with
  | Obj fields =>
      match lookup key fields with
      | Some x => Returned x
      | None => Raised "KeyError"
      end
  | _ => Raised "TypeError"
  end.

(** [v or ""] *)
Definition or_empty (v : value) : value :=
  if truthy v then v else Str "".

(** ["".join(chunks)] *)
Fixpoint join (chunks : list value) : outcome string :=
  match chunks with
  | [] => Returned EmptyString
  | Str s :: rest =>
      match join rest with
      | Returned t => Returned (s ++ t)%string
      | Raised exc => Raised exc
      end
  | _ :: _ => Raised "TypeError"
  end.

End json.

(** ** llm_client.py: the request payload and the reading of the answer *)

Module llm_wire.
Import py.

(** [ApiConfig] with the fields [LlmClient] reads to build a request
    ([config.ApiConfig] keeps the one field the orchestrator reads). *)
Record ApiConfig : Type := mkApiConfig {
  stream : bool;
  model : string;
  max_output_tokens : Z;
  core_params_enabled : gmap string bool;
  extra_params : gmap string json.value;
  extra_params_enabled : gmap string bool
}.

(** A value of the payload dict: the message list, or a JSON value. *)
Inductive payload_value : Type :=
| PMessages (messages : list message)
| PValue (v : json.value).

Definition _extra_params (cfg : ApiConfig) : gmap string json.value :=
  filter (fun kv : string * json.value =>
            default false (extra_params_enabled cfg !! kv.1) = true)
         (extra_params cfg).

Definition core_enabled (cfg : ApiConfig) (key : string) : bool :=
  default true (core_params_enabled cfg !! key).

(** [payload.update(d)] *)
Definition update (d : gmap string json.value) (payload : gmap string payload_value)
  : gmap string payload_value :=
  (PValue <$> d) ∪ payload.

Definition _build_payload (cfg : ApiConfig) (messages : list message)
  : gmap string payload_value :=
  let payload := {[ "messages"%string := PMessages messages ]} in
  let payload :=
    if core_enabled cfg "model"
    then <[ "model"%string := PValue (json.Str (model cfg)) ]> payload else payload in
  let payload :=
    if core_enabled cfg "stream"
    then <[ "stream"%string := PValue (json.Bool (stream cfg)) ]> payload else payload in
  let payload :=
    if core_enabled cfg "max_tokens"
    then <[ "max_tokens"%string := PValue (json.Num (max_output_tokens cfg)) ]> payload
    else payload in
  update (_extra_params cfg) payload.

(** A step of a computation that can raise. *)
Definition bind {A B : Type} (m : outcome A) (k : A -> outcome B) : outcome B :=
  match m with
  | Returned a => k a
  | Raised exc => Raised exc
  end.

Definition _extract_content (data : json.value) : outcome json.value :=
  bind (json.get data "choices" (json.Arr [])) (fun choices =>
  if negb (json.truthy choices) then Returned (json.Str "")
  else
    bind (json.first choices) (fun choice =>
    bind (json.get choice "message" (json.Obj [])) (fun message =>
    bind (json.contains "content" message) (fun has_content =>
    if has_content
    then bind (json.item message "content") (fun content =>
         Returned (json.or_empty content))
    else bind (json.get choice "text" (json.Str "")) (fun text =>
         Returned (json.or_empty text)))))).

(** One pass of the loop over [response.iter_lines()]: [None] stands for
    [break], [Some chunks] for the chunks after the line. *)
Definition stream_line (lib : pylib) (json_loads : string -> outcome json.value)
    (line : string) (chunks : list json.value) : outcome (option (list json.value)) :=
  if negb (py.truthy line) then Returned (Some chunks)
  else
    let line := if String.prefix "data: " line
                then String.substring 6 (String.length line - 6) line else line in
    if (str_strip lib line =? "[DONE]")%string then Returned None
    else
      bind (json_loads line) (fun data =>
      bind (json.get data "choices" (json.Arr [json.Obj []])) (fun choices =>
      bind (json.first choices) (fun choice =>
      bind (json.get choice "delta" (json.Obj [])) (fun delta =>
      bind (json.contains "content" delta) (fun has_content =>
      if has_content
      then bind (json.item delta "content") (fun content =>
           Returned (Some (chunks ++ [content])))
      else Returned (Some chunks)))))).

(** The loop: the chunks collected when it ends. *)
Fixpoint stream_chunks (lib : pylib) (json_loads : string -> outcome json.value)
    (lines : list string) (chunks : list json.value) : outcome (list json.value) :=
  match lines with
  | [] => Returned chunks
  | line :: rest =>
      match stream_line lib json_loads line chunks with
      | Raised exc => Raised exc
      | Returned None => Returned chunks
      | Returned (Some chunks) => stream_chunks lib json_loads rest chunks
      end
  end.

(** The streamed branch of [send], after [raise_for_status]. *)
Definition read_stream (lib : pylib) (json_loads : string -> outcome json.value)
    (lines : list string) : outcome string :=
  bind (stream_chunks lib json_loads lines []) json.join.

End llm_wire.

(** ** Scripts and predicates for the further properties *)

Module more_runs.
Import py.

(** [c] occurs in [s]. *)
Fixpoint mentions (c : ascii) (s : string) : bool :=
  match s with
  | EmptyString => false
  | String d rest => Ascii.eqb d c || mentions c rest
  end.

(** [append_history] of each record in turn, to one session. *)
Definition append_all (scope session_id : string) (records : list storage.history_record)
    (st : storage.SessionStore) : storage.SessionStore :=
  fold_left (fun s record => storage.append_history scope session_id record s) records st.

(** A streamed chunk that carries the text [text]:
    [{"choices": [{"delta": {"content": text}}]}]. *)
Definition delta_chunk (text : string) : json.value :=
  json.Obj [("choices"%string,
             json.Arr [json.Obj [("delta"%string,
                                  json.Obj [("content"%string, json.Str text)])]])].

(** The line of an event stream that carries [payload]. *)
Definition data_line (payload : string) : string := ("data: " ++ payload)%string.

(** A decoder for the worked example: it knows the two payloads [c1] and
    [c2] and refuses every other line. *)
Definition sample_json_loads (line : string) : outcome json.value :=
  if (line =? "c1")%string then Returned (delta_chunk "Hel")
  else if (line =? "c2")%string then Returned (delta_chunk "lo")
  else Raised "JSONDecodeError".

End more_runs.

Module bot_runs.
Import py token_utils config models bot.

(** [st'] holds everything [st] holds: every history of [st] is the
    beginning of the same history in [st'], and every image file of [st]
    is in [st'] with the same bytes. *)
Definition store_extends (st st' : storage.SessionStore) : Prop :=
  (forall scope session_id,
     exists added,
       storage.load_history scope session_id st'
       = storage.load_history scope session_id st ++ added)
  /\ (forall path stored,
        storage.ss_images st !! path = Some stored ->
        storage.ss_images st' !! path = Some stored).

(** The request [_generate_reply] builds for the model (lines 179-205):
    the system prompt of the scope, the history of the session without the
    records of the event itself, and the latest user message, trimmed to
    the budget. *)
Definition prompt_of (lib : pylib) (msg : IncomingMessage) (session : SessionInfo)
    (image_meta : option storage.StoredImage) (self : WxAutoBot) : list message :=
  let cfg := bot_config self in
  _trim_context cfg
    [Message "system" (CText (prompt_for_scope (persona cfg) (scope session)))]
    (_history_to_messages lib
       (without_message msg
          (storage.load_history (scope session) (session_id session) (bot_store self))))
    (_build_latest_message lib msg image_meta)
    (token_budget (limits cfg) - _max_output_tokens cfg (scope session)).

(** The gates of [_generate_reply] before the image cache and the model:
    no fixed reply for the scope, the event is not an image set aside by
    the vision switches, and the budget leaves room for a prompt. *)
Definition reaches_model (cfg : BotConfig) (msg : IncomingMessage) (scope : string) : bool :=
  negb (truthy_opt (_fixed_reply_for_scope cfg scope))
  && negb ((msg_type msg =? "image")%string && negb (_should_process_image cfg msg))
  && negb (token_budget (limits cfg) - _max_output_tokens cfg scope <=? 0).

(** The poll loop: [handle_message] for each event in turn, each with its
    own world; an exception of one run ends the loop. *)
Fixpoint handle_all (lib : pylib) (events : list (run_env * IncomingMessage))
    (self : WxAutoBot) : outcome unit * WxAutoBot :=
  match events with
  | [] => (Returned tt, self)
  | (env, msg) :: rest =>
      match handle_message lib env msg self with
      | (Raised exc, self) => (Raised exc, self)
      | (Returned _, self) => handle_all lib rest self
      end
  end.

End bot_runs.

Module more_examples.
Import py config models bot bot_runs.

(** The sample configuration with a token budget equal to the output cap
    of a private chat: nothing is left for the prompt. *)
Definition starved_config : BotConfig :=
  {| persona := persona examples.sample_config;
     trigger := trigger examples.sample_config;
     api := api examples.sample_config;
     limits := mkLimitsConfig 800 256 512 800 2048;
     dedupe := dedupe examples.sample_config;
     rate_limit := rate_limit examples.sample_config;
     failure := failure examples.sample_config;
     vision := vision examples.sample_config;
     reply := reply examples.sample_config;
     self_user_id := None |}.

(** A world whose model backend answers [answer] to every request. *)
Definition backend_answers (answer : string) : run_env :=
  {| t_seen_recently := 1700000001; t_is_blocked := 1700000001;
     t_session_cooldown := 1700000001; t_user_cooldown := 1700000001;
     t_register_failure := 1700000002; t_reply_timestamp := 1700000002;
     t_reply_id := 1700000002;
     http_post := fun _ => llm_client.PostResponse 200 (Returned answer);
     adapter_send_text := fun _ _ => Returned tt |}.

(** A later delivery of an event, 10 time units after the worlds above. *)
Definition redelivery : run_env :=
  {| t_seen_recently := 1700000011; t_is_blocked := 1700000011;
     t_session_cooldown := 1700000011; t_user_cooldown := 1700000011;
     t_register_failure := 1700000012; t_reply_timestamp := 1700000012;
     t_reply_id := 1700000012;
     http_post := fun _ => llm_client.PostResponse 200 (Returned "again"%string);
     adapter_send_text := fun _ _ => Returned tt |}.

(** A group event that does not mention the bot. *)
Definition group_chatter : IncomingMessage :=
  {| message_id := "g1"; timestamp := 1700000000; sender_id := "u2";
     sender_name := "Bob"; content := Some "weather is nice"; msg_type := "text";
     is_group := true; group_id := Some "room1"%string; group_name := Some "Team"%string;
     is_at := false; conversation_id := None; image_bytes := None; image_name := None;
     image_mime := None |}.

(** An image event from [u1], and the descriptor of its image. *)
Definition photo : IncomingMessage :=
  {| message_id := "m7"; timestamp := 1700000000; sender_id := "u1";
     sender_name := "Alice"; content := Some "what is this?"; msg_type := "image";
     is_group := false; group_id := None; group_name := None; is_at := false;
     conversation_id := None; image_bytes := Some examples.png_bytes;
     image_name := Some "a.png"%string; image_mime := Some "image/png"%string |}.

Definition photo_meta : storage.StoredImage :=
  (storage.save_image pyref.lib "private" "0543017a9759e385" examples.png_bytes
     "image/png" (Some "m7"%string)
     (storage.mkSessionStore (storage.SessionIndex_init None) ∅ ∅ [])).1.

(** A bot whose model calls for the session of [hello] have failed three
    times in a row shortly before the worlds above. *)
Definition tripped_bot : WxAutoBot :=
  let self := WxAutoBot_init examples.sample_config None in
  set_failure_tracker
    (rate_limit.register_failure 1699999990 "0543017a9759e385"
       (rate_limit.register_failure 1699999980 "0543017a9759e385"
          (rate_limit.register_failure 1699999970 "0543017a9759e385"
             (bot_failure_tracker self))))
    self.

End more_examples.

(** * Properties *)

(** ** Dedupe cache *)

Section dedupe_facts.
Import rate_limit runs.

Lemma lookup_pop_all (items : list string) (cache : gmap string Z) (k : string) :
  pop_all items cache !! k = if decide (k ∈ items) then None else cache !! k.
Proof.
  unfold pop_all. revert cache.
  induction items as [|item items IH]; intros cache; cbn [fold_left].
  - by rewrite decide_False by apply not_elem_of_nil.
  - rewrite IH. destruct (decide (k = item)) as [->|Hne].
    + rewrite lookup_delete_eq.
      rewrite (decide_True (P := item ∈ item :: items)) by apply list_elem_of_here.
      by case_decide.
    + rewrite lookup_delete_ne by done.
      destruct (decide (k ∈ items)) as [Hin|Hin].
      * by rewrite decide_True by (by apply list_elem_of_further).
      * rewrite decide_False; [done|].
        intros [?|?]%elem_of_cons; done.
Qed.

Lemma elem_of_expired_keys (w now : Z) (cache : gmap string Z) (k : string) :
  k ∈ expired_keys w now cache ↔ ∃ ts, cache !! k = Some ts ∧ now - ts > w.
Proof.
  unfold expired_keys. rewrite list_elem_of_fmap. split.
  - intros [[k' ts] [-> Hin]]. apply list_elem_of_filter in Hin as [Hexp Hin].
    apply elem_of_map_to_list in Hin. simpl in *.
    apply bool_decide_unpack in Hexp. eauto.
  - intros [ts [Hk Hexp]]. exists (k, ts). split; [done|].
    apply list_elem_of_filter. split.
    + simpl. by apply bool_decide_pack.
    + by apply elem_of_map_to_list.
Qed.

(** What a lookup sees after the lazy expiry at time [now]. *)
Lemma lookup_pruned (w now : Z) (cache : gmap string Z) (k : string) :
  pop_all (expired_keys w now cache) cache !! k
  = match cache !! k with
    | Some ts => if decide (now - ts > w) then None else Some ts
    | None => None
    end.
Proof.
  rewrite lookup_pop_all. case_decide as Hin.
  - apply elem_of_expired_keys in Hin as [ts [-> Hexp]]. by rewrite decide_True.
  - destruct (cache !! k) as [ts|] eqn:Hk; [|done].
    case_decide as Hexp; [|done].
    exfalso. apply Hin. apply elem_of_expired_keys. eauto.
Qed.

(** The entry of [k] after one call [seen_recently now key]. *)
Lemma seen_recently_lookup (now : Z) (key k : string) (self : DedupeCache) :
  dc_cache (seen_recently now key self).2 !! k
  = match pop_all (expired_keys (dc_window_seconds self) now (dc_cache self))
            (dc_cache self) !! k with
    | Some ts => Some ts
    | None => if decide (k = key) then Some now else None
    end.
Proof.
  unfold seen_recently.
  destruct (pop_all _ _ !! key) as [ts|] eqn:Hkey; cbn [snd dc_cache].
  - destruct (pop_all _ _ !! k) as [ts'|] eqn:Hk; [done|].
    case_decide; [congruence | done].
  - destruct (decide (k = key)) as [->|Hne].
    + by rewrite lookup_insert_eq, Hkey.
    + rewrite lookup_insert_ne by done. by destruct (pop_all _ _ !! k).
Qed.

Lemma seen_recently_answer (now : Z) (key : string) (self : DedupeCache) :
  (seen_recently now key self).1
  = bool_decide (is_Some (pop_all (expired_keys (dc_window_seconds self) now (dc_cache self))
                            (dc_cache self) !! key)).
Proof.
  unfold seen_recently.
  destruct (pop_all _ _ !! key) as [ts|] eqn:Hkey; cbn [fst].
  - symmetry. apply bool_decide_eq_true. eauto.
  - symmetry. apply bool_decide_eq_false. by intros [? ?].
Qed.

Lemma seen_recently_window (now : Z) (key : string) (self : DedupeCache) :
  dc_window_seconds (seen_recently now key self).2 = dc_window_seconds self.
Proof. unfold seen_recently. by destruct (pop_all _ _ !! key). Qed.

Lemma seen_run_cons (now : Z) (key : string) (rest : list (Z * string))
    (self : DedupeCache) :
  seen_run ((now, key) :: rest) self
  = ((seen_recently now key self).1
       :: (seen_run rest (seen_recently now key self).2).1,
     (seen_run rest (seen_recently now key self).2).2).
Proof.
  cbn [seen_run]. destruct (seen_recently now key self) as [a s].
  cbn [fst snd]. by destruct (seen_run rest s).
Qed.

Lemma seen_run_window (calls : list (Z * string)) (self : DedupeCache) :
  dc_window_seconds (seen_run calls self).2 = dc_window_seconds self.
Proof.
  revert self. induction calls as [|[now k] rest IH]; intros self; [done|].
  rewrite seen_run_cons. cbn [snd]. rewrite IH. apply seen_recently_window.
Qed.

(** A key no call has used is not in the cache. *)
Lemma seen_run_fresh (calls : list (Z * string)) (key : string) (self : DedupeCache) :
  dc_cache self !! key = None →
  key ∉ calls.*2 →
  dc_cache (seen_run calls self).2 !! key = None.
Proof.
  revert self. induction calls as [|[now k] rest IH]; intros self Hnone Hnotin; [done|].
  rewrite seen_run_cons. cbn [snd]. apply IH.
  - rewrite seen_recently_lookup, lookup_pruned, Hnone.
    rewrite decide_False; [done|].
    intros ->. apply Hnotin. cbn. apply list_elem_of_here.
  - intros Hin. apply Hnotin. cbn. by apply list_elem_of_further.
Qed.

Lemma accepted_since_step (w t1 : Z) (key : string) (last now : Z) (k : string)
    (self : DedupeCache) :
  accepted_since w t1 key last self →
  last <= now →
  accepted_since w t1 key now (seen_recently now k self).2
  ∧ (k = key → (seen_recently now k self).1 = false → now - t1 > w).
Proof.
  intros [Hw Hinv] Hle. unfold accepted_since.
  rewrite seen_recently_window, seen_recently_lookup, seen_recently_answer, lookup_pruned, Hw.
  split; [split; [done|] |].
  - destruct (dc_cache self !! key) as [ts|] eqn:Hkey.
    + destruct Hinv as [Hts Hor]. case_decide as Hexp.
      * case_decide; lia.
      * lia.
    + case_decide; lia.
  - intros -> Hfalse. apply bool_decide_eq_false in Hfalse.
    rewrite ?lookup_pruned in Hfalse.
    destruct (dc_cache self !! key) as [ts|] eqn:Hkey.
    + destruct Hinv as [Hts Hor]. case_decide as Hexp; [lia|].
      exfalso. apply Hfalse. eauto.
    + lia.
Qed.

Lemma accepted_since_run (w t1 : Z) (key : string) (calls : list (Z * string))
    (last t2 : Z) (self : DedupeCache) :
  accepted_since w t1 key last self →
  nondecreasing last (calls.*1 ++ [t2]) →
  (seen_recently t2 key (seen_run calls self).2).1 = false →
  t2 - t1 > w.
Proof.
  revert last self. induction calls as [|[now k] rest IH]; intros last self Hinv Hmono.
  - destruct Hmono as [Hle _]. cbn [seen_run snd].
    by apply (accepted_since_step w t1 key last t2 key self Hinv Hle).
  - destruct Hmono as [Hle Hmono]. rewrite seen_run_cons. cbn [snd].
    apply (IH now); [|done].
    by apply (accepted_since_step w t1 key last now k self Hinv Hle).
Qed.

(** C4. For every key of the dedupe cache: the first [seen_recently(key)]
    call returns false and records the key; a repeat call within the
    window returns true and leaves the entry of the key as it was; once
    the window has elapsed the entry is pruned at lookup time and the call
    returns false again, recording the new time; hence, on a clock that
    does not run backwards, two calls that return false for the same key
    are more than a window apart, whatever calls are made in between. *)
Theorem seen_recently_once_per_window (w : Z) (key : string) :
  (∀ (calls : list (Z * string)) (now : Z),
     key ∉ calls.*2 →
     (seen_recently now key (seen_run calls (DedupeCache_init w)).2).1 = false
     ∧ dc_cache (seen_recently now key (seen_run calls (DedupeCache_init w)).2).2 !! key
       = Some now)
  ∧ (∀ (self : DedupeCache) (ts now : Z),
       dc_window_seconds self = w →
       dc_cache self !! key = Some ts →
       now - ts <= w →
       (seen_recently now key self).1 = true
       ∧ dc_cache (seen_recently now key self).2 !! key = Some ts)
  ∧ (∀ (self : DedupeCache) (ts now : Z),
       dc_window_seconds self = w →
       dc_cache self !! key = Some ts →
       now - ts > w →
       pop_all (expired_keys w now (dc_cache self)) (dc_cache self) !! key = None
       ∧ (seen_recently now key self).1 = false
       ∧ dc_cache (seen_recently now key self).2 !! key = Some now)
  ∧ (∀ (self : DedupeCache) (t1 t2 : Z) (calls : list (Z * string)),
       dc_window_seconds self = w →
       (seen_recently t1 key self).1 = false →
       nondecreasing t1 (calls.*1 ++ [t2]) →
       (seen_recently t2 key (seen_run calls (seen_recently t1 key self).2).2).1 = false →
       t2 - t1 > w).
Proof.
  split; [|split; [|split]].
  - intros calls now Hfresh.
    assert (Hnone : dc_cache (seen_run calls (DedupeCache_init w)).2 !! key = None)
      by (by apply seen_run_fresh).
    split.
    + rewrite seen_recently_answer, lookup_pruned, Hnone.
      apply bool_decide_eq_false. by intros [? ?].
    + rewrite seen_recently_lookup, lookup_pruned, Hnone. by rewrite decide_True.
  - intros self ts now Hw Hentry Hinside. split.
    + rewrite seen_recently_answer, lookup_pruned, Hentry, Hw.
      rewrite decide_False by lia. apply bool_decide_eq_true. eauto.
    + rewrite seen_recently_lookup, lookup_pruned, Hentry, Hw.
      by rewrite decide_False by lia.
  - intros self ts now Hw Hentry Helapsed. split; [|split].
    + rewrite lookup_pruned, Hentry. by rewrite decide_True.
    + rewrite seen_recently_answer, lookup_pruned, Hentry, Hw.
      rewrite decide_True by done. apply bool_decide_eq_false. by intros [? ?].
    + rewrite seen_recently_lookup, lookup_pruned, Hentry, Hw.
      rewrite decide_True by done. by rewrite decide_True.
  - intros self t1 t2 calls Hw Hfirst Hmono Hsecond.
    apply (accepted_since_run w t1 key calls t1 t2 (seen_recently t1 key self).2);
      [|done|done].
    split; [by rewrite seen_recently_window|].
    rewrite seen_recently_lookup.
    rewrite seen_recently_answer in Hfirst. apply bool_decide_eq_false in Hfirst.
    destruct (pop_all _ _ !! key) as [ts|]; [exfalso; eauto|].
    rewrite decide_True by done. lia.
Qed.

(** The claim on a cache with a 60-unit window: key [m1] is accepted at
    time 100 after another key was seen, refused at 130, accepted again at
    161, and two acceptances are more than 60 apart. *)
Lemma seen_recently_once_per_window_witness :
  ((seen_recently 100 "m1" (seen_run [(5, "m0"%string)] (DedupeCache_init 60)).2).1 = false
   ∧ dc_cache (seen_recently 100 "m1" (seen_run [(5, "m0"%string)] (DedupeCache_init 60)).2).2
       !! "m1"%string = Some 100)
  ∧ ((seen_recently 130 "m1" (mkDedupeCache 60 {[ "m1"%string := 100 ]})).1 = true
     ∧ dc_cache (seen_recently 130 "m1" (mkDedupeCache 60 {[ "m1"%string := 100 ]})).2
         !! "m1"%string = Some 100)
  ∧ ((seen_recently 161 "m1" (mkDedupeCache 60 {[ "m1"%string := 100 ]})).1 = false
     ∧ dc_cache (seen_recently 161 "m1" (mkDedupeCache 60 {[ "m1"%string := 100 ]})).2
         !! "m1"%string = Some 161)
  ∧ 161 - 100 > 60.
Proof.
  destruct (seen_recently_once_per_window 60 "m1") as (Hfirst & Hrepeat & Helapsed & Honce).
  split; [|split; [|split]].
  - apply Hfirst. apply (bool_decide_unpack _). by vm_compute.
  - apply Hrepeat; [reflexivity | reflexivity | lia].
  - apply (Helapsed (mkDedupeCache 60 {[ "m1"%string := 100 ]}) 100 161);
      [reflexivity | reflexivity | lia].
  - apply (Honce (DedupeCache_init 60) 100 161 [(130, "m1"%string); (140, "m2"%string)]).
    + reflexivity.
    + by vm_compute.
    + cbn. lia.
    + by vm_compute.
Defined.

End dedupe_facts.
(** ** Cooldown manager *)

Section cooldown_facts.
Import rate_limit runs.

Lemma in_cooldown_inside (now : Z) (key : string) (self : CooldownManager) :
  now - last_hit_of self key < cm_cooldown_seconds self →
  in_cooldown now key self = (true, self).
Proof.
  intros Hin. unfold in_cooldown. fold (last_hit_of self key).
  destruct (Z.ltb_spec (now - last_hit_of self key) (cm_cooldown_seconds self)); [done | lia].
Qed.

Lemma in_cooldown_outside (now : Z) (key : string) (self : CooldownManager) :
  cm_cooldown_seconds self <= now - last_hit_of self key →
  in_cooldown now key self
  = (false, mkCooldownManager (cm_cooldown_seconds self) (<[key := now]> (cm_last_hit self))).
Proof.
  intros Hout. unfold in_cooldown. fold (last_hit_of self key).
  destruct (Z.ltb_spec (now - last_hit_of self key) (cm_cooldown_seconds self)); [lia | done].
Qed.

(** Hits while the cooldown runs answer true and change nothing. *)
Lemma cooldown_run_inside (times : list Z) (key : string) (self : CooldownManager) :
  Forall (fun now => now - last_hit_of self key < cm_cooldown_seconds self) times →
  cooldown_run times key self = (repeat true (length times), self).
Proof.
  induction 1 as [|now rest Hnow _ IH]; [done|].
  cbn [cooldown_run]. rewrite in_cooldown_inside by done. by rewrite IH.
Qed.

(** C5. For every key of the cooldown manager: a call of
    [in_cooldown(key)] within the window since the stored timestamp of the
    key returns true and leaves the manager, hence the timestamp of this
    key and of every other key, unchanged; a call returns false only
    outside the window, and it then sets the timestamp of the key to the
    current time and no other; so any number of hits made while the
    cooldown runs leaves its end where the call that started it put it. *)
Theorem in_cooldown_does_not_extend (key : string) (self : CooldownManager) (now : Z) :
  (now - last_hit_of self key < cm_cooldown_seconds self →
   in_cooldown now key self = (true, self))
  ∧ ((in_cooldown now key self).1 = false →
     cm_cooldown_seconds self <= now - last_hit_of self key
     ∧ cm_cooldown_seconds (in_cooldown now key self).2 = cm_cooldown_seconds self
     ∧ last_hit_of (in_cooldown now key self).2 key = now
     ∧ ∀ other, other ≠ key →
         cm_last_hit (in_cooldown now key self).2 !! other = cm_last_hit self !! other)
  ∧ (∀ (hits : list Z) (later : Z),
       (in_cooldown now key self).1 = false →
       Forall (fun t => t - now < cm_cooldown_seconds self) hits →
       cm_cooldown_seconds self <= later - now →
       cooldown_run hits key (in_cooldown now key self).2
       = (repeat true (length hits), (in_cooldown now key self).2)
       ∧ (in_cooldown later key (cooldown_run hits key (in_cooldown now key self).2).2).1
         = false).
Proof.
  assert (Hfalse : (in_cooldown now key self).1 = false →
    cm_cooldown_seconds self <= now - last_hit_of self key
    ∧ in_cooldown now key self
      = (false, mkCooldownManager (cm_cooldown_seconds self)
                  (<[key := now]> (cm_last_hit self)))).
  { intros Hans.
    destruct (Z.lt_ge_cases (now - last_hit_of self key) (cm_cooldown_seconds self))
      as [Hin|Hout].
    - by rewrite in_cooldown_inside in Hans.
    - split; [done | by apply in_cooldown_outside]. }
  split; [apply in_cooldown_inside|]. split.
  - intros Hans. destruct (Hfalse Hans) as [Hout ->]. cbn [snd cm_cooldown_seconds].
    split; [done|]. split; [done|]. split.
    + unfold last_hit_of. cbn [cm_last_hit]. by rewrite lookup_insert_eq.
    + intros other Hne. cbn [cm_last_hit]. by rewrite lookup_insert_ne.
  - intros hits later Hans Hhits Hlater. destruct (Hfalse Hans) as [Hout ->].
    cbn [snd].
    assert (Hlast : last_hit_of
              (mkCooldownManager (cm_cooldown_seconds self)
                 (<[key := now]> (cm_last_hit self))) key = now).
    { unfold last_hit_of. cbn [cm_last_hit]. by rewrite lookup_insert_eq. }
    rewrite cooldown_run_inside by (cbn [cm_cooldown_seconds]; by rewrite Hlast).
    split; [done|]. cbn [snd].
    rewrite in_cooldown_outside; [done|]. rewrite Hlast. by cbn [cm_cooldown_seconds].
Qed.

(** The claim on a 3-unit session cooldown: a call at 1000 starts the
    cooldown, hits at 1001 and 1002 are refused without moving it, and the
    call at 1003 is accepted. *)
Lemma in_cooldown_does_not_extend_witness :
  in_cooldown 1001 "s" (mkCooldownManager 3 {[ "s"%string := 1000 ]})
  = (true, mkCooldownManager 3 {[ "s"%string := 1000 ]})
  ∧ cooldown_run [1001; 1002] "s" (in_cooldown 1000 "s" (CooldownManager_init 3)).2
    = ([true; true], (in_cooldown 1000 "s" (CooldownManager_init 3)).2)
  ∧ (in_cooldown 1003 "s"
       (cooldown_run [1001; 1002] "s" (in_cooldown 1000 "s" (CooldownManager_init 3)).2).2).1
    = false.
Proof.
  split.
  - apply (in_cooldown_does_not_extend "s" (mkCooldownManager 3 {[ "s"%string := 1000 ]}) 1001).
    vm_compute. reflexivity.
  - apply (in_cooldown_does_not_extend "s" (CooldownManager_init 3) 1000).
    + reflexivity.
    + repeat constructor.
    + vm_compute. discriminate.
Defined.

End cooldown_facts.
(** ** Failure tracker *)

Section failure_facts.
Import rate_limit runs.

Lemma failure_count_register_failure (now : Z) (key k : string) (self : FailureTracker) :
  failure_count (register_failure now key self) k
  = if decide (k = key) then failure_count self key + 1 else failure_count self k.
Proof.
  unfold register_failure, failure_count.
  destruct (_ <=? _); cbn [ft_failures];
    (case_decide as Hk; [subst; by rewrite lookup_insert_eq
                        | by rewrite lookup_insert_ne]).
Qed.

Lemma cooldowns_register_failure (now : Z) (key : string) (self : FailureTracker) :
  ft_cooldowns (register_failure now key self)
  = if decide (ft_max_failures self <= failure_count self key + 1)
    then <[key := now + ft_cooldown_seconds self]> (ft_cooldowns self)
    else ft_cooldowns self.
Proof.
  unfold register_failure. rewrite lookup_insert_eq. cbn [default from_option id].
  destruct (Z.leb_spec (ft_max_failures self) (failure_count self key + 1));
    cbn [ft_cooldowns]; case_decide; (done || lia).
Qed.

Lemma register_failure_config (now : Z) (key : string) (self : FailureTracker) :
  ft_max_failures (register_failure now key self) = ft_max_failures self
  ∧ ft_cooldown_seconds (register_failure now key self) = ft_cooldown_seconds self.
Proof. unfold register_failure. by destruct (_ <=? _). Qed.


Lemma tracker_after_config (max_failures cooldown_seconds : Z) (calls : list tracker_call) :
  ft_max_failures (tracker_after max_failures cooldown_seconds calls) = max_failures
  ∧ ft_cooldown_seconds (tracker_after max_failures cooldown_seconds calls) = cooldown_seconds.
Proof.
  unfold tracker_after.
  induction calls as [|c calls IH] using rev_ind; [done|].
  rewrite fold_left_app. cbn [fold_left tracker_step].
  destruct c as [now key|key]; cbn [tracker_step].
  - destruct (register_failure_config now key
                (fold_left tracker_step calls (FailureTracker_init max_failures cooldown_seconds)))
      as [-> ->]. done.
  - done.
Qed.




End failure_facts.
(** ** Session store *)

Section storage_facts.
Import py storage runs.
Context (lib : pylib).

(** The id a new entry gets. *)
Local Abbreviation short_hash session_key :=
  (slice_to (sha1_hexdigest lib session_key) 16).

Lemma get_or_create_known (scope key : string) (display_name : option string)
    (self : SessionIndex) (entry : session_entry) :
  si_sessions self !! make_session_key scope key = Some entry →
  get_or_create lib scope key display_name self = (se_id entry, self).
Proof. intros Hknown. unfold get_or_create. by rewrite Hknown. Qed.

Lemma get_or_create_new (scope key : string) (display_name : option string)
    (self : SessionIndex) :
  si_sessions self !! make_session_key scope key = None →
  get_or_create lib scope key display_name self
  = (short_hash (make_session_key scope key),
     save (mkSessionIndex
             (<[make_session_key scope key :=
                  mkSessionEntry (short_hash (make_session_key scope key))
                    display_name scope key]> (si_sessions self))
             (si_file self))).
Proof. intros Hnew. unfold get_or_create. by rewrite Hnew. Qed.

(** After a lookup the key is known, under the id the lookup returned. *)
Lemma get_or_create_records (scope key : string) (display_name : option string)
    (self : SessionIndex) :
  ∃ entry,
    si_sessions (get_or_create lib scope key display_name self).2
      !! make_session_key scope key = Some entry
    ∧ se_id entry = (get_or_create lib scope key display_name self).1.
Proof.
  destruct (si_sessions self !! make_session_key scope key) as [entry|] eqn:Hk.
  - rewrite (get_or_create_known _ _ _ _ _ Hk). eauto.
  - rewrite (get_or_create_new _ _ _ _ Hk). unfold save. cbn [fst snd si_sessions].
    rewrite lookup_insert_eq. eauto.
Qed.


Lemma index_consistent_step (self : SessionIndex) (c : index_call) :
  index_consistent lib self → index_consistent lib (index_step lib self c).
Proof.
  intros [Hids Hfile]. destruct c as [scope key display_name|]; cbn [index_step].
  - destruct (si_sessions self !! make_session_key scope key) as [entry|] eqn:Hk.
    + by rewrite (get_or_create_known _ _ _ _ _ Hk).
    + rewrite (get_or_create_new _ _ _ _ Hk). unfold save. cbn [snd si_sessions si_file]. split.
      * intros k e. cbn [si_sessions]. destruct (decide (k = make_session_key scope key)) as [->|Hne].
        -- rewrite lookup_insert_eq. by intros [= <-].
        -- rewrite lookup_insert_ne by done. apply Hids.
      * by left.
  - destruct Hfile as [Hsome|[Hnone Hempty]].
    + rewrite Hsome. cbn [SessionIndex_init]. split; [done | by left].
    + rewrite Hnone. cbn [SessionIndex_init]. split; [|by right].
      intros k e. cbn [si_sessions]. by rewrite lookup_empty.
Qed.

Lemma index_after_consistent (calls : list index_call) :
  index_consistent lib (index_after lib calls).
Proof.
  unfold index_after. induction calls as [|c calls IH] using rev_ind.
  - split; [|by right]. intros k e. cbn. by rewrite lookup_empty.
  - rewrite fold_left_app. cbn [fold_left]. by apply index_consistent_step.
Qed.





Lemma save_image_target (scope session_id : string) (image_bytes : list Byte.byte)
    (mime_type : string) (message_id : option string) (self : SessionStore) :
  let target := (scope, session_id, image_filename lib image_bytes mime_type message_id) in
  (save_image lib scope session_id image_bytes mime_type message_id self).1
  = mkStoredImage
      (image_relpath lib scope session_id
         (image_filename lib image_bytes mime_type message_id))
      (sha256_hexdigest lib image_bytes) (Z.of_nat (length image_bytes)) mime_type
  ∧ (save_image lib scope session_id image_bytes mime_type message_id self).2
    = match ss_images self !! target with
      | Some _ => self
      | None =>
          mkSessionStore (ss_index self) (ss_histories self)
            (<[target := image_bytes]> (ss_images self))
            (ss_image_writes self ++ [target])
      end.
Proof. done. Qed.


(** C9. The descriptor [save_image] returns describes the bytes passed
    in that call: its [sha256] is the SHA-256 of the argument and its
    [size] their length.  When a file of the derived name exists already,
    with whatever content, nothing is written: the store, and so the
    stored file, stay as they were, while the descriptor still describes
    the new bytes. *)
Theorem save_image_describes_argument (scope session_id : string)
    (image_bytes : list Byte.byte) (mime_type : string) (message_id : option string)
    (self : SessionStore) :
  let saved := save_image lib scope session_id image_bytes mime_type message_id self in
  let target := (scope, session_id, image_filename lib image_bytes mime_type message_id) in
  sha256 saved.1 = sha256_hexdigest lib image_bytes
  ∧ size saved.1 = Z.of_nat (length image_bytes)
  ∧ (∀ stored : list Byte.byte,
       ss_images self !! target = Some stored →
       saved.2 = self
       ∧ ss_images saved.2 !! target = Some stored
       ∧ sha256 saved.1 = sha256_hexdigest lib image_bytes
       ∧ size saved.1 = Z.of_nat (length image_bytes)).
Proof.
  intros saved target.
  destruct (save_image_target scope session_id image_bytes mime_type message_id self)
    as [Hd Hs].
  fold saved in Hd, Hs. fold target in Hs.
  split; [by rewrite Hd|]. split; [by rewrite Hd|].
  intros stored Hstored. rewrite Hstored in Hs.
  rewrite Hs, Hd. done.
Qed.

End storage_facts.

Section storage_examples.
Import py storage runs.


(** C9 on a store that already holds other bytes under the name
    [m1.png]: the file keeps them, and the descriptor carries the SHA-256
    and the length of the bytes passed in. *)
Lemma save_image_describes_argument_witness :
  ss_images
    (save_image pyref.lib "private" "0543017a9759e385" examples.png_bytes "image/png"
       (Some "m1"%string)
       (mkSessionStore (index_after pyref.lib []) ∅
          {[ ("private"%string, "0543017a9759e385"%string, "m1.png"%string)
               := [Byte.x00] ]} [])).2
    !! ("private"%string, "0543017a9759e385"%string, "m1.png"%string)
  = Some [Byte.x00]
  ∧ sha256
      (save_image pyref.lib "private" "0543017a9759e385" examples.png_bytes "image/png"
         (Some "m1"%string)
         (mkSessionStore (index_after pyref.lib []) ∅
            {[ ("private"%string, "0543017a9759e385"%string, "m1.png"%string)
                 := [Byte.x00] ]} [])).1
    = sha256_hexdigest pyref.lib examples.png_bytes.
Proof.
  destruct (save_image_describes_argument pyref.lib "private" "0543017a9759e385"
              examples.png_bytes "image/png" (Some "m1"%string)
              (mkSessionStore (index_after pyref.lib []) ∅
                 {[ ("private"%string, "0543017a9759e385"%string, "m1.png"%string)
                      := [Byte.x00] ]} []))
    as (_ & _ & Hskip).
  destruct (Hskip [Byte.x00]) as (_ & Hkept & Hsha & _).
  - by vm_compute.
  - split; [exact Hkept | exact Hsha].
Defined.

End storage_examples.
(** ** Token estimates and context assembly *)

Section token_facts.
Import py token_utils.

Lemma length_substring_0 (n : nat) (s : string) :
  String.length (String.substring 0 n s) = Nat.min n (String.length s).
Proof.
  revert n. induction s as [|c s IH]; intros [|n]; cbn; try done.
  by rewrite IH.
Qed.

Lemma len_slice_to (text : string) (stop : Z) :
  0 <= stop → len (slice_to text stop) = Z.min stop (len text).
Proof.
  intros Hstop. unfold slice_to, len. rewrite length_substring_0.
  destruct (Z.ltb_spec stop 0); lia.
Qed.

Lemma estimate_tokens_nonneg (text : string) : 0 <= estimate_tokens text.
Proof. unfold estimate_tokens. destruct (truthy text); lia. Qed.

Lemma estimate_tokens_bound (text : string) (m : Z) :
  0 <= m → len text <= m * 4 → estimate_tokens text <= m.
Proof.
  intros Hm Hlen. unfold estimate_tokens, truthy, ceil_div4, len in *.
  destruct (String.length text) as [|n] eqn:Hn; cbn [Nat.eqb negb]; [lia|].
  assert ((Z.of_nat (S n) + 3) / 4 < m + 1) by (apply Z.div_lt_upper_bound; lia).
  lia.
Qed.

(** Truncation does what its name says for a cap that is not negative. *)
Lemma truncate_text_to_tokens_le (text : string) (max_tokens : Z) :
  0 <= max_tokens →
  estimate_tokens (truncate_text_to_tokens text max_tokens) <= max_tokens.
Proof.
  intros Hm. unfold truncate_text_to_tokens.
  destruct (Z.leb_spec (estimate_tokens text) max_tokens); [done|].
  apply estimate_tokens_bound; [done|]. rewrite len_slice_to by lia. lia.
Qed.

Lemma fold_tokens_shift {A : Type} (f : A → Z) (l : list A) (acc : Z) :
  fold_left (fun a x => a + f x) l acc = acc + fold_left (fun a x => a + f x) l 0.
Proof.
  revert acc. induction l as [|x l IH]; intros acc; cbn [fold_left]; [lia|].
  rewrite (IH (acc + f x)), (IH (0 + f x)). lia.
Qed.

Lemma estimate_messages_tokens_cons (m : message) (l : list message) :
  estimate_messages_tokens (m :: l) = estimate_message_tokens m + estimate_messages_tokens l.
Proof.
  unfold estimate_messages_tokens. cbn [fold_left]. rewrite fold_tokens_shift. lia.
Qed.

Lemma estimate_messages_tokens_app (l1 l2 : list message) :
  estimate_messages_tokens (l1 ++ l2)
  = estimate_messages_tokens l1 + estimate_messages_tokens l2.
Proof.
  induction l1 as [|m l1 IH]; [done|].
  rewrite <- app_comm_cons, !estimate_messages_tokens_cons, IH. lia.
Qed.

Lemma estimate_messages_tokens_rev (l : list message) :
  estimate_messages_tokens (rev l) = estimate_messages_tokens l.
Proof.
  induction l as [|m l IH]; [done|].
  cbn [rev]. rewrite estimate_messages_tokens_app, !estimate_messages_tokens_cons, IH.
  unfold estimate_messages_tokens at 2. cbn [fold_left]. lia.
Qed.

End token_facts.

Section trim_context_facts.
Import py token_utils config models bot.

Lemma record_content_tokens_nonneg (record : message) : 0 <= record_content_tokens record.
Proof.
  unfold record_content_tokens, estimate_tokens_seq.
  destruct (msg_content record) as [s|items]; [apply estimate_tokens_nonneg|].
  destruct items; lia.
Qed.

Lemma record_content_tokens_text (record : message) :
  is_text record → record_content_tokens record = estimate_message_tokens record.
Proof.
  unfold is_text, record_content_tokens, estimate_message_tokens.
  by destruct (msg_content record).
Qed.

Lemma history_messages_text (lib : pylib) (history : list storage.history_record) :
  Forall is_text (_history_to_messages lib history).
Proof. unfold _history_to_messages. apply Forall_map, Forall_forall. done. Qed.

(** The walk takes a prefix of the records it is given (newest first) and
    stops at the first that does not fit; what it takes fits in what
    remained. *)
Lemma walk_history_prefix (records : list message) (remaining : Z)
    (trimmed_history : list message) :
  Forall is_text records →
  ∃ taken rest,
    records = taken ++ rest
    ∧ walk_history records remaining trimmed_history = trimmed_history ++ taken
    ∧ (taken = [] ∨ estimate_messages_tokens taken <= remaining).
Proof.
  intros Htext. revert remaining trimmed_history.
  induction Htext as [|record rest' Hrec _ IH]; intros remaining trimmed_history.
  - exists [], []. cbn. rewrite app_nil_r. auto.
  - cbn [walk_history].
    destruct (Z.leb_spec (record_content_tokens record) remaining) as [Hfit|Hover].
    + destruct (IH (remaining - record_content_tokens record) (trimmed_history ++ [record]))
        as (taken & rest & -> & Hwalk & Hsum).
      exists (record :: taken), rest. split; [done|]. split.
      * rewrite Hwalk. by rewrite <- app_assoc.
      * right. rewrite estimate_messages_tokens_cons.
        rewrite <- (record_content_tokens_text record Hrec).
        destruct Hsum as [->|Hsum]; [|lia].
        unfold estimate_messages_tokens. cbn. lia.
    + exists [], (record :: rest'). rewrite app_nil_r. auto.
Qed.

(** The latest message [_build_latest_message] builds has one text to
    truncate, so a positive cap on it caps the whole message. *)
Lemma truncate_latest_built_le (lib : pylib) (cfg : BotConfig) (msg : IncomingMessage)
    (image_meta : option storage.StoredImage) (latest : list message) (cap : Z) :
  latest = _build_latest_message lib msg image_meta
  ∨ latest = _truncate_latest cfg (_build_latest_message lib msg image_meta) None →
  0 < cap →
  estimate_messages_tokens (_truncate_latest cfg latest (Some cap)) <= cap
  ∧ ∃ m, _truncate_latest cfg latest (Some cap) = [m].
Proof.
  intros Hlatest Hcap.
  assert (Hshape : (∃ r s, latest = [Message r (CText s)])
                   ∨ (∃ r t u, latest = [Message r (CParts [PText t; PImageUrl u])])).
  { unfold _build_latest_message, llm_client.image_to_message in Hlatest.
    destruct (has_image msg); destruct Hlatest as [->| ->]; cbn; eauto. }
  assert (Hb : (if cap =? 0 then max_single_message_tokens (limits cfg) else cap) = cap).
  { destruct (Z.eqb_spec cap 0); [lia | done]. }
  destruct Hshape as [(r & s & ->)|(r & t & u & ->)]; cbn [_truncate_latest msg_content];
    rewrite Hb; (split; [|eauto]).
  - unfold estimate_messages_tokens, estimate_message_tokens. cbn.
    apply truncate_text_to_tokens_le. lia.
  - unfold estimate_messages_tokens, estimate_message_tokens. cbn.
    pose proof (truncate_text_to_tokens_le t cap). lia.
Qed.

Lemma truncate_latest_built_shape (lib : pylib) (cfg : BotConfig) (msg : IncomingMessage)
    (image_meta : option storage.StoredImage) :
  (∃ m, _build_latest_message lib msg image_meta = [m])
  ∧ ∃ m, _truncate_latest cfg (_build_latest_message lib msg image_meta) None = [m].
Proof.
  unfold _build_latest_message. destruct (has_image msg); cbn; eauto.
Qed.

(** C1, as the code has it. For every system prompt whose estimated
    tokens are below the budget B, every ordered history and every new
    user message: the prompt [_trim_context] assembles is the system
    message, then the history messages of a most-recent suffix of the
    history in chronological order, then the one (truncated) new message,
    and its total estimated tokens do not exceed B. *)
Theorem trim_context_within_budget (lib : pylib) (cfg : BotConfig)
    (system_prompt : string) (history : list storage.history_record)
    (msg : IncomingMessage) (image_meta : option storage.StoredImage) (budget : Z) :
  estimate_messages_tokens [Message "system" (CText system_prompt)] < budget →
  ∃ (dropped : nat) (latest : message),
    _trim_context cfg [Message "system" (CText system_prompt)]
      (_history_to_messages lib history) (_build_latest_message lib msg image_meta) budget
    = [Message "system" (CText system_prompt)]
      ++ _history_to_messages lib (drop dropped history) ++ [latest]
    ∧ estimate_messages_tokens
        (_trim_context cfg [Message "system" (CText system_prompt)]
           (_history_to_messages lib history) (_build_latest_message lib msg image_meta)
           budget)
      <= budget.
Proof.
  intros Hsys. unfold _trim_context.
  set (system_messages := [Message "system" (CText system_prompt)]) in *.
  set (system_tokens := estimate_messages_tokens system_messages) in *.
  set (latest0 := _build_latest_message lib msg image_meta).
  set (latest1 := if max_single_message_tokens (limits cfg) <? estimate_messages_tokens latest0
                  then _truncate_latest cfg latest0 None else latest0).
  set (latest2 := if budget <? system_tokens + estimate_messages_tokens latest1
                  then _truncate_latest cfg latest1 (Some (budget - system_tokens))
                  else latest1).
  assert (Hlatest1 : latest1 = latest0 ∨ latest1 = _truncate_latest cfg latest0 None).
  { unfold latest1. destruct (_ <? _); auto. }
  assert (Hlatest2 : estimate_messages_tokens latest2 <= budget - system_tokens
                     ∧ ∃ m, latest2 = [m]).
  { unfold latest2.
    destruct (Z.ltb_spec budget (system_tokens + estimate_messages_tokens latest1)).
    - apply (truncate_latest_built_le lib cfg msg image_meta); [done | lia].
    - split; [lia|].
      destruct (truncate_latest_built_shape lib cfg msg image_meta) as [Hm0 Hm1].
      destruct Hlatest1 as [->| ->]; done. }
  destruct Hlatest2 as [Hfit [latest Hone]].
  set (remaining := budget - (system_tokens + estimate_messages_tokens latest2)).
  destruct (walk_history_prefix (rev (_history_to_messages lib history)) remaining [])
    as (taken & rest & Hsplit & Hwalk & Hsum).
  { apply Forall_rev, history_messages_text. }
  rewrite Hwalk, app_nil_l.
  assert (Hhist : _history_to_messages lib history = rev rest ++ rev taken).
  { rewrite <- rev_app_distr, <- Hsplit. by rewrite rev_involutive. }
  exists (length (rev rest)), latest. split.
  - rewrite Hone. do 2 f_equal.
    unfold _history_to_messages in *. rewrite <- skipn_map, Hhist.
    by rewrite drop_app_length.
  - rewrite !estimate_messages_tokens_app, estimate_messages_tokens_rev.
    fold system_tokens.
    destruct Hsum as [->|Hsum].
    + unfold estimate_messages_tokens at 1. cbn [fold_left]. lia.
    + unfold remaining in Hsum. lia.
Qed.

(** The claim as first stated fails: with the 805-token budget of
    [tight_config] the prompt budget is 5, the system prompt alone is
    estimated at 9 tokens, and the prompt assembled for [hello] and an
    empty history (the system message and the new message cut down to the
    empty string) is estimated at 9 tokens. *)
Lemma trim_context_over_budget :
  0 < token_budget (limits examples.tight_config)
      - _max_output_tokens examples.tight_config "private"
  ∧ token_budget (limits examples.tight_config)
    - _max_output_tokens examples.tight_config "private"
    < estimate_messages_tokens
        (_trim_context examples.tight_config
           [Message "system"
              (CText (prompt_for_scope (persona examples.tight_config) "private"))]
           (_history_to_messages pyref.lib [])
           (_build_latest_message pyref.lib examples.hello None)
           (token_budget (limits examples.tight_config)
            - _max_output_tokens examples.tight_config "private")).
Proof. split; by vm_compute. Qed.

(** The amended claim on the default budget (4096 - 800 tokens), an
    earlier exchange of two records and the event [hello]. *)
Lemma trim_context_within_budget_witness :
  estimate_messages_tokens
    [Message "system" (CText (prompt_for_scope (persona examples.sample_config) "private"))]
  < 3296
  ∧ ∃ (dropped : nat) (latest : message),
      _trim_context examples.sample_config
        [Message "system" (CText (prompt_for_scope (persona examples.sample_config) "private"))]
        (_history_to_messages pyref.lib examples.earlier_exchange)
        (_build_latest_message pyref.lib examples.hello None) 3296
      = [Message "system"
           (CText (prompt_for_scope (persona examples.sample_config) "private"))]
        ++ _history_to_messages pyref.lib (drop dropped examples.earlier_exchange)
        ++ [latest]
      ∧ estimate_messages_tokens
          (_trim_context examples.sample_config
             [Message "system"
                (CText (prompt_for_scope (persona examples.sample_config) "private"))]
             (_history_to_messages pyref.lib examples.earlier_exchange)
             (_build_latest_message pyref.lib examples.hello None) 3296)
        <= 3296.
Proof.
  assert (Hsys : estimate_messages_tokens
                   [Message "system"
                      (CText (prompt_for_scope (persona examples.sample_config) "private"))]
                 < 3296) by (by vm_compute).
  split; [exact Hsys|].
  exact (trim_context_within_budget pyref.lib examples.sample_config
           (prompt_for_scope (persona examples.sample_config) "private")
           examples.earlier_exchange examples.hello None 3296 Hsys).
Defined.

(** Where the estimate of the system prompt equals the budget, the cap
    left for the new message is 0, [_truncate_latest] reads a cap of 0 as
    no cap given and falls back on [max_single_message_tokens], and the
    new message stays whole: for the 9-token system prompt, a budget of 9
    and the event [hello] the prompt is estimated at 11 tokens. *)
Lemma trim_context_budget_equal_to_system :
  estimate_messages_tokens
    [Message "system" (CText (prompt_for_scope (persona examples.sample_config) "private"))]
  = 9
  ∧ _truncate_latest examples.sample_config
      (_build_latest_message pyref.lib examples.hello None) (Some 0)
    = _build_latest_message pyref.lib examples.hello None
  ∧ estimate_messages_tokens
      (_trim_context examples.sample_config
         [Message "system"
            (CText (prompt_for_scope (persona examples.sample_config) "private"))]
         (_history_to_messages pyref.lib [])
         (_build_latest_message pyref.lib examples.hello None) 9)
    = 11.
Proof. repeat split; by vm_compute. Qed.

End trim_context_facts.
(** ** Orchestrator *)

Section bot_facts.
Import py token_utils config models bot.

Lemma new_events_app (before after : WxAutoBot) (evs : list event) :
  bot_trace after = bot_trace before ++ evs → new_events before after = evs.
Proof. intros Htrace. unfold new_events. rewrite Htrace. apply drop_app_length. Qed.

Lemma send_raises_on_failed_exchange (post : list message → llm_client.post_result)
    (messages : list message) :
  (∃ exc, post messages = llm_client.PostRaised exc)
  ∨ (∃ status resp_text,
       post messages = llm_client.PostResponse status resp_text ∧ 400 <= status < 600) →
  ∃ exc, llm_client.send post messages = Raised exc.
Proof.
  unfold llm_client.send, llm_client.raise_for_status.
  intros [[exc ->]|(status & resp_text & -> & Hstatus)]; [eauto|].
  destruct (Z.leb_spec 400 status); [|lia].
  destruct (Z.ltb_spec status 600); [|lia]. cbn. eauto.
Qed.

(** What one run of [_generate_reply] can do to the bot: it returns, and
    it logs nothing, a history read, or a history read and one model
    call; the store, the dedupe cache, both cooldown managers and the
    configuration stay as they are. *)
Lemma generate_reply_effects (lib : pylib) (env : run_env) (msg : IncomingMessage)
    (session : SessionInfo) (image_meta : option storage.StoredImage) (self : WxAutoBot) :
  (∃ reply, (_generate_reply lib env msg session image_meta self).1 = Returned reply)
  ∧ (∃ evs,
       bot_trace (_generate_reply lib env msg session image_meta self).2
       = bot_trace self ++ evs
       ∧ (evs = []
          ∨ evs = [EvLoadHistory (scope session) (session_id session)]
          ∨ ∃ messages,
              evs = [EvLoadHistory (scope session) (session_id session);
                     EvLlmSend messages]))
  ∧ bot_store (_generate_reply lib env msg session image_meta self).2 = bot_store self
  ∧ bot_config (_generate_reply lib env msg session image_meta self).2 = bot_config self
  ∧ bot_dedupe (_generate_reply lib env msg session image_meta self).2 = bot_dedupe self
  ∧ bot_session_cooldown (_generate_reply lib env msg session image_meta self).2
    = bot_session_cooldown self
  ∧ bot_user_cooldown (_generate_reply lib env msg session image_meta self).2
    = bot_user_cooldown self.
Proof.
  unfold _generate_reply.
  destruct (truthy_opt _).
  { cbn. split; [eauto|]. split; [|done]. exists []. by rewrite app_nil_r; auto. }
  destruct (_ && _).
  { cbn. split; [eauto|]. split; [|done]. exists []. by rewrite app_nil_r; auto. }
  destruct (_ <=? 0).
  { cbn. split; [eauto|]. split; [|done]. eauto. }
  cbn [bot_vision_cache emit bot_config].
  destruct (image_meta ≫= _) as [cached|].
  { cbn. split; [eauto|]. split; [|done]. eauto. }
  destruct (llm_client.send _ _) as [reply|exc].
  - destruct (negb (truthy _)).
    + cbn. split; [eauto|]. split; [|done].
      eexists. split; [by rewrite <- app_assoc|]. right. right. eauto.
    + destruct image_meta; cbn; (split; [eauto|]); (split; [|done]);
        (eexists; split; [by rewrite <- app_assoc|]); right; right; eauto.
  - cbn. split; [eauto|]. split; [|done].
    eexists. split; [by rewrite <- app_assoc|]. right. right. eauto.
Qed.

(** C2. For every inbound event whose model call raises (a timeout or
    transport failure of the request, a 4xx or 5xx status, an error of the
    decoder): reply generation catches it and returns, the value it
    returns is the configured fallback reply, the failure counter of the
    session is one more than before, and the run made this one model call
    and no other (after reading the history). *)
Theorem model_failure_gives_fallback (lib : pylib) (env : run_env) (msg : IncomingMessage)
    (session : SessionInfo) (image_meta : option storage.StoredImage) (self : WxAutoBot)
    (messages : list message) (exc : string) :
  In (EvLlmSend messages)
     (new_events self (_generate_reply lib env msg session image_meta self).2) →
  llm_client.send (http_post env) messages = Raised exc →
  (_generate_reply lib env msg session image_meta self).1
  = Returned (fallback_reply (failure (bot_config self)))
  ∧ rate_limit.failure_count
      (bot_failure_tracker (_generate_reply lib env msg session image_meta self).2)
      (session_id session)
    = rate_limit.failure_count (bot_failure_tracker self) (session_id session) + 1
  ∧ bot_failure_tracker (_generate_reply lib env msg session image_meta self).2
    = rate_limit.register_failure (t_register_failure env) (session_id session)
        (bot_failure_tracker self)
  ∧ new_events self (_generate_reply lib env msg session image_meta self).2
    = [EvLoadHistory (scope session) (session_id session); EvLlmSend messages]
  ∧ bot_vision_cache (_generate_reply lib env msg session image_meta self).2
    = bot_vision_cache self.
Proof.
  unfold _generate_reply.
  destruct (truthy_opt _).
  { cbn [snd]. unfold new_events. rewrite drop_all. by intros []. }
  destruct (_ && _).
  { cbn [snd]. unfold new_events. rewrite drop_all. by intros []. }
  destruct (_ <=? 0).
  { cbn [snd]. rewrite (new_events_app self _ [EvLoadHistory (scope session) (session_id session)])
      by done.
    intros [Hev|[]]. discriminate. }
  cbn [bot_vision_cache emit bot_config].
  destruct (image_meta ≫= _) as [cached|].
  { cbn [snd]. rewrite (new_events_app self _ [EvLoadHistory (scope session) (session_id session)])
      by done.
    intros [Hev|[]]. discriminate. }
  set (sent := _trim_context _ _ _ _ _).
  assert (Hcases : ∀ out : outcome string * WxAutoBot,
            bot_trace out.2
            = bot_trace self ++ [EvLoadHistory (scope session) (session_id session);
                                 EvLlmSend sent] →
            In (EvLlmSend messages) (new_events self out.2) → messages = sent).
  { intros out Htrace. rewrite (new_events_app _ _ _ Htrace).
    intros [Hev|[Hev|[]]]; [discriminate | by injection Hev]. }
  destruct (llm_client.send (http_post env) sent) as [reply|exc'] eqn:Hsend.
  - intros Hin Hraised. exfalso.
    assert (messages = sent) as ->; [|congruence].
    revert Hin. apply Hcases.
    destruct (negb (truthy _)); [by cbn; rewrite <- app_assoc|].
    destruct image_meta; by cbn; rewrite <- app_assoc.
  - intros Hin Hraised.
    assert (messages = sent) as ->.
    { revert Hin. apply Hcases. by cbn; rewrite <- app_assoc. }
    cbn [fst snd]. split; [done|]. split.
    + cbn [bot_failure_tracker set_failure_tracker].
      unfold rate_limit.register_failure, rate_limit.failure_count.
      destruct (_ <=? _); cbn [rate_limit.ft_failures]; by rewrite lookup_insert_eq.
    + split; [done|]. split; [|done].
      apply new_events_app. by cbn; rewrite <- app_assoc.
Qed.

Lemma load_history_append (scope session_id : string) (record : storage.history_record)
    (st : storage.SessionStore) :
  storage.load_history scope session_id (storage.append_history scope session_id record st)
  = storage.load_history scope session_id st ++ [record].
Proof.
  unfold storage.append_history, storage.load_history at 1. cbn [storage.ss_histories].
  by rewrite lookup_insert_eq.
Qed.

Lemma load_history_save_image (lib : pylib) (scope session_id sc sid : string)
    (image_bytes : list Byte.byte) (mime_type : string) (message_id : option string)
    (st : storage.SessionStore) :
  storage.load_history scope session_id
    (storage.save_image lib sc sid image_bytes mime_type message_id st).2
  = storage.load_history scope session_id st.
Proof.
  unfold storage.save_image, storage.load_history. cbn [snd].
  by destruct (storage.ss_images st !! _).
Qed.

(** The recording stage logs the write of the image, if any, then the
    append of the inbound record, and adds that record to the history of
    the session. *)
Lemma record_inbound_spec (lib : pylib) (msg : IncomingMessage) (session : SessionInfo)
    (self : WxAutoBot) :
  ∃ pre,
    (pre = [] ∨ pre = [EvSaveImage (scope session) (session_id session)])
    ∧ bot_trace (record_inbound lib msg session self).2
      = bot_trace self
        ++ pre ++ [EvAppendHistory (scope session) (session_id session)
                     (received_record msg session (record_inbound lib msg session self).1)]
    ∧ storage.load_history (scope session) (session_id session)
        (bot_store (record_inbound lib msg session self).2)
      = storage.load_history (scope session) (session_id session) (bot_store self)
        ++ [received_record msg session (record_inbound lib msg session self).1]
    ∧ bot_config (record_inbound lib msg session self).2 = bot_config self
    ∧ bot_session_cooldown (record_inbound lib msg session self).2 = bot_session_cooldown self
    ∧ bot_user_cooldown (record_inbound lib msg session self).2 = bot_user_cooldown self.
Proof.
  unfold record_inbound. destruct (has_image msg).
  - destruct (storage.save_image _ _ _ _ _ _ _) as [meta st] eqn:Hsave.
    exists [EvSaveImage (scope session) (session_id session)].
    cbn. split; [auto|]. split; [by rewrite <- app_assoc|]. split; [|done].
    rewrite load_history_append. f_equal.
    replace st with (storage.save_image lib (scope session) (session_id session)
                       (default [] (image_bytes msg)) (default "" (image_mime msg))
                       (Some (message_id msg)) (bot_store self)).2 by (by rewrite Hsave).
    apply load_history_save_image.
  - exists []. cbn. split; [auto|]. split; [done|]. split; [|done].
    apply load_history_append.
Qed.


(** Session resolution touches the index of the store and nothing else. *)
Lemma resolve_session_frame (lib : pylib) (msg : IncomingMessage) (self : WxAutoBot) :
  bot_config (_resolve_session lib msg self).2 = bot_config self
  ∧ bot_dedupe (_resolve_session lib msg self).2 = bot_dedupe self
  ∧ bot_failure_tracker (_resolve_session lib msg self).2 = bot_failure_tracker self
  ∧ bot_session_cooldown (_resolve_session lib msg self).2 = bot_session_cooldown self
  ∧ bot_user_cooldown (_resolve_session lib msg self).2 = bot_user_cooldown self
  ∧ bot_trace (_resolve_session lib msg self).2 = bot_trace self
  ∧ (∀ scope session_id,
       storage.load_history scope session_id (bot_store (_resolve_session lib msg self).2)
       = storage.load_history scope session_id (bot_store self))
  ∧ scope (_resolve_session lib msg self).1 = scope_of msg.
Proof.
  unfold _resolve_session, storage.resolve_session.
  destruct (storage.get_or_create _ _ _ _ _) as [sid index]. done.
Qed.

(** [handle_message] for an event that passes the three gates and whose
    trigger evaluation returns. *)
Lemma handle_message_passed (lib : pylib) (env : run_env) (msg : IncomingMessage)
    (self : WxAutoBot) (should_reply : bool) :
  _is_self_message (bot_config self) msg = false →
  (rate_limit.seen_recently (t_seen_recently env) (unique_key_of lib msg)
     (bot_dedupe self)).1 = false →
  rate_limit.is_blocked (t_is_blocked env) (session_id (_resolve_session lib msg self).1)
    (bot_failure_tracker self) = false →
  _should_trigger lib (bot_config self) msg = Returned should_reply →
  ∃ resolved,
    bot_trace resolved = bot_trace self
    ∧ bot_session_cooldown resolved = bot_session_cooldown self
    ∧ bot_user_cooldown resolved = bot_user_cooldown self
    ∧ bot_config resolved = bot_config self
    ∧ (∀ scope session_id,
         storage.load_history scope session_id (bot_store resolved)
         = storage.load_history scope session_id (bot_store self))
    ∧ handle_message lib env msg self
      = if negb should_reply
        then (Returned tt,
              (record_inbound lib msg (_resolve_session lib msg self).1 resolved).2)
        else reply_to lib env msg (_resolve_session lib msg self).1
               (record_inbound lib msg (_resolve_session lib msg self).1 resolved).1
               (record_inbound lib msg (_resolve_session lib msg self).1 resolved).2.
Proof.
  intros Hself Hseen Hblocked Htrigger. unfold handle_message. rewrite Hself.
  destruct (resolve_session_frame lib msg self)
    as (Hcfg & Hdedupe & Htracker & Hsc & Huc & Htrace & Hhist & _).
  destruct (_resolve_session lib msg self) as [session self1]. cbn [fst snd] in *.
  rewrite Hdedupe.
  destruct (rate_limit.seen_recently _ _ _) as [seen cache]. cbn [fst] in Hseen. subst seen.
  cbn [set_dedupe bot_failure_tracker bot_config]. rewrite Htracker, Hblocked, Hcfg, Htrigger.
  match goal with
  | |- context [record_inbound lib msg session ?s] => exists s
  end.
  cbn [bot_trace bot_session_cooldown bot_user_cooldown bot_config bot_store].
  repeat (split; [done|]).
  by destruct (record_inbound lib msg session _).
Qed.






(** C2 on the event [hello], a new bot with the sample configuration and
    a backend that answers 503: the reply is the fallback text and the
    failure counter of the session goes from 0 to 1. *)
Lemma model_failure_gives_fallback_witness :
  (_generate_reply pyref.lib examples.backend_unavailable examples.hello
     examples.hello_session None (WxAutoBot_init examples.sample_config None)).1
  = Returned "Sorry, I cannot reply right now."%string
  ∧ rate_limit.failure_count
      (bot_failure_tracker
         (_generate_reply pyref.lib examples.backend_unavailable examples.hello
            examples.hello_session None (WxAutoBot_init examples.sample_config None)).2)
      "0543017a9759e385"
    = 0 + 1.
Proof.
  destruct (model_failure_gives_fallback pyref.lib examples.backend_unavailable
              examples.hello examples.hello_session None
              (WxAutoBot_init examples.sample_config None)
              [Message "system" (CText "You are a helpful WeChat assistant.");
               Message "user" (CText "hello")]
              "HTTPError") as (Hreply & Hcount & _).
  - vm_compute. right. left. reflexivity.
  - reflexivity.
  - split; [exact Hreply | exact Hcount].
Defined.



End bot_facts.

(** * Further properties *)

(** ** Token estimates *)

Section token_more.
Import py token_utils.

Lemma prefix_substring_0 (n : nat) (s : string) :
  String.prefix (String.substring 0 n s) s = true.
Proof.
  revert n. induction s as [|c s IH]; intros [|n]; cbn; try done.
  rewrite IH. by destruct (Ascii.ascii_dec c c).
Qed.

Lemma prefix_refl (s : string) : String.prefix s s = true.
Proof.
  induction s as [|c s IH]; cbn; [done|]. by destruct (Ascii.ascii_dec c c).
Qed.

Lemma slice_to_all (text : string) (stop : Z) :
  len text <= stop → slice_to text stop = text.
Proof.
  intros Hlen. unfold slice_to, len in *.
  destruct (Z.ltb_spec stop 0); [lia|].
  rewrite Z.min_r by lia. rewrite Nat2Z.id.
  clear. induction text as [|c s IH]; cbn; [done|]. by rewrite IH.
Qed.

(** X1. [truncate_text_to_tokens] returns a prefix of the text, the text
    itself when it fits; for a cap that is not negative the result is
    within the cap, and truncating the result again changes nothing. *)
Theorem truncate_text_to_tokens_prefix (text : string) (max_tokens : Z) :
  String.prefix (truncate_text_to_tokens text max_tokens) text = true
  ∧ (estimate_tokens text <= max_tokens → truncate_text_to_tokens text max_tokens = text)
  ∧ (0 <= max_tokens →
     estimate_tokens (truncate_text_to_tokens text max_tokens) <= max_tokens
     ∧ truncate_text_to_tokens (truncate_text_to_tokens text max_tokens) max_tokens
       = truncate_text_to_tokens text max_tokens).
Proof.
  split; [|split].
  - unfold truncate_text_to_tokens. destruct (_ <=? _); [apply prefix_refl|].
    apply prefix_substring_0.
  - intros Hfits. unfold truncate_text_to_tokens.
    by destruct (Z.leb_spec (estimate_tokens text) max_tokens); [|lia].
  - intros Hcap. pose proof (truncate_text_to_tokens_le text max_tokens Hcap) as Hle.
    split; [done|]. unfold truncate_text_to_tokens at 1.
    by destruct (Z.leb_spec (estimate_tokens (truncate_text_to_tokens text max_tokens))
                   max_tokens); [|lia].
Qed.

Lemma truncate_text_to_tokens_prefix_witness :
  truncate_text_to_tokens "hello world" 20 = "hello world"%string
  ∧ estimate_tokens (truncate_text_to_tokens "hello world" 2) <= 2
  ∧ truncate_text_to_tokens "hello world" 2 = "hello wo"%string.
Proof.
  destruct (truncate_text_to_tokens_prefix "hello world" 20) as (_ & Hfits & _).
  destruct (truncate_text_to_tokens_prefix "hello world" 2) as (_ & _ & Hcap).
  split; [apply Hfits; by vm_compute|].
  split; [apply Hcap; lia | reflexivity].
Defined.

(** X2. A negative cap does not empty the text: Python reads the negative
    slice bound from the end, so a text that is not empty loses its last
    [4 * |max_tokens|] characters and keeps the rest. *)
Theorem truncate_text_to_tokens_negative_cap (text : string) (max_tokens : Z) :
  max_tokens < 0 →
  len (truncate_text_to_tokens text max_tokens) = Z.max 0 (len text + max_tokens * 4).
Proof.
  intros Hneg. unfold truncate_text_to_tokens.
  pose proof (estimate_tokens_nonneg text).
  destruct (Z.leb_spec (estimate_tokens text) max_tokens); [lia|].
  unfold slice_to. destruct (Z.ltb_spec (max_tokens * 4) 0); [|lia].
  unfold len at 1. rewrite length_substring_0. unfold len. lia.
Qed.

Lemma truncate_text_to_tokens_negative_cap_witness :
  len (truncate_text_to_tokens "hello world" (-1)) = 7.
Proof.
  rewrite (truncate_text_to_tokens_negative_cap "hello world" (-1)) by lia.
  reflexivity.
Defined.

(** X3. The estimate is 0 for the empty text only; for any other text it
    is the least [e >= 1] with [len(text) <= 4 * e]; a longer text never
    has a smaller estimate. *)
Theorem estimate_tokens_ceiling (text : string) :
  (estimate_tokens text = 0 ↔ text = ""%string)
  ∧ (text ≠ ""%string →
     1 <= estimate_tokens text
     ∧ 4 * (estimate_tokens text - 1) < len text <= 4 * estimate_tokens text)
  ∧ (∀ other, len text <= len other → estimate_tokens text <= estimate_tokens other).
Proof.
  assert (Hnonempty : ∀ s, s ≠ ""%string →
            1 <= estimate_tokens s
            ∧ 4 * (estimate_tokens s - 1) < len s <= 4 * estimate_tokens s).
  { intros s Hs. unfold estimate_tokens, truthy, ceil_div4, len.
    destruct s as [|c s]; [done|]. cbn [String.length Nat.eqb negb].
    pose proof (Z.div_mod (Z.of_nat (S (String.length s)) + 3) 4 ltac:(lia)).
    pose proof (Z.mod_pos_bound (Z.of_nat (S (String.length s)) + 3) 4 ltac:(lia)).
    lia. }
  split; [|split; [exact (Hnonempty text)|]].
  - split.
    + intros Hzero. destruct text as [|c s]; [done|].
      destruct (Hnonempty (String c s)) as [Hone _]; [done | lia].
    + by intros ->.
  - intros other Hlen. destruct text as [|c s].
    { apply estimate_tokens_nonneg. }
    destruct other as [|c' s'].
    { unfold len in Hlen. cbn in Hlen. lia. }
    destruct (Hnonempty (String c s)) as (_ & Hlo & _); [done|].
    destruct (Hnonempty (String c' s')) as (_ & _ & Hhi); [done|]. lia.
Qed.

Lemma estimate_tokens_ceiling_witness :
  1 <= estimate_tokens "hello"
  ∧ 4 * (estimate_tokens "hello" - 1) < len "hello" <= 4 * estimate_tokens "hello".
Proof.
  destruct (estimate_tokens_ceiling "hello") as (_ & Hnonempty & _).
  apply Hnonempty. discriminate.
Defined.

End token_more.

(** ** Context assembly at its edges *)

Section trim_context_more.
Import py token_utils config models bot.

Lemma estimate_tokens_of_len (text : string) (e : Z) :
  len text = e * 4 → estimate_tokens text = e.
Proof.
  intros Hlen. unfold estimate_tokens, truthy, ceil_div4, len in *.
  destruct (String.length text) as [|n]; cbn [Nat.eqb negb]; [lia|].
  rewrite Hlen. replace (e * 4 + 3) with (3 + e * 4) by lia.
  rewrite Z.div_add by lia. change (3 / 4) with 0. lia.
Qed.

Lemma estimate_truncate_min (text : string) (max_tokens : Z) :
  0 <= max_tokens →
  estimate_tokens (truncate_text_to_tokens text max_tokens)
  = Z.min (estimate_tokens text) max_tokens.
Proof.
  intros Hcap. unfold truncate_text_to_tokens.
  destruct (Z.leb_spec (estimate_tokens text) max_tokens) as [Hfits|Hover]; [lia|].
  rewrite Z.min_r by lia.
  assert (Hlong : max_tokens * 4 < len text).
  { destruct (Z.le_gt_cases (len text) (max_tokens * 4)) as [Hshort|]; [|lia].
    pose proof (estimate_tokens_bound text max_tokens Hcap Hshort). lia. }
  apply estimate_tokens_of_len. rewrite len_slice_to by lia. lia.
Qed.

Lemma truncate_text_to_tokens_fits (text : string) (max_tokens : Z) :
  estimate_tokens text <= max_tokens → truncate_text_to_tokens text max_tokens = text.
Proof.
  intros Hfits. unfold truncate_text_to_tokens.
  by destruct (Z.leb_spec (estimate_tokens text) max_tokens); [|lia].
Qed.

(** With nothing left of the budget the history walk keeps nothing. *)
Lemma walk_history_nothing_left (records : list message) (remaining : Z)
    (trimmed_history : list message) :
  remaining < 0 → walk_history records remaining trimmed_history = trimmed_history.
Proof.
  intros Hneg. destruct records as [|record rest]; [done|]. cbn [walk_history].
  pose proof (record_content_tokens_nonneg record).
  by destruct (Z.leb_spec (record_content_tokens record) remaining); [lia|].
Qed.

(** The two shapes of the message [_build_latest_message] builds. *)
Lemma build_latest_message_shape (lib : pylib) (msg : IncomingMessage)
    (image_meta : option storage.StoredImage) :
  (∃ s, _build_latest_message lib msg image_meta = [Message "user" (CText s)])
  ∨ (∃ t u, _build_latest_message lib msg image_meta
            = [Message "user" (CParts [PText t; PImageUrl u])]).
Proof.
  unfold _build_latest_message, llm_client.image_to_message.
  destruct (has_image msg); eauto.
Qed.

(** X4. When the estimate of the system message equals the budget and the
    new message is not empty, step 3 of [_trim_context] asks
    [_truncate_latest] for a cap of 0, which it reads as no cap given:
    the new message keeps what the single-message cap (positive) left of
    it, no history is kept, and the prompt is over the budget. *)
Theorem trim_context_exact_budget_overflows (lib : pylib) (cfg : BotConfig)
    (system_prompt : string) (history : list storage.history_record)
    (msg : IncomingMessage) (image_meta : option storage.StoredImage) :
  0 < max_single_message_tokens (limits cfg) →
  0 < estimate_messages_tokens (_build_latest_message lib msg image_meta) →
  _trim_context cfg [Message "system" (CText system_prompt)]
    (_history_to_messages lib history) (_build_latest_message lib msg image_meta)
    (estimate_messages_tokens [Message "system" (CText system_prompt)])
  = [Message "system" (CText system_prompt)]
    ++ (if max_single_message_tokens (limits cfg)
           <? estimate_messages_tokens (_build_latest_message lib msg image_meta)
        then _truncate_latest cfg (_build_latest_message lib msg image_meta) None
        else _build_latest_message lib msg image_meta)
  ∧ estimate_messages_tokens [Message "system" (CText system_prompt)]
    < estimate_messages_tokens
        (_trim_context cfg [Message "system" (CText system_prompt)]
           (_history_to_messages lib history) (_build_latest_message lib msg image_meta)
           (estimate_messages_tokens [Message "system" (CText system_prompt)])).
Proof.
  intros Hcap Hnonempty. unfold _trim_context.
  set (system_messages := [Message "system" (CText system_prompt)]).
  set (system_tokens := estimate_messages_tokens system_messages).
  set (latest0 := _build_latest_message lib msg image_meta) in *.
  set (cap := max_single_message_tokens (limits cfg)) in *.
  set (latest1 := if cap <? estimate_messages_tokens latest0
                  then _truncate_latest cfg latest0 None else latest0).
  (* what the single-message cap leaves: not empty, within the cap, and
     unchanged by truncating to the same cap again *)
  assert (Hlatest1 : 0 < estimate_messages_tokens latest1
                     ∧ _truncate_latest cfg latest1 (Some (system_tokens - system_tokens))
                       = latest1).
  { rewrite Z.sub_diag. unfold latest1.
    destruct (build_latest_message_shape lib msg image_meta)
      as [[s Hshape]|(t & u & Hshape)]; fold latest0 in Hshape; rewrite Hshape in *;
      unfold estimate_messages_tokens, estimate_message_tokens in *;
      cbn [fold_left msg_content estimate_part_tokens] in *;
      rewrite ?Z.add_0_l, ?Z.add_0_r in *.
    - destruct (Z.ltb_spec cap (estimate_tokens s)) as [Hover|Hfits];
        cbn [_truncate_latest msg_content role fold_left Z.eqb]; fold cap;
        rewrite ?Z.add_0_l.
      + rewrite estimate_truncate_min by lia. split; [lia|].
        rewrite (truncate_text_to_tokens_fits (truncate_text_to_tokens s cap))
          by (rewrite estimate_truncate_min by lia; lia).
        done.
      + split; [done|]. by rewrite truncate_text_to_tokens_fits.
    - destruct (Z.ltb_spec cap (estimate_tokens t)) as [Hover|Hfits];
        cbn [_truncate_latest msg_content role fold_left Z.eqb map truncate_part
               estimate_part_tokens]; fold cap;
        rewrite ?Z.add_0_l, ?Z.add_0_r.
      + rewrite estimate_truncate_min by lia. split; [lia|].
        rewrite (truncate_text_to_tokens_fits (truncate_text_to_tokens t cap))
          by (rewrite estimate_truncate_min by lia; lia).
        done.
      + split; [done|]. by rewrite truncate_text_to_tokens_fits. }
  destruct Hlatest1 as [Hpos Hsame].
  destruct (Z.ltb_spec system_tokens (system_tokens + estimate_messages_tokens latest1));
    [|lia].
  rewrite Hsame. rewrite walk_history_nothing_left by lia.
  split; [done|].
  rewrite estimate_messages_tokens_app. cbn [rev app].
  fold system_tokens. lia.
Qed.

(** X4 on the sample configuration and the event [hello]: the system
    prompt is estimated at 9 tokens, and with a budget of 9 the prompt
    keeps [hello] whole and is estimated at 11. *)
Lemma trim_context_exact_budget_overflows_witness :
  estimate_messages_tokens
    [Message "system" (CText "You are a helpful WeChat assistant.")] = 9
  ∧ 9 < estimate_messages_tokens
          (_trim_context examples.sample_config
             [Message "system" (CText "You are a helpful WeChat assistant.")]
             (_history_to_messages pyref.lib examples.earlier_exchange)
             (_build_latest_message pyref.lib examples.hello None) 9).
Proof.
  split; [reflexivity|].
  destruct (trim_context_exact_budget_overflows pyref.lib examples.sample_config
              "You are a helpful WeChat assistant." examples.earlier_exchange
              examples.hello None) as [_ Hover].
  - by vm_compute.
  - by vm_compute.
  - exact Hover.
Defined.

Lemma truncate_latest_single (cfg : BotConfig) (m : message) (budget : option Z) :
  ∃ m', _truncate_latest cfg [m] budget = [m'] ∧ role m' = role m.
Proof.
  unfold _truncate_latest. destruct (msg_content m); eauto.
Qed.

Lemma history_message_roles (lib : pylib) (history : list storage.history_record) :
  Forall (fun m => role m = "user"%string ∨ role m = "assistant"%string)
         (_history_to_messages lib history).
Proof.
  unfold _history_to_messages. apply Forall_map, Forall_forall. intros record _.
  unfold history_record_to_message. cbn [role].
  destruct (storage.hr_direction record =? "sent")%string; auto.
Qed.

(** X5. Whatever the budget, the prompt [_trim_context] assembles for
    [_generate_reply] is the system message, unchanged and first, then the
    messages of a most-recent suffix of the history, each of role [user]
    or [assistant], then exactly one message of role [user]. *)
Theorem trim_context_prompt_shape (lib : pylib) (cfg : BotConfig)
    (system_prompt : string) (history : list storage.history_record)
    (msg : IncomingMessage) (image_meta : option storage.StoredImage) (budget : Z) :
  ∃ (dropped : nat) (latest : message),
    _trim_context cfg [Message "system" (CText system_prompt)]
      (_history_to_messages lib history) (_build_latest_message lib msg image_meta) budget
    = Message "system" (CText system_prompt)
      :: _history_to_messages lib (drop dropped history) ++ [latest]
    ∧ role latest = "user"%string
    ∧ Forall (fun m => role m = "user"%string ∨ role m = "assistant"%string)
             (_history_to_messages lib (drop dropped history)).
Proof.
  unfold _trim_context.
  set (system_tokens := estimate_messages_tokens [Message "system" (CText system_prompt)]).
  set (latest0 := _build_latest_message lib msg image_meta).
  assert (Hlatest0 : ∃ m, latest0 = [m] ∧ role m = "user"%string).
  { destruct (build_latest_message_shape lib msg image_meta)
      as [[s Hshape]|(t & u & Hshape)]; fold latest0 in Hshape; rewrite Hshape; eauto. }
  set (latest1 := if max_single_message_tokens (limits cfg) <? estimate_messages_tokens latest0
                  then _truncate_latest cfg latest0 None else latest0).
  assert (Hlatest1 : ∃ m, latest1 = [m] ∧ role m = "user"%string).
  { unfold latest1. destruct Hlatest0 as (m & -> & Hrole). destruct (_ <? _); [|eauto].
    destruct (truncate_latest_single cfg m None) as (m' & -> & Hrole').
    exists m'. by rewrite Hrole'. }
  set (latest2 := if budget <? system_tokens + estimate_messages_tokens latest1
                  then _truncate_latest cfg latest1 (Some (budget - system_tokens))
                  else latest1).
  assert (Hlatest2 : ∃ m, latest2 = [m] ∧ role m = "user"%string).
  { unfold latest2. destruct Hlatest1 as (m & -> & Hrole). destruct (_ <? _); [|eauto].
    destruct (truncate_latest_single cfg m (Some (budget - system_tokens)))
      as (m' & -> & Hrole').
    exists m'. by rewrite Hrole'. }
  destruct Hlatest2 as (latest & Hone & Hrole).
  destruct (walk_history_prefix (rev (_history_to_messages lib history))
              (budget - (system_tokens + estimate_messages_tokens latest2)) [])
    as (taken & rest & Hsplit & Hwalk & _).
  { apply Forall_rev, history_messages_text. }
  rewrite Hwalk, app_nil_l.
  assert (Hhist : _history_to_messages lib history = rev rest ++ rev taken).
  { rewrite <- rev_app_distr, <- Hsplit. by rewrite rev_involutive. }
  assert (Hkept : rev taken = _history_to_messages lib (drop (length (rev rest)) history)).
  { unfold _history_to_messages in *. rewrite <- skipn_map, Hhist.
    by rewrite drop_app_length. }
  exists (length (rev rest)), latest. rewrite Hone, <- Hkept.
  split; [done|]. split; [done|]. rewrite Hkept. apply history_message_roles.
Qed.

End trim_context_more.

(** ** Rate limiting at its edges *)

Section rate_limit_more.
Import rate_limit runs.

Lemma tracker_after_snoc (max_failures cooldown_seconds : Z) (calls : list tracker_call)
    (c : tracker_call) :
  tracker_after max_failures cooldown_seconds (calls ++ [c])
  = tracker_step (tracker_after max_failures cooldown_seconds calls) c.
Proof. unfold tracker_after. by rewrite fold_left_app. Qed.

(** X6. On a new tracker, after [n >= 1] failures of one key in a row
    the counter of the key is [n]; the key has a [blocked_until] exactly
    when [n] has reached the threshold, and it is then the time of the
    last failure plus the cooldown: fewer failures than the threshold
    never block, and every failure from the threshold on moves the end of
    the block. *)
Theorem failures_open_breaker_at_threshold (max_failures cooldown_seconds : Z)
    (key : string) (times : list Z) (now : Z) :
  failure_count
    (tracker_after max_failures cooldown_seconds
       (map (fun t => Failure t key) (times ++ [now]))) key
  = Z.of_nat (length (times ++ [now]))
  ∧ ft_cooldowns
      (tracker_after max_failures cooldown_seconds
         (map (fun t => Failure t key) (times ++ [now]))) !! key
    = if decide (max_failures <= Z.of_nat (length (times ++ [now])))
      then Some (now + cooldown_seconds) else None.
Proof.
  assert (Hcount : ∀ l, failure_count
            (tracker_after max_failures cooldown_seconds (map (fun t => Failure t key) l))
            key = Z.of_nat (length l)).
  { induction l as [|t l IH] using rev_ind; [done|].
    rewrite map_app. cbn [map]. rewrite tracker_after_snoc. cbn [tracker_step].
    rewrite failure_count_register_failure, decide_True by done.
    rewrite IH, length_app. cbn [length]. lia. }
  assert (Hstep : ∀ l t,
            ft_cooldowns
              (tracker_after max_failures cooldown_seconds
                 (map (fun t => Failure t key) (l ++ [t]))) !! key
            = if decide (max_failures <= Z.of_nat (length (l ++ [t])))
              then Some (t + cooldown_seconds)
              else ft_cooldowns
                     (tracker_after max_failures cooldown_seconds
                        (map (fun t => Failure t key) l)) !! key).
  { intros l t. rewrite map_app. cbn [map]. rewrite tracker_after_snoc. cbn [tracker_step].
    rewrite cooldowns_register_failure.
    destruct (tracker_after_config max_failures cooldown_seconds
                (map (fun t0 => Failure t0 key) l)) as [-> ->].
    rewrite Hcount, length_app. cbn [length].
    replace (Z.of_nat (length l) + 1) with (Z.of_nat (length l + 1)) by lia.
    case_decide; [by rewrite lookup_insert_eq | done]. }
  assert (Hnone : ∀ l, Z.of_nat (length l) < max_failures →
            ft_cooldowns
              (tracker_after max_failures cooldown_seconds
                 (map (fun t => Failure t key) l)) !! key = None).
  { induction l as [|t l IH] using rev_ind; intros Hfew; [done|].
    rewrite Hstep. rewrite decide_False by lia. apply IH.
    rewrite length_app in Hfew. cbn [length] in Hfew. lia. }
  split; [apply Hcount|].
  rewrite Hstep. case_decide as Hth; [done|]. apply Hnone.
  rewrite length_app in Hth. cbn [length] in Hth. lia.
Qed.

(** X7. The keys of a failure tracker do not interfere: a failure or a
    success registered for one key leaves the counter, the
    [blocked_until] and the blocked status of every other key as they
    were. *)
Theorem tracker_keys_independent (self : FailureTracker) (c : tracker_call)
    (other : string) (t : Z) :
  other ≠ match c with Failure _ key => key | Success key => key end →
  failure_count (tracker_step self c) other = failure_count self other
  ∧ ft_cooldowns (tracker_step self c) !! other = ft_cooldowns self !! other
  ∧ is_blocked t other (tracker_step self c) = is_blocked t other self.
Proof.
  intros Hne.
  assert (Hparts : failure_count (tracker_step self c) other = failure_count self other
                   ∧ ft_cooldowns (tracker_step self c) !! other
                     = ft_cooldowns self !! other).
  { destruct c as [now key|key]; cbn [tracker_step].
    - rewrite failure_count_register_failure, decide_False by done.
      rewrite cooldowns_register_failure. split; [done|].
      case_decide; [|done]. by rewrite lookup_insert_ne.
    - unfold register_success, failure_count. cbn [ft_failures ft_cooldowns].
      by rewrite lookup_insert_ne, lookup_delete_ne. }
  destruct Hparts as [Hcount Hcd]. split; [done|]. split; [done|].
  unfold is_blocked. by rewrite Hcd.
Qed.

Lemma tracker_keys_independent_witness :
  failure_count (tracker_step (tracker_after 3 60 [Failure 10 "a"]) (Failure 20 "b")) "a"
  = failure_count (tracker_after 3 60 [Failure 10 "a"]) "a".
Proof.
  apply (tracker_keys_independent (tracker_after 3 60 [Failure 10 "a"]) (Failure 20 "b")
           "a" 0).
  discriminate.
Defined.



(** X9. A key the cooldown manager has never seen has no timestamp, and
    the code reads the missing timestamp as 0: the first call for the key
    is answered true (in cooldown) exactly when the clock reading is below
    the cooldown, and otherwise starts the cooldown at that reading. *)
Theorem in_cooldown_unseen_key (now : Z) (key : string) (self : CooldownManager) :
  cm_last_hit self !! key = None →
  ((in_cooldown now key self).1 = true ↔ now < cm_cooldown_seconds self)
  ∧ (cm_cooldown_seconds self <= now →
     in_cooldown now key self
     = (false, mkCooldownManager (cm_cooldown_seconds self)
                 (<[key := now]> (cm_last_hit self)))).
Proof.
  intros Hunseen.
  assert (Hlast : last_hit_of self key = 0) by (unfold last_hit_of; by rewrite Hunseen).
  split.
  - unfold in_cooldown. rewrite Hlast.
    destruct (Z.ltb_spec (now - 0) (cm_cooldown_seconds self)); cbn [fst]; split;
      intros; (done || lia).
  - intros Hlate. apply in_cooldown_outside. rewrite Hlast. lia.
Qed.

Lemma in_cooldown_unseen_key_witness :
  in_cooldown 1700000000 "s" (CooldownManager_init 3)
  = (false, mkCooldownManager 3 {[ "s"%string := 1700000000 ]}).
Proof.
  destruct (in_cooldown_unseen_key 1700000000 "s" (CooldownManager_init 3)) as [_ Hstart].
  - reflexivity.
  - rewrite Hstart by (cbn; lia). reflexivity.
Defined.

End rate_limit_more.

Section rolling_window_facts.
Import py rolling_window.

(** The last [n] items of a list. *)
Local Abbreviation last_n n l := (drop (length l - n) l).

Lemma tail_drop {A : Type} (k : nat) (l : list A) : tail (drop k l) = drop (S k) l.
Proof.
  revert l. induction k as [|k IH]; intros [|x l]; cbn; done.
Qed.

Lemma add_keeps_latest (value : string) (self : RollingWindow) (history : list string) :
  0 <= rw_max_items self →
  rw_items self = last_n (Z.to_nat (rw_max_items self)) history →
  rw_items (add value self)
  = last_n (Z.to_nat (rw_max_items self)) (history ++ [value])
  ∧ rw_max_items (add value self) = rw_max_items self.
Proof.
  intros Hmax Hitems. unfold add.
  set (n := Z.to_nat (rw_max_items self)) in *.
  assert (Hlen : length (rw_items self) = Nat.min n (length history)).
  { rewrite Hitems, length_drop. lia. }
  rewrite length_app. cbn [length].
  destruct (Z.eqb_spec (rw_max_items self) 0) as [Hzero|Hpos].
  { split; [|done]. rewrite Hitems.
    replace n with 0%nat by lia. rewrite !Nat.sub_0_r.
    rewrite drop_all. rewrite <- (length_app history [value]) at 1.
    replace (length history + 1)%nat with (length (history ++ [value]))
      by (rewrite length_app; cbn; lia).
    by rewrite drop_all. }
  destruct (Z.eqb_spec (Z.of_nat (length (rw_items self))) (rw_max_items self)) as [Hfull|Hroom];
    cbn [rw_items rw_max_items]; (split; [|done]).
  - assert (n <= length history)%nat by lia.
    rewrite Hitems.
    replace (length history + 1 - n)%nat with (S (length history - n)) by lia.
    rewrite drop_app_le by lia.
    f_equal. apply tail_drop.
  - assert (length history < n)%nat by lia.
    rewrite Hitems.
    replace (length history - n)%nat with 0%nat by lia.
    replace (length history + 1 - n)%nat with 0%nat by lia. done.
Qed.

(** X10. A rolling window built with [max_items >= 0] holds, after any
    number of [add] calls, the last [max_items] values added, oldest
    first; so it never holds more than [max_items] values, and [last()]
    is the value added last, or [None] when nothing was added or
    [max_items] is 0.  A negative [max_items] is refused at
    construction. *)
Theorem rolling_window_keeps_latest (max_items : Z) (values : list string) :
  (max_items < 0 → RollingWindow_init max_items = Raised "ValueError")
  ∧ (0 <= max_items →
     ∃ window,
       RollingWindow_init max_items = Returned window
       ∧ rw_items (add_all values window)
         = drop (length values - Z.to_nat max_items) values
       ∧ Z.of_nat (length (rw_items (add_all values window))) <= max_items
       ∧ last (add_all values window)
         = if max_items =? 0 then None else List.last (map Some values) None).
Proof.
  split.
  - intros Hneg. unfold RollingWindow_init. by destruct (Z.ltb_spec max_items 0); [|lia].
  - intros Hmax. exists (mkRollingWindow max_items []).
    split. { unfold RollingWindow_init. by destruct (Z.ltb_spec max_items 0); [lia|]. }
    assert (Hall : rw_items (add_all values (mkRollingWindow max_items []))
                   = drop (length values - Z.to_nat max_items) values
                   ∧ rw_max_items (add_all values (mkRollingWindow max_items []))
                     = max_items).
    { unfold add_all. induction values as [|v values IH] using rev_ind.
      - cbn. by rewrite drop_nil.
      - rewrite fold_left_app. cbn [fold_left]. destruct IH as [IHitems IHmax].
        destruct (add_keeps_latest v
                    (fold_left (fun w value => add value w) values
                       (mkRollingWindow max_items [])) values) as [Hitems Hsame].
        + by rewrite IHmax.
        + by rewrite IHmax.
        + rewrite Hitems, Hsame, IHmax. done. }
    destruct Hall as [Hitems _]. split; [done|]. split.
    + rewrite Hitems, length_drop. lia.
    + unfold last. rewrite Hitems.
      destruct (Z.eqb_spec max_items 0) as [->|Hpos].
      * cbn. rewrite Nat.sub_0_r, drop_all. done.
      * destruct values as [|v values] using rev_ind; [done|].
        rewrite length_app. cbn [length].
        replace (length values + 1 - Z.to_nat max_items)%nat
          with (length values - (Z.to_nat max_items - 1))%nat by lia.
        rewrite drop_app_le by lia.
        rewrite !map_app. cbn [map]. by rewrite !last_last.
Qed.

Lemma rolling_window_keeps_latest_witness :
  ∃ window,
    RollingWindow_init 2 = Returned window
    ∧ rw_items (add_all ["a"; "b"; "c"]%string window) = ["b"; "c"]%string
    ∧ last (add_all ["a"; "b"; "c"]%string window) = Some "c"%string.
Proof.
  destruct (rolling_window_keeps_latest 2 ["a"; "b"; "c"]%string) as [_ Hok].
  destruct Hok as (window & Hinit & Hitems & _ & Hlast); [lia|].
  exists window. split; [done|]. split; [exact Hitems | exact Hlast].
Defined.

End rolling_window_facts.

(** ** Session store: persistence and frames *)

Section storage_more.
Import py storage runs more_runs.

(** X11. The history log is append-only and per session: after appending
    records to a session, in order, [load_history] returns what was there
    before followed by these records in the same order; the histories of
    all other sessions, the index and the stored images are untouched. *)
Theorem append_history_round_trip (scope session_id : string)
    (records : list history_record) (st : SessionStore) :
  load_history scope session_id (append_all scope session_id records st)
  = load_history scope session_id st ++ records
  ∧ (∀ other_scope other_id,
       (other_scope, other_id) ≠ (scope, session_id) →
       load_history other_scope other_id (append_all scope session_id records st)
       = load_history other_scope other_id st)
  ∧ ss_index (append_all scope session_id records st) = ss_index st
  ∧ ss_images (append_all scope session_id records st) = ss_images st
  ∧ ss_image_writes (append_all scope session_id records st) = ss_image_writes st.
Proof.
  unfold append_all. revert st. induction records as [|record records IH]; intros st.
  - cbn. by rewrite app_nil_r.
  - cbn [fold_left]. destruct (IH (append_history scope session_id record st))
      as (Hload & Hother & Hindex & Himages & Hwrites).
    rewrite Hload, Hindex, Himages, Hwrites. split.
    + rewrite load_history_append. by rewrite <- app_assoc.
    + split; [|done]. intros other_scope other_id Hne. rewrite (Hother _ _ Hne).
      unfold append_history, load_history. cbn [ss_histories].
      by rewrite lookup_insert_ne.
Qed.

Lemma append_history_round_trip_witness :
  load_history "private" "s1"
    (append_all "private" "s1" examples.earlier_exchange
       (mkSessionStore (SessionIndex_init None) ∅ ∅ []))
  = examples.earlier_exchange.
Proof.
  destruct (append_history_round_trip "private" "s1" examples.earlier_exchange
              (mkSessionStore (SessionIndex_init None) ∅ ∅ [])) as [Hload _].
  exact Hload.
Defined.

(** X12. Session ids survive a restart: in an index built by the
    program, once [get_or_create] has answered for a scope and key, an
    index rebuilt from the file on disk holds the same sessions and
    answers the same id for that scope and key, under any display name and
    without changing the index; the entry keeps the display name it was
    created with. *)
Theorem session_ids_survive_restart (lib : pylib) (calls : list index_call)
    (scope key : string) (display_name other_name : option string) :
  si_sessions
    (SessionIndex_init
       (si_file (get_or_create lib scope key display_name (index_after lib calls)).2))
  = si_sessions (get_or_create lib scope key display_name (index_after lib calls)).2
  ∧ get_or_create lib scope key other_name
      (SessionIndex_init
         (si_file (get_or_create lib scope key display_name (index_after lib calls)).2))
    = ((get_or_create lib scope key display_name (index_after lib calls)).1,
       SessionIndex_init
         (si_file (get_or_create lib scope key display_name (index_after lib calls)).2))
  ∧ (si_sessions (index_after lib calls) !! make_session_key scope key = None →
     si_sessions
       (get_or_create lib scope key other_name
          (SessionIndex_init
             (si_file (get_or_create lib scope key display_name
                         (index_after lib calls)).2))).2
     !! make_session_key scope key
     = Some (mkSessionEntry (slice_to (sha1_hexdigest lib (make_session_key scope key)) 16)
               display_name scope key)).
Proof.
  pose proof (index_consistent_step lib (index_after lib calls)
                (Resolve scope key display_name) (index_after_consistent lib calls))
    as [_ Hfile].
  cbn [index_step] in Hfile.
  set (resolved := get_or_create lib scope key display_name (index_after lib calls)) in *.
  destruct (get_or_create_records lib scope key display_name (index_after lib calls))
    as (entry & Hentry & Hid). fold resolved in Hentry, Hid.
  assert (Hrestart : SessionIndex_init (si_file resolved.2)
                     = mkSessionIndex (si_sessions resolved.2) (Some (si_sessions resolved.2))).
  { destruct Hfile as [->|[_ Hempty]]; [done|].
    rewrite Hempty in Hentry. by rewrite lookup_empty in Hentry. }
  split; [by rewrite Hrestart|]. split.
  - rewrite Hrestart.
    rewrite (get_or_create_known lib scope key other_name _ entry) by done.
    by rewrite Hid.
  - intros Hnew. rewrite Hrestart.
    rewrite (get_or_create_known lib scope key other_name _ entry) by done.
    cbn [snd si_sessions]. rewrite Hentry. f_equal.
    unfold resolved in Hentry.
    rewrite (get_or_create_new lib scope key display_name _ Hnew) in Hentry.
    unfold save in Hentry. cbn [snd si_sessions] in Hentry.
    rewrite lookup_insert_eq in Hentry. by injection Hentry as <-.
Qed.

Lemma session_ids_survive_restart_witness :
  si_sessions
    (get_or_create pyref.lib "private" "u1" (Some "Alice B."%string)
       (SessionIndex_init
          (si_file (get_or_create pyref.lib "private" "u1" (Some "Alice"%string)
                      (index_after pyref.lib [])).2))).2
  !! "private:u1"%string
  = Some (mkSessionEntry "0543017a9759e385" (Some "Alice"%string) "private" "u1").
Proof.
  destruct (session_ids_survive_restart pyref.lib [] "private" "u1" (Some "Alice"%string)
              (Some "Alice B."%string)) as (_ & _ & Hentry).
  specialize (Hentry eq_refl). vm_compute in Hentry |- *. exact Hentry.
Defined.

Lemma after_last_spec (sep : ascii) (s : string) :
  match after_last sep s with
  | Some tail => mentions sep tail = false ∧ ∃ front, s = (front ++ String sep tail)%string
  | None => mentions sep s = false
  end.
Proof.
  induction s as [|c s IH]; [done|]. cbn [after_last mentions].
  destruct (after_last sep s) as [tail|].
  - destruct IH as [Hclean [front ->]]. split; [done|]. by exists (String c front).
  - destruct (Ascii.eqb_spec c sep) as [->|Hne].
    + split; [done|]. by exists ""%string.
    + by rewrite IH.
Qed.

Lemma mentions_after_front (sep : ascii) (front tail : string) :
  mentions sep (front ++ String sep tail) = true.
Proof.
  induction front as [|c front IH]; simpl.
  - by rewrite Ascii.eqb_refl.
  - rewrite IH. apply orb_true_r.
Qed.

(** X13. The extension [save_image] derives from the mime type never
    contains a slash: it is what follows the last slash of the mime type,
    and [bin] when the mime type has no slash; the file name is the
    message id, when there is one that is not empty, followed by a dot and
    that extension. *)
Theorem image_extension_has_no_slash (lib : pylib) (image_bytes : list Byte.byte)
    (mime_type : string) (message_id : option string) :
  ∃ extension,
    mentions "/" extension = false
    ∧ image_filename lib image_bytes mime_type message_id
      = (or_else message_id (slice_to (sha256_hexdigest lib image_bytes) 16)
         ++ "." ++ extension)%string
    ∧ (if mentions "/" mime_type
       then ∃ front, mime_type = (front ++ "/" ++ extension)%string
       else extension = "bin"%string).
Proof.
  unfold image_filename. pose proof (after_last_spec "/" mime_type) as Hspec.
  destruct (after_last "/" mime_type) as [tail|].
  - destruct Hspec as [Hclean [front Hmime]]. exists tail.
    split; [done|]. split; [done|].
    assert (Hhas : mentions "/" mime_type = true)
      by (rewrite Hmime; apply mentions_after_front).
    rewrite Hhas. eauto.
  - exists "bin"%string. split; [done|]. split; [done|]. by rewrite Hspec.
Qed.



End storage_more.

(** ** Persona prompt *)

Section config_more.
Import py config.




End config_more.

(** ** Model client: payload and answers *)

Section llm_more.
Import py llm_wire more_runs.

(** X16. In the request payload an enabled extra parameter wins over
    everything of the same name, the message list included; where no
    enabled extra has the name, [messages] is the message list, a core
    parameter ([model], [stream], [max_tokens]) is present unless it is
    switched off in [core_params_enabled] (on by default), and no other
    key is present (an extra parameter is off by default). *)
Theorem build_payload_parameters (cfg : ApiConfig) (messages : list message) (key : string) :
  (∀ v, extra_params cfg !! key = Some v →
        extra_params_enabled cfg !! key = Some true →
        _build_payload cfg messages !! key = Some (PValue v))
  ∧ (extra_params cfg !! key = None
     ∨ default false (extra_params_enabled cfg !! key) = false →
     _build_payload cfg messages !! key
     = if (key =? "messages")%string then Some (PMessages messages)
       else if (key =? "model")%string
       then (if default true (core_params_enabled cfg !! key)
             then Some (PValue (json.Str (model cfg))) else None)
       else if (key =? "stream")%string
       then (if default true (core_params_enabled cfg !! key)
             then Some (PValue (json.Bool (stream cfg))) else None)
       else if (key =? "max_tokens")%string
       then (if default true (core_params_enabled cfg !! key)
             then Some (PValue (json.Num (max_output_tokens cfg))) else None)
       else None).
Proof.
  unfold _build_payload, update, core_enabled.
  split.
  - intros v Hextra Henabled.
    apply lookup_union_Some_l. rewrite lookup_fmap.
    unfold _extra_params. rewrite map_lookup_filter, Hextra. cbn.
    rewrite option_guard_True; [done|]. by rewrite Henabled.
  - intros Hoff.
    assert (Hnone : (PValue <$> _extra_params cfg) !! key = None).
    { rewrite lookup_fmap. unfold _extra_params. rewrite map_lookup_filter.
      destruct Hoff as [->|Hdisabled]; [done|].
      destruct (extra_params cfg !! key) as [v|]; [|done]. cbn.
      rewrite option_guard_False; [done|]. by rewrite Hdisabled. }
    rewrite lookup_union_r by done.
    destruct (String.eqb_spec key "messages") as [->|Hm].
    { repeat match goal with
             | |- context [if default true ?c then _ else _] => destruct (default true c)
             end; by rewrite ?lookup_insert_ne, lookup_singleton_eq by done. }
    destruct (String.eqb_spec key "model") as [->|Hmodel].
    { destruct (default true (core_params_enabled cfg !! "model"%string));
        repeat match goal with
               | |- context [if default true ?c then _ else _] => destruct (default true c)
               end;
        rewrite ?(lookup_insert_ne _ "max_tokens"%string), ?(lookup_insert_ne _ "stream"%string)
          by done;
        by rewrite ?lookup_insert_eq, ?lookup_singleton_ne by done. }
    destruct (String.eqb_spec key "stream") as [->|Hstream].
    { destruct (default true (core_params_enabled cfg !! "stream"%string));
        repeat match goal with
               | |- context [if default true ?c then _ else _] => destruct (default true c)
               end;
        rewrite ?(lookup_insert_ne _ "max_tokens"%string) by done;
        rewrite ?lookup_insert_eq, ?(lookup_insert_ne _ "model"%string),
          ?lookup_singleton_ne by done; done. }
    destruct (String.eqb_spec key "max_tokens") as [->|Hmax].
    { destruct (default true (core_params_enabled cfg !! "max_tokens"%string));
        repeat match goal with
               | |- context [if default true ?c then _ else _] => destruct (default true c)
               end;
        rewrite ?lookup_insert_eq, ?(lookup_insert_ne _ "stream"%string),
          ?(lookup_insert_ne _ "model"%string), ?lookup_singleton_ne by done; done. }
    repeat match goal with
           | |- context [if default true ?c then _ else _] => destruct (default true c)
           end;
      rewrite ?lookup_insert_ne by done; by rewrite lookup_singleton_ne.
Qed.

(** The result of [or_empty] is the empty string or a truthy value. *)
Lemma or_empty_spec (v : json.value) :
  json.or_empty v = json.Str "" ∨ json.truthy (json.or_empty v) = true.
Proof. unfold json.or_empty. destruct (json.truthy v) eqn:Hv; auto. Qed.

(** X17. [_extract_content] answers the empty string when the data has
    no [choices] or a falsy one; for a first choice that is a dict whose
    [message] is a dict with a [content] it answers that content, or the
    empty string when the content is falsy ([null], the empty string),
    whatever the other choices and the [text] of the choice are; and
    whatever it returns is the empty string or a truthy value, never
    [null]. *)
Theorem extract_content_answers (data : json.value) :
  (∀ fields,
     data = json.Obj fields →
     json.truthy (default (json.Arr []) (json.lookup "choices" fields)) = false →
     _extract_content data = Returned (json.Str ""))
  ∧ (∀ fields choice others message content,
       data = json.Obj fields →
       json.lookup "choices" fields = Some (json.Arr (json.Obj choice :: others)) →
       json.lookup "message" choice = Some (json.Obj message) →
       json.lookup "content" message = Some content →
       _extract_content data = Returned (json.or_empty content))
  ∧ (∀ v, _extract_content data = Returned v →
          v = json.Str "" ∨ json.truthy v = true).
Proof.
  split; [|split].
  - intros fields -> Hfalsy. unfold _extract_content. cbn [json.get bind].
    by rewrite Hfalsy.
  - intros fields choice others message content -> Hchoices Hmessage Hcontent.
    unfold _extract_content. cbn [json.get bind]. rewrite Hchoices.
    cbn [default from_option id json.truthy negb json.first bind json.get].
    rewrite Hmessage. cbn [default from_option id json.contains bind].
    rewrite Hcontent. cbn [json.item bind]. by rewrite Hcontent.
  - intros v. unfold _extract_content.
    destruct (json.get data "choices" (json.Arr [])) as [choices|]; cbn [bind]; [|done].
    destruct (negb (json.truthy choices)); [intros [= <-]; by left|].
    destruct (json.first choices) as [choice|]; cbn [bind]; [|done].
    destruct (json.get choice "message" (json.Obj [])) as [message|]; cbn [bind]; [|done].
    destruct (json.contains "content" message) as [[|]|]; cbn [bind]; [| |done].
    + destruct (json.item message "content") as [content|]; cbn [bind]; [|done].
      intros [= <-]. apply or_empty_spec.
    + destruct (json.get choice "text" (json.Str "")) as [text|]; cbn [bind]; [|done].
      intros [= <-]. apply or_empty_spec.
Qed.

Lemma extract_content_answers_witness :
  _extract_content
    (json.Obj [("choices"%string,
                json.Arr [json.Obj [("message"%string,
                                     json.Obj [("role"%string, json.Str "assistant");
                                               ("content"%string, json.Str "Hi!")])];
                          json.Obj [("text"%string, json.Str "other")]])])
  = Returned (json.Str "Hi!")
  ∧ _extract_content (json.Obj [("choices"%string, json.Arr [])]) = Returned (json.Str "").
Proof.
  split.
  - destruct (extract_content_answers
                (json.Obj [("choices"%string,
                            json.Arr [json.Obj [("message"%string,
                                                 json.Obj [("role"%string, json.Str "assistant");
                                                           ("content"%string, json.Str "Hi!")])];
                                      json.Obj [("text"%string, json.Str "other")]])]))
      as (_ & Hcontent & _).
    exact (Hcontent _ _ _ _ (json.Str "Hi!") eq_refl eq_refl eq_refl eq_refl).
  - destruct (extract_content_answers (json.Obj [("choices"%string, json.Arr [])]))
      as (Hempty & _).
    exact (Hempty _ eq_refl eq_refl).
Defined.

Lemma stream_chunks_stops (lib : pylib) (json_loads : string → outcome json.value)
    (before after : list string) (line : string) (chunks : list json.value) :
  (∀ collected, stream_line lib json_loads line collected = Returned None) →
  stream_chunks lib json_loads (before ++ line :: after) chunks
  = stream_chunks lib json_loads before chunks.
Proof.
  intros Hdone. revert chunks. induction before as [|l before IH]; intros chunks.
  - cbn [app stream_chunks]. by rewrite Hdone.
  - cbn [app stream_chunks].
    destruct (stream_line lib json_loads l chunks) as [[next|]|]; [apply IH | done | done].
Qed.

(** X18. The terminator ends the reading of a stream: with a [strip]
    that leaves [[DONE]] as it is, the lines after a [data: [DONE]] line
    (or a bare [[DONE]] line) are never decoded and change nothing, so the
    result is that of the lines before it. *)
Theorem read_stream_stops_at_done (lib : pylib) (json_loads : string → outcome json.value)
    (before after : list string) :
  str_strip lib "[DONE]" = "[DONE]"%string →
  read_stream lib json_loads (before ++ data_line "[DONE]" :: after)
  = read_stream lib json_loads before
  ∧ read_stream lib json_loads (before ++ "[DONE]"%string :: after)
    = read_stream lib json_loads before.
Proof.
  intros Hstrip. unfold read_stream.
  split; rewrite stream_chunks_stops; try done; intros collected;
    unfold stream_line, data_line; simpl; by rewrite Hstrip.
Qed.

Lemma read_stream_stops_at_done_witness :
  read_stream pyref.lib sample_json_loads
    ([data_line "c1"; ""%string; data_line "c2"] ++ data_line "[DONE]" :: ["not json"%string])
  = Returned "Hello"%string.
Proof.
  destruct (read_stream_stops_at_done pyref.lib sample_json_loads
              [data_line "c1"; ""%string; data_line "c2"] ["not json"%string]) as [-> _].
  - reflexivity.
  - by vm_compute.
Defined.

Lemma append_empty_r (s : string) : (s ++ "")%string = s.
Proof.
  induction s as [|c s IH]; [done|].
  change (String c (s ++ "") = String c s). by rewrite IH.
Qed.

Lemma substring_whole (s : string) : String.substring 0 (String.length s) s = s.
Proof. induction s as [|c s IH]; simpl; [done | by rewrite IH]. Qed.

Lemma data_line_parts (payload : string) :
  py.truthy (data_line payload) = true
  ∧ String.prefix "data: " (data_line payload) = true
  ∧ String.substring 6 (String.length (data_line payload) - 6) (data_line payload) = payload.
Proof.
  unfold data_line, py.truthy.
  change ("data: " ++ payload)%string
    with (String "d" (String "a" (String "t" (String "a" (String ":" (String " " payload)))))).
  split; [done|]. split; [by destruct payload|].
  simpl. rewrite Nat.sub_0_r. apply substring_whole.
Qed.

(** What the loop does with a [data: ] line that is not the terminator. *)
Lemma stream_line_data (lib : pylib) (json_loads : string → outcome json.value)
    (payload : string) (chunks : list json.value) :
  str_strip lib payload ≠ "[DONE]"%string →
  stream_line lib json_loads (data_line payload) chunks
  = bind (json_loads payload) (fun data =>
    bind (json.get data "choices" (json.Arr [json.Obj []])) (fun choices =>
    bind (json.first choices) (fun choice =>
    bind (json.get choice "delta" (json.Obj [])) (fun delta =>
    bind (json.contains "content" delta) (fun has_content =>
    if has_content
    then bind (json.item delta "content") (fun content =>
         Returned (Some (chunks ++ [content])))
    else Returned (Some chunks)))))).
Proof.
  intros Hnot. apply String.eqb_neq in Hnot.
  destruct (data_line_parts payload) as (Htruthy & Hprefix & Hrest).
  unfold stream_line. by rewrite Htruthy, Hprefix, Hrest, Hnot.
Qed.

(** X19. A chunk whose [choices] is an empty list is read differently in
    the two modes: in a streamed answer the line raises [IndexError]
    (caught by the caller as a failed call), whatever came before it,
    while [_extract_content] answers the empty string for the same
    data. *)
Theorem empty_choices_raise_in_stream (lib : pylib)
    (json_loads : string → outcome json.value) (payload : string)
    (fields : list (string * json.value)) (chunks : list json.value) :
  str_strip lib payload ≠ "[DONE]"%string →
  json_loads payload = Returned (json.Obj fields) →
  json.lookup "choices" fields = Some (json.Arr []) →
  stream_line lib json_loads (data_line payload) chunks = Raised "IndexError"
  ∧ _extract_content (json.Obj fields) = Returned (json.Str "").
Proof.
  intros Hnot Hloads Hchoices. split.
  - rewrite stream_line_data by done. rewrite Hloads. cbn [bind json.get].
    by rewrite Hchoices.
  - unfold _extract_content. cbn [json.get bind]. by rewrite Hchoices.
Qed.

Lemma empty_choices_raise_in_stream_witness :
  stream_line pyref.lib
    (fun _ => Returned (json.Obj [("choices"%string, json.Arr [])]))
    (data_line "{}") [] = Raised "IndexError".
Proof.
  destruct (empty_choices_raise_in_stream pyref.lib
              (fun _ => Returned (json.Obj [("choices"%string, json.Arr [])]))
              "{}" [("choices"%string, json.Arr [])] []) as [Hraise _].
  - by vm_compute.
  - reflexivity.
  - reflexivity.
  - exact Hraise.
Defined.

(** X20. A streamed answer is the concatenation, in arrival order, of
    the texts its chunks carry: for lines that each hold one chunk
    [{"choices": [{"delta": {"content": text}}]}], none of them the
    terminator, [read_stream] returns the texts joined. *)
Theorem read_stream_joins_chunks (lib : pylib) (json_loads : string → outcome json.value)
    (payloads texts : list string) :
  Forall2 (fun payload text =>
             str_strip lib payload ≠ "[DONE]"%string
             ∧ json_loads payload = Returned (delta_chunk text))
          payloads texts →
  read_stream lib json_loads (map data_line payloads)
  = Returned (String.concat "" texts).
Proof.
  intros Hlines. unfold read_stream.
  assert (Hchunks : ∀ chunks,
            stream_chunks lib json_loads (map data_line payloads) chunks
            = Returned (chunks ++ map json.Str texts)).
  { induction Hlines as [|payload text payloads texts [Hnot Hloads] _ IH]; intros chunks.
    - cbn. by rewrite app_nil_r.
    - cbn [map stream_chunks]. rewrite stream_line_data by done. rewrite Hloads.
      cbn. rewrite IH. by rewrite <- app_assoc. }
  rewrite Hchunks. cbn [bind app]. clear.
  induction texts as [|text texts IH]; [done|].
  cbn [map json.join]. rewrite IH. cbn [String.concat].
  destruct texts as [|next texts]; [|done].
  cbn. f_equal. apply append_empty_r.
Qed.

Lemma read_stream_joins_chunks_witness :
  read_stream pyref.lib sample_json_loads (map data_line ["c1"; "c2"]%string)
  = Returned "Hello"%string.
Proof.
  apply (read_stream_joins_chunks pyref.lib sample_json_loads ["c1"; "c2"]%string
           ["Hel"; "lo"]%string).
  repeat constructor; by vm_compute.
Defined.

End llm_more.

(** ** Orchestrator: replies, gates and what is kept *)

Section bot_more.
Import py token_utils config models bot bot_runs more_examples.

(** X21. Without a fixed reply for the scope, and with an output cap
    that is not negative, whatever [_generate_reply] returns is the
    fallback reply or a text within the output cap of the scope
    (estimated tokens): a reply of the model and a reply taken from the
    image cache are both cut down to the cap. *)
Theorem generated_reply_within_cap (lib : pylib) (env : run_env) (msg : IncomingMessage)
    (session : SessionInfo) (image_meta : option storage.StoredImage) (self : WxAutoBot)
    (reply : string) :
  truthy_opt (_fixed_reply_for_scope (bot_config self) (scope session)) = false →
  0 <= _max_output_tokens (bot_config self) (scope session) →
  (_generate_reply lib env msg session image_meta self).1 = Returned reply →
  reply = fallback_reply (failure (bot_config self))
  ∨ estimate_tokens reply <= _max_output_tokens (bot_config self) (scope session).
Proof.
  intros Hfixed Hcap. unfold _generate_reply. rewrite Hfixed.
  destruct (_ && _); [intros [= <-]; by right|].
  destruct (_ <=? 0); [intros [= <-]; by left|].
  cbn [bot_vision_cache emit bot_config].
  destruct (image_meta ≫= _) as [cached|].
  { intros [= <-]. right. by apply truncate_text_to_tokens_le. }
  destruct (llm_client.send _ _) as [answer|exc]; [|intros [= <-]; by left].
  destruct (negb (truthy _)); [intros [= <-]; by right|].
  intros [= <-]. right. by apply truncate_text_to_tokens_le.
Qed.

(** X21 on the event [hello] under the sample configuration (output cap
    800), with a backend whose answer is padded with blanks. *)
Lemma generated_reply_within_cap_witness :
  "Hello, Alice!"%string = fallback_reply (failure examples.sample_config)
  ∨ estimate_tokens "Hello, Alice!" <= _max_output_tokens examples.sample_config "private".
Proof.
  apply (generated_reply_within_cap pyref.lib (backend_answers "  Hello, Alice!  ")
           examples.hello examples.hello_session None
           (WxAutoBot_init examples.sample_config None) "Hello, Alice!").
  - reflexivity.
  - by vm_compute.
  - reflexivity.
Defined.

(** X22. When the token budget leaves nothing for the prompt (the budget
    minus the output cap of the scope is 0 or less), and no fixed reply is
    configured and the event is not an image set aside by the vision
    switches, reply generation returns the fallback reply after reading the
    history: it calls no model, and the failure tracker and the image
    cache stay as they are. *)
Theorem exhausted_budget_gives_fallback (lib : pylib) (env : run_env)
    (msg : IncomingMessage) (session : SessionInfo)
    (image_meta : option storage.StoredImage) (self : WxAutoBot) :
  truthy_opt (_fixed_reply_for_scope (bot_config self) (scope session)) = false →
  (msg_type msg =? "image")%string && negb (_should_process_image (bot_config self) msg)
  = false →
  token_budget (limits (bot_config self))
  - _max_output_tokens (bot_config self) (scope session) <= 0 →
  _generate_reply lib env msg session image_meta self
  = (Returned (fallback_reply (failure (bot_config self))),
     emit (EvLoadHistory (scope session) (session_id session)) self).
Proof.
  intros Hfixed Himage Hbudget. unfold _generate_reply. rewrite Hfixed, Himage.
  by destruct (Z.leb_spec (token_budget (limits (bot_config self))
                           - _max_output_tokens (bot_config self) (scope session)) 0);
    [|lia].
Qed.

Lemma exhausted_budget_gives_fallback_witness :
  _generate_reply pyref.lib (backend_answers "Hi!") examples.hello examples.hello_session
    None (WxAutoBot_init starved_config None)
  = (Returned "Sorry, I cannot reply right now."%string,
     emit (EvLoadHistory "private" "0543017a9759e385")
       (WxAutoBot_init starved_config None)).
Proof.
  apply (exhausted_budget_gives_fallback pyref.lib (backend_answers "Hi!") examples.hello
           examples.hello_session None (WxAutoBot_init starved_config None)).
  - reflexivity.
  - reflexivity.
  - by vm_compute.
Defined.

Lemma reaches_model_gates (cfg : BotConfig) (msg : IncomingMessage) (scope : string) :
  reaches_model cfg msg scope = true →
  truthy_opt (_fixed_reply_for_scope cfg scope) = false
  ∧ (msg_type msg =? "image")%string && negb (_should_process_image cfg msg) = false
  ∧ (token_budget (limits cfg) - _max_output_tokens cfg scope <=? 0) = false.
Proof.
  unfold reaches_model. intros Hgates.
  apply andb_prop in Hgates as [Hgates Hbudget].
  apply andb_prop in Hgates as [Hfixed Himage].
  apply negb_true_iff in Hfixed, Himage, Hbudget. done.
Qed.

(** [_generate_reply] when the model is asked and answers. *)
Lemma generate_reply_answered (lib : pylib) (env : run_env) (msg : IncomingMessage)
    (session : SessionInfo) (image_meta : option storage.StoredImage) (self : WxAutoBot)
    (answer : string) :
  reaches_model (bot_config self) msg (scope session) = true →
  image_meta ≫= (fun im => bot_vision_cache self !! storage.sha256 im) = None →
  llm_client.send (http_post env) (prompt_of lib msg session image_meta self)
  = Returned answer →
  _generate_reply lib env msg session image_meta self
  = let asked :=
      set_failure_tracker
        (rate_limit.register_success (session_id session) (bot_failure_tracker self))
        (emit (EvLlmSend (prompt_of lib msg session image_meta self))
           (emit (EvLoadHistory (scope session) (session_id session)) self)) in
    if truthy (str_strip lib answer)
    then (Returned (truncate_text_to_tokens (str_strip lib answer)
                      (_max_output_tokens (bot_config self) (scope session))),
          match image_meta with
          | Some im =>
              set_vision_cache
                (<[storage.sha256 im := str_strip lib answer]> (bot_vision_cache self)) asked
          | None => asked
          end)
    else (Returned ""%string, asked).
Proof.
  intros Hgates Hmiss Hsend.
  apply reaches_model_gates in Hgates as (Hfixed & Himage & Hbudget).
  unfold _generate_reply. rewrite Hfixed, Himage, Hbudget.
  cbn [bot_vision_cache emit bot_config bot_store]. rewrite Hmiss.
  unfold prompt_of in Hsend. rewrite Hsend.
  by destruct (truthy (str_strip lib answer)).
Qed.

(** [_generate_reply] when the image of the event is in the cache. *)
Lemma generate_reply_cached (lib : pylib) (env : run_env) (msg : IncomingMessage)
    (session : SessionInfo) (im : storage.StoredImage) (self : WxAutoBot)
    (cached : string) :
  reaches_model (bot_config self) msg (scope session) = true →
  bot_vision_cache self !! storage.sha256 im = Some cached →
  _generate_reply lib env msg session (Some im) self
  = (Returned (truncate_text_to_tokens cached
                 (_max_output_tokens (bot_config self) (scope session))),
     emit (EvLoadHistory (scope session) (session_id session)) self).
Proof.
  intros Hgates Hhit.
  apply reaches_model_gates in Hgates as (Hfixed & Himage & Hbudget).
  unfold _generate_reply. rewrite Hfixed, Himage, Hbudget.
  cbn [bot_vision_cache emit bot_config bot_store mbind option_bind]. by rewrite Hhit.
Qed.

(** X23. The image cache is keyed by the SHA-256 of the image alone.
    Once the model has answered an image event with a reply that is not
    blank, every later event that carries an image with the same hash is
    answered from the cache, whatever its text, its sender and its
    session: reply generation returns the stored reply (the stripped
    answer, cut to the output cap of the scope of the later event), reads
    the history and calls no model. *)
Theorem vision_cache_reuses_reply (lib : pylib) (env later : run_env)
    (msg msg' : IncomingMessage) (session session' : SessionInfo)
    (im im' : storage.StoredImage) (self : WxAutoBot) (answer : string) :
  reaches_model (bot_config self) msg (scope session) = true →
  bot_vision_cache self !! storage.sha256 im = None →
  llm_client.send (http_post env) (prompt_of lib msg session (Some im) self)
  = Returned answer →
  truthy (str_strip lib answer) = true →
  reaches_model (bot_config self) msg' (scope session') = true →
  storage.sha256 im' = storage.sha256 im →
  _generate_reply lib later msg' session' (Some im')
    (_generate_reply lib env msg session (Some im) self).2
  = (Returned (truncate_text_to_tokens (str_strip lib answer)
                 (_max_output_tokens (bot_config self) (scope session'))),
     emit (EvLoadHistory (scope session') (session_id session'))
       (_generate_reply lib env msg session (Some im) self).2).
Proof.
  intros Hgates Hmiss Hsend Hanswer Hgates' Hsame.
  rewrite (generate_reply_answered lib env msg session (Some im) self answer)
    by done.
  cbn zeta. rewrite Hanswer. cbn [snd].
  rewrite (generate_reply_cached lib later msg' session' im' _ (str_strip lib answer)).
  - done.
  - done.
  - cbn [bot_vision_cache set_vision_cache]. rewrite Hsame. apply lookup_insert_eq.
Qed.

Lemma vision_cache_reuses_reply_witness :
  _generate_reply pyref.lib redelivery examples.hello
    (mkSessionInfo "group" "feedfeedfeedfeed" "room1" (Some "Team"%string))
    (Some photo_meta)
    (_generate_reply pyref.lib (backend_answers " A cat. ") photo examples.hello_session
       (Some photo_meta) (WxAutoBot_init examples.sample_config None)).2
  = (Returned "A cat."%string,
     emit (EvLoadHistory "group" "feedfeedfeedfeed")
       (_generate_reply pyref.lib (backend_answers " A cat. ") photo examples.hello_session
          (Some photo_meta) (WxAutoBot_init examples.sample_config None)).2).
Proof.
  exact (vision_cache_reuses_reply pyref.lib (backend_answers " A cat. ") redelivery
           photo examples.hello examples.hello_session
           (mkSessionInfo "group" "feedfeedfeedfeed" "room1" (Some "Team"%string))
           photo_meta photo_meta (WxAutoBot_init examples.sample_config None) " A cat. "
           eq_refl eq_refl eq_refl eq_refl eq_refl eq_refl).
Defined.



Lemma without_message_own_record (msg : IncomingMessage)
    (history : list storage.history_record) (record : storage.history_record) :
  truthy (message_id msg) = true →
  storage.hr_message_id record = message_id msg →
  without_message msg (history ++ [record]) = without_message msg history.
Proof.
  intros Hid Hown. unfold without_message. rewrite Hid.
  rewrite List.filter_app. cbn [List.filter]. rewrite Hown, String.eqb_refl. cbn [negb].
  apply app_nil_r.
Qed.

(** X25. For an event with a message id (a string that is not empty),
    the records of the event itself are left out of the history that
    goes into the prompt: appending such a record to the history of the
    session (as [handle_message] does before it generates the reply)
    changes neither the reply nor the calls of reply generation. *)
Theorem own_record_left_out_of_prompt (lib : pylib) (env : run_env)
    (msg : IncomingMessage) (session : SessionInfo)
    (image_meta : option storage.StoredImage) (self : WxAutoBot)
    (record : storage.history_record) :
  truthy (message_id msg) = true →
  storage.hr_message_id record = message_id msg →
  (_generate_reply lib env msg session image_meta
     (set_store
        (storage.append_history (scope session) (session_id session) record
           (bot_store self)) self)).1
  = (_generate_reply lib env msg session image_meta self).1
  ∧ new_events
      (set_store
         (storage.append_history (scope session) (session_id session) record
            (bot_store self)) self)
      (_generate_reply lib env msg session image_meta
         (set_store
            (storage.append_history (scope session) (session_id session) record
               (bot_store self)) self)).2
    = new_events self (_generate_reply lib env msg session image_meta self).2.
Proof.
  intros Hid Hown. unfold _generate_reply.
  cbn [bot_config set_store bot_store bot_vision_cache emit].
  rewrite load_history_append, (without_message_own_record msg _ record Hid Hown).
  destruct (truthy_opt _); [by unfold new_events; cbn; rewrite !drop_all|].
  destruct (_ && _); [by unfold new_events; cbn; rewrite !drop_all|].
  destruct (_ <=? 0); [by unfold new_events; cbn; rewrite !drop_app_length|].
  destruct (image_meta ≫= _) as [cached|];
    [by unfold new_events; cbn; rewrite !drop_app_length|].
  destruct (llm_client.send _ _) as [answer|exc].
  - destruct (negb (truthy _)); [|destruct image_meta];
      (split; [done|]); unfold new_events; cbn; by rewrite <- !app_assoc, !drop_app_length.
  - split; [done|]. unfold new_events; cbn. by rewrite <- !app_assoc, !drop_app_length.
Qed.

Lemma own_record_left_out_of_prompt_witness :
  (_generate_reply pyref.lib (backend_answers "Hi!") examples.hello examples.hello_session
     None
     (set_store
        (storage.append_history "private" "0543017a9759e385"
           (received_record examples.hello examples.hello_session None)
           (bot_store (WxAutoBot_init examples.sample_config None)))
        (WxAutoBot_init examples.sample_config None))).1
  = (_generate_reply pyref.lib (backend_answers "Hi!") examples.hello
       examples.hello_session None (WxAutoBot_init examples.sample_config None)).1.
Proof.
  apply (own_record_left_out_of_prompt pyref.lib (backend_answers "Hi!") examples.hello
           examples.hello_session None (WxAutoBot_init examples.sample_config None)
           (received_record examples.hello examples.hello_session None)
           eq_refl eq_refl).
Defined.

Lemma store_extends_refl (st : storage.SessionStore) : store_extends st st.
Proof. split; [intros; exists []; by rewrite app_nil_r | done]. Qed.

Lemma store_extends_trans (a b c : storage.SessionStore) :
  store_extends a b → store_extends b c → store_extends a c.
Proof.
  intros [Hab Hab'] [Hbc Hbc']. split.
  - intros scope session_id.
    destruct (Hab scope session_id) as [l1 H1], (Hbc scope session_id) as [l2 H2].
    exists (l1 ++ l2). by rewrite H2, H1, <- app_assoc.
  - intros path stored Hin. by apply Hbc', Hab'.
Qed.

Lemma append_history_extends (scope session_id : string) (record : storage.history_record)
    (st : storage.SessionStore) :
  store_extends st (storage.append_history scope session_id record st).
Proof.
  split; [|done]. intros sc sid.
  destruct (decide ((sc, sid) = (scope, session_id))) as [[= -> ->]|Hother].
  - exists [record]. apply load_history_append.
  - exists []. rewrite app_nil_r. unfold storage.append_history, storage.load_history at 1.
    cbn [storage.ss_histories]. by rewrite lookup_insert_ne.
Qed.

Lemma save_image_extends (lib : pylib) (scope session_id : string)
    (image_bytes : list Byte.byte) (mime_type : string) (message_id : option string)
    (st : storage.SessionStore) :
  store_extends st
    (storage.save_image lib scope session_id image_bytes mime_type message_id st).2.
Proof.
  split.
  - intros sc sid. exists []. rewrite app_nil_r. apply load_history_save_image.
  - intros path stored Hin. unfold storage.save_image. cbn [snd].
    destruct (storage.ss_images st
                !! (scope, session_id,
                    storage.image_filename lib image_bytes mime_type message_id))
      eqn:Htarget; [done|].
    cbn [storage.ss_images]. rewrite lookup_insert_ne; [done|]. congruence.
Qed.

Lemma resolve_session_store (lib : pylib) (msg : IncomingMessage) (self : WxAutoBot) :
  storage.ss_histories (bot_store (_resolve_session lib msg self).2)
  = storage.ss_histories (bot_store self)
  ∧ storage.ss_images (bot_store (_resolve_session lib msg self).2)
    = storage.ss_images (bot_store self)
  ∧ bot_vision_cache (_resolve_session lib msg self).2 = bot_vision_cache self.
Proof.
  unfold _resolve_session, storage.resolve_session.
  by destruct (storage.get_or_create _ _ _ _ _) as [sid index].
Qed.

Lemma resolve_session_extends (lib : pylib) (msg : IncomingMessage) (self : WxAutoBot) :
  store_extends (bot_store self) (bot_store (_resolve_session lib msg self).2).
Proof.
  destruct (resolve_session_store lib msg self) as (Hhist & Himages & _).
  split.
  - intros sc sid. exists []. rewrite app_nil_r. unfold storage.load_history.
    by rewrite Hhist.
  - intros path stored. by rewrite Himages.
Qed.

Lemma record_inbound_frame (lib : pylib) (msg : IncomingMessage) (session : SessionInfo)
    (self : WxAutoBot) :
  bot_dedupe (record_inbound lib msg session self).2 = bot_dedupe self
  ∧ bot_failure_tracker (record_inbound lib msg session self).2 = bot_failure_tracker self
  ∧ bot_vision_cache (record_inbound lib msg session self).2 = bot_vision_cache self
  ∧ store_extends (bot_store self) (bot_store (record_inbound lib msg session self).2).
Proof.
  unfold record_inbound. destruct (has_image msg).
  - pose proof (save_image_extends lib (scope session) (session_id session)
                  (default [] (image_bytes msg)) (default "" (image_mime msg))
                  (Some (message_id msg)) (bot_store self)) as Hsave.
    destruct (storage.save_image _ _ _ _ _ _ _) as [meta st]. cbn [snd] in Hsave.
    cbn. repeat (split; [done|]).
    eapply store_extends_trans; [exact Hsave | apply append_history_extends].
  - cbn. repeat (split; [done|]). apply append_history_extends.
Qed.

Lemma reply_to_frame (lib : pylib) (env : run_env) (msg : IncomingMessage)
    (session : SessionInfo) (image_meta : option storage.StoredImage) (self : WxAutoBot) :
  bot_config (reply_to lib env msg session image_meta self).2 = bot_config self
  ∧ bot_dedupe (reply_to lib env msg session image_meta self).2 = bot_dedupe self
  ∧ store_extends (bot_store self)
      (bot_store (reply_to lib env msg session image_meta self).2).
Proof.
  unfold reply_to. cbn [bot_session_cooldown emit].
  destruct (rate_limit.in_cooldown (t_session_cooldown env) _ _) as [[|] cm1].
  { cbn. repeat (split; [done|]). apply store_extends_refl. }
  cbn [bot_user_cooldown emit set_session_cooldown].
  destruct (rate_limit.in_cooldown (t_user_cooldown env) _ _) as [[|] cm2].
  { cbn. repeat (split; [done|]). apply store_extends_refl. }
  match goal with
  | |- context [_generate_reply lib env msg session image_meta ?s] => set (ready := s)
  end.
  destruct (generate_reply_effects lib env msg session image_meta ready)
    as ([text Htext] & _ & Hstore & Hcfg & Hdedupe & _).
  destruct (_generate_reply lib env msg session image_meta ready) as [r after].
  cbn [fst snd] in *. subst r.
  destruct (truthy text).
  - destruct (adapter_send_text env session text) as [[]|exc]; cbn;
      rewrite Hcfg, Hdedupe, Hstore; repeat (split; [done|]).
    + apply append_history_extends.
    + apply store_extends_refl.
  - cbn. rewrite Hcfg, Hdedupe, Hstore. repeat (split; [done|]). apply store_extends_refl.
Qed.

(** What every run of [handle_message] leaves alone: the configuration;
    the dedupe cache apart from the one call of [seen_recently]; and what
    the store already holds. *)
Lemma handle_message_frame (lib : pylib) (env : run_env) (msg : IncomingMessage)
    (self : WxAutoBot) :
  bot_config (handle_message lib env msg self).2 = bot_config self
  ∧ bot_dedupe (handle_message lib env msg self).2
    = (if _is_self_message (bot_config self) msg then bot_dedupe self
       else (rate_limit.seen_recently (t_seen_recently env) (unique_key_of lib msg)
               (bot_dedupe self)).2)
  ∧ store_extends (bot_store self) (bot_store (handle_message lib env msg self).2).
Proof.
  unfold handle_message.
  destruct (_is_self_message (bot_config self) msg).
  { repeat (split; [done|]). apply store_extends_refl. }
  destruct (resolve_session_frame lib msg self)
    as (Hcfg & Hdedupe & Htracker & _ & _ & _ & _ & _).
  pose proof (resolve_session_extends lib msg self) as Hresolved.
  destruct (_resolve_session lib msg self) as [session self1]. cbn [fst snd] in *.
  rewrite Hdedupe.
  destruct (rate_limit.seen_recently _ _ _) as [seen cache].
  destruct seen; [by cbn|].
  cbn [set_dedupe bot_failure_tracker bot_config].
  destruct (rate_limit.is_blocked _ _ _); [by cbn|].
  destruct (_should_trigger _ _ _) as [should_reply|exc]; [|by cbn].
  match goal with
  | |- context [record_inbound lib msg session ?s] => set (resolved := s)
  end.
  destruct (record_inbound_spec lib msg session resolved)
    as (_ & _ & _ & _ & Hcfg2 & _).
  destruct (record_inbound_frame lib msg session resolved)
    as (Hdedupe2 & _ & _ & Hrecorded).
  destruct (record_inbound lib msg session resolved) as [image_meta recorded].
  cbn [fst snd] in *.
  destruct should_reply; cbn [negb].
  - destruct (reply_to_frame lib env msg session image_meta recorded)
      as (Hcfg3 & Hdedupe3 & Hreplied).
    rewrite Hcfg3, Hdedupe3, Hcfg2, Hdedupe2. repeat (split; [done|]).
    eapply store_extends_trans; [exact Hresolved|].
    eapply store_extends_trans; [exact Hrecorded | exact Hreplied].
  - cbn [snd]. rewrite Hcfg2, Hdedupe2. repeat (split; [done|]).
    eapply store_extends_trans; [exact Hresolved | exact Hrecorded].
Qed.

(** [handle_message] for an event stopped by one of the three gates. *)
Lemma handle_message_dropped (lib : pylib) (env : run_env) (msg : IncomingMessage)
    (self : WxAutoBot) :
  _is_self_message (bot_config self) msg = true
  ∨ (rate_limit.seen_recently (t_seen_recently env) (unique_key_of lib msg)
       (bot_dedupe self)).1 = true
  ∨ rate_limit.is_blocked (t_is_blocked env) (session_id (_resolve_session lib msg self).1)
      (bot_failure_tracker self) = true →
  (handle_message lib env msg self).1 = Returned tt
  ∧ bot_trace (handle_message lib env msg self).2 = bot_trace self
  ∧ storage.ss_histories (bot_store (handle_message lib env msg self).2)
    = storage.ss_histories (bot_store self)
  ∧ storage.ss_images (bot_store (handle_message lib env msg self).2)
    = storage.ss_images (bot_store self)
  ∧ bot_failure_tracker (handle_message lib env msg self).2 = bot_failure_tracker self
  ∧ bot_session_cooldown (handle_message lib env msg self).2 = bot_session_cooldown self
  ∧ bot_user_cooldown (handle_message lib env msg self).2 = bot_user_cooldown self
  ∧ bot_vision_cache (handle_message lib env msg self).2 = bot_vision_cache self.
Proof.
  intros Hstop. unfold handle_message.
  destruct (_is_self_message (bot_config self) msg) eqn:Hself; [done|].
  destruct (resolve_session_frame lib msg self)
    as (Hcfg & Hdedupe & Htracker & Hsc & Huc & Htrace & _ & _).
  destruct (resolve_session_store lib msg self) as (Hhist & Himages & Hvision).
  destruct (_resolve_session lib msg self) as [session self1]. cbn [fst snd] in *.
  rewrite Hdedupe.
  destruct (rate_limit.seen_recently _ _ _) as [seen cache]. cbn [fst] in Hstop.
  destruct seen; [done|].
  cbn [set_dedupe bot_failure_tracker bot_config]. rewrite Htracker.
  destruct (rate_limit.is_blocked _ _ _); [done|].
  by destruct Hstop as [?|[?|?]].
Qed.

(** X26. An event that was new at its first delivery and comes again
    within the dedupe window of that delivery is dropped, however the
    first run ended (with a reply, without one, or with an exception of
    the trigger or of the adapter): the second run returns, logs no call,
    and leaves every history, every image file, the failure tracker and
    both cooldown managers as the first run left them. *)
Theorem duplicate_delivery_is_dropped (lib : pylib) (env again : run_env)
    (msg : IncomingMessage) (self : WxAutoBot) :
  (rate_limit.seen_recently (t_seen_recently env) (unique_key_of lib msg)
     (bot_dedupe self)).1 = false →
  t_seen_recently again - t_seen_recently env
  <= rate_limit.dc_window_seconds (bot_dedupe self) →
  (handle_message lib again msg (handle_message lib env msg self).2).1 = Returned tt
  ∧ new_events (handle_message lib env msg self).2
      (handle_message lib again msg (handle_message lib env msg self).2).2 = []
  ∧ storage.ss_histories
      (bot_store (handle_message lib again msg (handle_message lib env msg self).2).2)
    = storage.ss_histories (bot_store (handle_message lib env msg self).2)
  ∧ storage.ss_images
      (bot_store (handle_message lib again msg (handle_message lib env msg self).2).2)
    = storage.ss_images (bot_store (handle_message lib env msg self).2)
  ∧ bot_failure_tracker (handle_message lib again msg (handle_message lib env msg self).2).2
    = bot_failure_tracker (handle_message lib env msg self).2
  ∧ bot_session_cooldown
      (handle_message lib again msg (handle_message lib env msg self).2).2
    = bot_session_cooldown (handle_message lib env msg self).2
  ∧ bot_user_cooldown (handle_message lib again msg (handle_message lib env msg self).2).2
    = bot_user_cooldown (handle_message lib env msg self).2.
Proof.
  intros Hfresh Hwindow.
  destruct (handle_message_frame lib env msg self) as (Hcfg & Hdedupe & _).
  set (first := (handle_message lib env msg self).2) in *.
  destruct (handle_message_dropped lib again msg first)
    as (Hret & Htrace & Hhist & Himages & Htracker & Hsc & Huc & _).
  { rewrite Hcfg. destruct (_is_self_message (bot_config self) msg); [by left|].
    right. left. rewrite Hdedupe, seen_recently_answer. apply bool_decide_eq_true.
    rewrite lookup_pruned, seen_recently_lookup, seen_recently_window.
    rewrite seen_recently_answer in Hfresh. apply bool_decide_eq_false in Hfresh.
    destruct (rate_limit.pop_all _ _ !! _) as [ts|]; [exfalso; eauto|].
    rewrite decide_True by done. rewrite decide_False by lia. eauto. }
  split; [done|]. split; [|done].
  apply new_events_app. by rewrite Htrace, app_nil_r.
Qed.

Lemma duplicate_delivery_is_dropped_witness :
  (handle_message pyref.lib redelivery examples.hello
     (handle_message pyref.lib (backend_answers "Hi!") examples.hello
        (WxAutoBot_init examples.sample_config None)).2).1 = Returned tt
  ∧ new_events
      (handle_message pyref.lib (backend_answers "Hi!") examples.hello
         (WxAutoBot_init examples.sample_config None)).2
      (handle_message pyref.lib redelivery examples.hello
         (handle_message pyref.lib (backend_answers "Hi!") examples.hello
            (WxAutoBot_init examples.sample_config None)).2).2 = [].
Proof.
  destruct (duplicate_delivery_is_dropped pyref.lib (backend_answers "Hi!") redelivery
              examples.hello (WxAutoBot_init examples.sample_config None))
    as (Hret & Hevents & _).
  - reflexivity.
  - by vm_compute.
  - split; [exact Hret | exact Hevents].
Defined.

(** X27. An event for a session whose circuit breaker is open is lost:
    the run returns without logging a call, the event is not written to
    any history and its image is not stored, yet its key is in the dedupe
    cache with the time of this delivery, so that a redelivery within the
    window is dropped as a duplicate. *)
Theorem blocked_session_loses_event (lib : pylib) (env : run_env) (msg : IncomingMessage)
    (self : WxAutoBot) :
  _is_self_message (bot_config self) msg = false →
  (rate_limit.seen_recently (t_seen_recently env) (unique_key_of lib msg)
     (bot_dedupe self)).1 = false →
  rate_limit.is_blocked (t_is_blocked env) (session_id (_resolve_session lib msg self).1)
    (bot_failure_tracker self) = true →
  (handle_message lib env msg self).1 = Returned tt
  ∧ new_events self (handle_message lib env msg self).2 = []
  ∧ storage.ss_histories (bot_store (handle_message lib env msg self).2)
    = storage.ss_histories (bot_store self)
  ∧ storage.ss_images (bot_store (handle_message lib env msg self).2)
    = storage.ss_images (bot_store self)
  ∧ rate_limit.dc_cache (bot_dedupe (handle_message lib env msg self).2)
      !! unique_key_of lib msg = Some (t_seen_recently env).
Proof.
  intros Hself Hfresh Hblocked.
  destruct (handle_message_dropped lib env msg self)
    as (Hret & Htrace & Hhist & Himages & _); [by right; right|].
  destruct (handle_message_frame lib env msg self) as (_ & Hdedupe & _).
  rewrite Hself in Hdedupe.
  repeat (split; [done|]). split; [apply new_events_app; by rewrite Htrace, app_nil_r|].
  split; [done|]. split; [done|].
  rewrite Hdedupe, seen_recently_lookup.
  rewrite seen_recently_answer in Hfresh. apply bool_decide_eq_false in Hfresh.
  destruct (rate_limit.pop_all _ _ !! _) as [ts|]; [exfalso; eauto|].
  by rewrite decide_True.
Qed.

Lemma blocked_session_loses_event_witness :
  (handle_message pyref.lib (backend_answers "Hi!") examples.hello tripped_bot).1
  = Returned tt
  ∧ new_events tripped_bot
      (handle_message pyref.lib (backend_answers "Hi!") examples.hello tripped_bot).2 = []
  ∧ rate_limit.dc_cache
      (bot_dedupe
         (handle_message pyref.lib (backend_answers "Hi!") examples.hello tripped_bot).2)
      !! "m1"%string = Some 1700000001.
Proof.
  destruct (blocked_session_loses_event pyref.lib (backend_answers "Hi!") examples.hello
              tripped_bot eq_refl eq_refl eq_refl)
    as (Hret & Hevents & _ & _ & Hkey).
  split; [exact Hret|]. split; [exact Hevents | exact Hkey].
Defined.

Lemma truncate_text_to_tokens_empty (max_tokens : Z) :
  truncate_text_to_tokens "" max_tokens = ""%string.
Proof.
  unfold truncate_text_to_tokens. destruct (_ <=? _); [done|].
  unfold slice_to. by destruct (_ <? _), (Z.to_nat _).
Qed.

Lemma in_cooldown_passed (now : Z) (key : string) (self : rate_limit.CooldownManager) :
  (rate_limit.in_cooldown now key self).1 = false →
  rate_limit.in_cooldown now key self
  = (false, rate_limit.mkCooldownManager (rate_limit.cm_cooldown_seconds self)
              (<[key := now]> (rate_limit.cm_last_hit self))).
Proof. unfold rate_limit.in_cooldown. by destruct (_ <? _). Qed.

Local Abbreviation session_of lib msg self := (_resolve_session lib msg self).1.

(** X28. One whole run for a text event that passes every gate.  The
    event is new, its session is not blocked, the trigger says reply,
    neither cooldown is running, no fixed reply is configured, the budget
    leaves room for a prompt, the model answers, the answer is not blank
    once stripped and cut to the output cap, and the adapter accepts the
    text.  Then [handle_message] returns; the history of the session is
    the old history followed by the record of the event and the record of
    the reply; the calls of the run are, in this order: append of the
    event, session cooldown check, user cooldown check, history read,
    model call, send, append of the reply; the text sent is the stripped
    answer cut to the output cap; both cooldowns run from this delivery;
    and the failure counter of the session is 0. *)
Theorem answered_event_is_recorded_and_sent (lib : pylib) (env : run_env)
    (msg : IncomingMessage) (self : WxAutoBot) (answer : string) :
  _is_self_message (bot_config self) msg = false →
  (rate_limit.seen_recently (t_seen_recently env) (unique_key_of lib msg)
     (bot_dedupe self)).1 = false →
  rate_limit.is_blocked (t_is_blocked env) (session_id (session_of lib msg self))
    (bot_failure_tracker self) = false →
  _should_trigger lib (bot_config self) msg = Returned true →
  has_image msg = false →
  (rate_limit.in_cooldown (t_session_cooldown env) (session_id (session_of lib msg self))
     (bot_session_cooldown self)).1 = false →
  (rate_limit.in_cooldown (t_user_cooldown env) (sender_id msg)
     (bot_user_cooldown self)).1 = false →
  reaches_model (bot_config self) msg (scope_of msg) = true →
  (∀ messages, llm_client.send (http_post env) messages = Returned answer) →
  truthy (truncate_text_to_tokens (str_strip lib answer)
            (_max_output_tokens (bot_config self) (scope_of msg))) = true →
  adapter_send_text env (session_of lib msg self)
    (truncate_text_to_tokens (str_strip lib answer)
       (_max_output_tokens (bot_config self) (scope_of msg))) = Returned tt →
  (handle_message lib env msg self).1 = Returned tt
  ∧ storage.load_history (scope_of msg) (session_id (session_of lib msg self))
      (bot_store (handle_message lib env msg self).2)
    = storage.load_history (scope_of msg) (session_id (session_of lib msg self))
        (bot_store self)
      ++ [received_record msg (session_of lib msg self) None;
          sent_record lib env (session_of lib msg self)
            (truncate_text_to_tokens (str_strip lib answer)
               (_max_output_tokens (bot_config self) (scope_of msg)))]
  ∧ (∃ messages,
       new_events self (handle_message lib env msg self).2
       = [EvAppendHistory (scope_of msg) (session_id (session_of lib msg self))
            (received_record msg (session_of lib msg self) None);
          EvCooldownCheck "session" (session_id (session_of lib msg self));
          EvCooldownCheck "user" (sender_id msg);
          EvLoadHistory (scope_of msg) (session_id (session_of lib msg self));
          EvLlmSend messages;
          EvSendText (session_of lib msg self)
            (truncate_text_to_tokens (str_strip lib answer)
               (_max_output_tokens (bot_config self) (scope_of msg)));
          EvAppendHistory (scope_of msg) (session_id (session_of lib msg self))
            (sent_record lib env (session_of lib msg self)
               (truncate_text_to_tokens (str_strip lib answer)
                  (_max_output_tokens (bot_config self) (scope_of msg))))])
  ∧ rate_limit.cm_last_hit (bot_session_cooldown (handle_message lib env msg self).2)
      !! session_id (session_of lib msg self) = Some (t_session_cooldown env)
  ∧ rate_limit.cm_last_hit (bot_user_cooldown (handle_message lib env msg self).2)
      !! sender_id msg = Some (t_user_cooldown env)
  ∧ rate_limit.failure_count (bot_failure_tracker (handle_message lib env msg self).2)
      (session_id (session_of lib msg self)) = 0.
Proof.
  intros Hself Hfresh Hopen Htrigger Himage Hsession Huser Hgates Hsend Htext Hadapter.
  destruct (handle_message_passed lib env msg self true Hself Hfresh Hopen Htrigger)
    as (resolved & Htrace & Hsc & Huc & Hcfg & Hhist & ->).
  destruct (resolve_session_frame lib msg self) as (_ & _ & _ & _ & _ & _ & _ & Hscope).
  set (session := (_resolve_session lib msg self).1) in *.
  rewrite <- Hscope in *.
  cbn [negb]. unfold record_inbound. rewrite Himage. cbn [fst snd].
  unfold reply_to, _append_history.
  cbn [bot_session_cooldown bot_user_cooldown emit set_store set_session_cooldown
       set_user_cooldown].
  rewrite Hsc, Huc, (in_cooldown_passed _ _ _ Hsession), (in_cooldown_passed _ _ _ Huser).
  match goal with
  | |- context [_generate_reply lib env msg session None ?s] => set (ready := s)
  end.
  assert (Hready : bot_config ready = bot_config self) by (by rewrite <- Hcfg).
  rewrite (generate_reply_answered lib env msg session None ready answer);
    [|by rewrite Hready | done | apply Hsend].
  cbn zeta.
  assert (Hstripped : truthy (str_strip lib answer) = true).
  { destruct (str_strip lib answer) eqn:Hstrip; [|done].
    by rewrite truncate_text_to_tokens_empty in Htext. }
  rewrite Hstripped.
  rewrite Hready, Htext, Hadapter. cbn [fst snd].
  split; [done|]. split.
  { unfold _append_reply. subst ready.
    cbn [bot_store emit set_store set_failure_tracker set_session_cooldown
         set_user_cooldown].
    by rewrite !load_history_append, Hhist, <- app_assoc. }
  split.
  { eexists. apply new_events_app. subst ready. cbn. rewrite Htrace.
    by rewrite <- !app_assoc. }
  subst ready. cbn. rewrite !lookup_insert_eq. repeat (split; [done|]).
  unfold rate_limit.failure_count, rate_limit.register_success. cbn.
  by rewrite lookup_insert_eq.
Qed.

Lemma answered_event_is_recorded_and_sent_witness :
  storage.load_history "private" "0543017a9759e385"
    (bot_store
       (handle_message pyref.lib (backend_answers " Hi, Alice! ") examples.hello
          (WxAutoBot_init examples.sample_config None)).2)
  = [received_record examples.hello examples.hello_session None;
     sent_record pyref.lib (backend_answers " Hi, Alice! ") examples.hello_session
       "Hi, Alice!"].
Proof.
  destruct (answered_event_is_recorded_and_sent pyref.lib (backend_answers " Hi, Alice! ")
              examples.hello (WxAutoBot_init examples.sample_config None) " Hi, Alice! ")
    as (_ & Hhistory & _).
  - reflexivity.
  - reflexivity.
  - reflexivity.
  - reflexivity.
  - reflexivity.
  - reflexivity.
  - reflexivity.
  - reflexivity.
  - intros messages. reflexivity.
  - reflexivity.
  - reflexivity.
  - vm_compute in Hhistory |- *. exact Hhistory.
Defined.

(** X29. A group event that does not mention the bot never triggers a
    reply, in either group mode and whatever the keywords; trigger
    evaluation of a group event never raises (the regular expression is
    for private chats only); and outside the mode [mention_keyword] a
    mention alone triggers the reply. *)
Theorem group_reply_needs_mention (lib : pylib) (cfg : BotConfig) (msg : IncomingMessage) :
  is_group msg = true →
  (is_at msg = false → _should_trigger lib cfg msg = Returned false)
  ∧ (∃ should_reply, _should_trigger lib cfg msg = Returned should_reply)
  ∧ (is_at msg = true → group_mode (trigger cfg) ≠ "mention_keyword"%string →
     _should_trigger lib cfg msg = Returned true).
Proof.
  intros Hgroup. unfold _should_trigger. rewrite Hgroup.
  destruct (String.eqb_spec (group_mode (trigger cfg)) "mention_keyword") as [Hmode|Hmode].
  - split; [by intros ->|]. split; [eauto|]. by intros _ ?.
  - split; [by intros ->|]. split; [eauto|]. by intros ->.
Qed.

Lemma group_reply_needs_mention_witness :
  _should_trigger pyref.lib examples.keyword_config group_chatter = Returned false.
Proof.
  apply (group_reply_needs_mention pyref.lib examples.keyword_config group_chatter eq_refl).
  reflexivity.
Defined.

(** X30. The poll loop only ever adds to the store.  After any sequence
    of events, in any worlds and however the runs end, every history holds
    what it held before as its beginning (no record is dropped, changed or
    reordered), and every image file that existed still exists with the
    same bytes. *)
Theorem handle_all_is_append_only (lib : pylib) (events : list (run_env * IncomingMessage))
    (self : WxAutoBot) :
  store_extends (bot_store self) (bot_store (handle_all lib events self).2).
Proof.
  revert self. induction events as [|[env msg] rest IH]; intros self.
  { apply store_extends_refl. }
  cbn [handle_all].
  destruct (handle_message_frame lib env msg self) as (_ & _ & Hstore).
  destruct (handle_message lib env msg self) as [[[]|exc] after]; cbn [snd] in *.
  - eapply store_extends_trans; [exact Hstore | apply IH].
  - exact Hstore.
Qed.

End bot_more.
